(** * CloudHealth FlexReport operator scripts: a shallow embedding

    The repository holds independent Python scripts.  This development
    embeds two of them,

    - [execute-and-download-flexreport.py] (authenticate, trigger a report,
      poll its status with backoff, download the CSV), and
    - [create-flexreports.py] (bulk creation of reports from a manifest),

    as Rocq functions over an explicit world (the trace of effects and the
    file system), and proves properties of the poll loop, of filename
    sanitization, of authentication, of the download step and of the
    bulk-creation loop. *)

From Stdlib Require Import ZArith String Ascii List Lia Bool.
From stdpp Require Import base option list gmap strings.

Set Warnings "-register-all".
Local Open Scope string_scope.
Local Open Scope Z_scope.
Local Open Scope list_scope.

(** ** Python values and the little of Python's semantics the scripts use *)

Module Py.

(** Values produced by [json.load] / [response.json()].  A dict is kept as
    its list of bindings, looked up by the first binding of a key; JSON
    numbers are integers here. *)
Inductive json : Type :=
| JNull
| JBool (b : bool)
| JNum (n : Z)
| JStr (s : string)
| JList (l : list json)
| JDict (d : list (string * json)).

(** The exceptions the scripts raise or let escape.  [SystemExit] is what
    [sys.exit] raises. *)
Inductive exn : Type :=
| ValueError (msg : string)
| RuntimeError (msg : string)
| KeyError (key : string)
| TypeError
| AttributeError
| IndexError
| EOFError
| RequestException (msg : string)
| SystemExit (code : Z).

Inductive res (A : Type) : Type :=
| Ok (a : A)
| Raise (e : exn).
Arguments Ok {A} a.
Arguments Raise {A} e.

(** [bool(v)], the truth value tested by [if v] and [not v]. *)
Definition truthy (v : json) : bool :=
  match v with
  | JNull => false
  | JBool b => b
  | JNum n => negb (n =? 0)
  | JStr s => negb (String.eqb s "")
  | JList l => match l with [] => false | _ => true end
  | JDict d => match d with [] => false | _ => true end
  end.

Fixpoint assoc (k : string) (d : list (string * json)) : option json :=
  match d with
  | [] => None
  | (k', v) :: d' => if String.eqb k k' then Some v else assoc k d'
  end.

(** [v == "s"] for a string literal. *)
Definition eq_str (v : json) (s : string) : bool :=
  match v with
  | JStr s' => String.eqb s' s
  | _ => false
  end.

(** [x in s] for two strings: substring test. *)
Fixpoint contains (sub s : string) : bool :=
  if String.prefix sub s then true
  else match s with
       | EmptyString => false
       | String _ s' => contains sub s'
       end.

(** ["k" in v]: key of a dict, element of a list, substring of a string;
    [TypeError] for values that are not containers. *)
Definition has (k : string) (v : json) : res bool :=
  match v with
  | JDict d => Ok (bool_decide (is_Some (assoc k d)))
  | JList l => Ok (existsb (fun x => eq_str x k) l)
  | JStr s => Ok (contains k s)
  | _ => Raise TypeError
  end.

(** [v["k"]] for a string key. *)
Definition getitem (v : json) (k : string) : res json :=
  match v with
  | JDict d => match assoc k d with
               | Some x => Ok x
               | None => Raise (KeyError k)
               end
  | _ => Raise TypeError
  end.

(** [v.get("k", default)]: only dicts have the method. *)
Definition get (v : json) (k : string) (dflt : json) : res json :=
  match v with
  | JDict d => Ok (default dflt (assoc k d))
  | _ => Raise AttributeError
  end.

(** [v[0]]. *)
Definition getitem0 (v : json) : res json :=
  match v with
  | JList [] => Raise IndexError
  | JList (x :: _) => Ok x
  | JDict _ => Raise (KeyError "0")
  | JStr s => match s with
              | EmptyString => Raise IndexError
              | String c _ => Ok (JStr (String c EmptyString))
              end
  | _ => Raise TypeError
  end.

End Py.

(** ** Effects: the world, the environment and the script monad *)

Module Script.
Import Py.

(** A printed line is kept as the pieces of its f-string. *)
Inductive piece : Type :=
| Lit (s : string)
| Int (n : Z)
| Val (v : json)
| Err (e : exn)
| Scaled (num den : Z) (unit : string).
Definition line := list piece.

Inductive request : Type :=
| Post (url : string) (bearer : option json) (query : string) (variables : json)
| Get (url : json).

(** What the network gives back for one request: [NoReply] when
    [requests] raises a [RequestException] before any response (its text
    is [why]); otherwise the status code, the text [raise_for_status]
    would give its [HTTPError], the body parsed as JSON when it parses,
    and the raw content. *)
Inductive http_reply : Type :=
| NoReply (why : string)
| Reply (status : Z) (reason : string) (body : option json) (content : string).

Inductive event : Type :=
| Sent (r : request)
| Slept (secs : Z)
| Printed (l : line)
| Prompted (prompt : string)
| Drew (i : nat).

(** The world threaded through a script: the chronological trace of its
    effects (oldest first), the files it has written (a file is the list
    of chunks written to it), and the script's module-level variables
    that change, of a type [G] chosen by the script. *)
Record world (G : Type) : Type := mkWorld {
  trace : list event;
  fs : gmap string (list piece);
  globals : G
}.
Arguments mkWorld {G} trace fs globals.
Arguments trace {G} w.
Arguments fs {G} w.
Arguments globals {G} w.

Definition M (G A : Type) : Type := world G -> res A * world G.

Section Monad.
Context {G : Type}.

Definition ret {A} (a : A) : M G A := fun w => (Ok a, w).
Definition raise {A} (e : exn) : M G A := fun w => (Raise e, w).
Definition bind {A B} (m : M G A) (k : A -> M G B) : M G B :=
  fun w => match m w with
           | (Ok a, w') => k a w'
           | (Raise e, w') => (Raise e, w')
           end.
Definition lift {A} (r : res A) : M G A := fun w => (r, w).

End Monad.

Definition bindR {A B} (r : res A) (k : A -> res B) : res B :=
  match r with
  | Ok a => k a
  | Raise e => Raise e
  end.

Declare Scope script_scope.
Delimit Scope script_scope with script.
Notation "'let*' x ':=' m 'in' k" := (bind m (fun x => k))
  (at level 10, x pattern, m at level 100, k at level 200) : script_scope.
Notation "m ;; k" := (bind m (fun _ => k))
  (at level 100, k at level 200, right associativity) : script_scope.
Notation "'let?' x ':=' r 'in' k" := (bindR r (fun x => k))
  (at level 10, x pattern, r at level 100, k at level 200) : script_scope.
Local Open Scope script_scope.

Section Effects.
Context {G : Type}.

(** The world after further events. *)
Definition extend (w : world G) (evs : list event) : world G :=
  mkWorld (trace w ++ evs) (fs w) (globals w).

(** [try: body except <classes>: handler], where [handler e] is [None]
    for the exceptions the clause does not name. *)
Definition try_except {A} (body : M G A) (handler : exn -> option (M G A)) : M G A :=
  fun w => match body w with
           | (Ok a, w') => (Ok a, w')
           | (Raise e, w') =>
               match handler e with
               | Some h => h w'
               | None => (Raise e, w')
               end
           end.

Definition emit (e : event) : M G unit :=
  fun w => (Ok tt, extend w [e]).

Definition print (l : line) : M G unit := emit (Printed l).
Definition sleep (secs : Z) : M G unit := emit (Slept secs).
Definition sys_exit {A} (code : Z) : M G A := raise (SystemExit code).

Definition is_sent (e : event) : bool :=
  match e with Sent _ => true | _ => false end.
Definition is_prompted (e : event) : bool :=
  match e with Prompted _ => true | _ => false end.
Definition is_drew (e : event) : bool :=
  match e with Drew _ => true | _ => false end.

(** Number of HTTP requests issued, of prompts shown and of random draws
    taken so far. *)
Definition requests_made (w : world G) : nat := length (List.filter is_sent (trace w)).
Definition prompts_made (w : world G) : nat := length (List.filter is_prompted (trace w)).
Definition draws_made (w : world G) : nat := length (List.filter is_drew (trace w)).

(** The durations slept and the lines printed, in order. *)
Definition sleeps (t : list event) : list Z :=
  omap (fun e => match e with Slept s => Some s | _ => None end) t.
Definition printed (t : list event) : list line :=
  omap (fun e => match e with Printed l => Some l | _ => None end) t.
Definition sent (t : list event) : list request :=
  omap (fun e => match e with Sent r => Some r | _ => None end) t.

(** A result that is not an exit requested with [sys.exit]. *)
Definition no_exit {A} (r : res A) : Prop :=
  match r with
  | Raise (SystemExit _) => False
  | _ => True
  end.

(** The exit status of the process given how the script ended: 0 when it
    runs off its end, the argument of [sys.exit], and 1 after the
    traceback of an exception nobody caught. *)
Definition exit_code {A} (r : res A) : Z :=
  match r with
  | Ok _ => 0
  | Raise (SystemExit c) => c
  | Raise _ => 1
  end.

Section Environment.

(** The environment: the reply to the n-th request the process issues,
    and the n-th line typed at a prompt ([None]: end of input or an
    interrupt). *)
Variable net : nat -> http_reply.
Variable stdin : nat -> option string.

Definition http (r : request) : M G http_reply :=
  fun w => (Ok (net (requests_made w)), extend w [Sent r]).

Definition input (prompt : string) : M G (option string) :=
  fun w => (Ok (stdin (prompts_made w)), extend w [Prompted prompt]).

End Environment.

(** [open(name, "w")] followed by the writes of [chunks]. *)
Definition write_file (name : string) (chunks : list piece) : M G unit :=
  fun w => (Ok tt, mkWorld (trace w) (<[name := chunks]> (fs w)) (globals w)).

Definition get_globals : M G G := fun w => (Ok (globals w), w).
Definition set_globals (g : G) : M G unit :=
  fun w => (Ok tt, mkWorld (trace w) (fs w) g).

End Effects.

(** *** Counting requests *)

(** [m] issues at most [n] requests, from any world. *)
Definition at_most {G A} (n : nat) (m : M G A) : Prop :=
  forall w, (requests_made (snd (m w)) <= requests_made w + n)%nat.

End Script.

(** ** execute-and-download-flexreport.py *)

Module ExecuteAndDownload.
Import Py Script.
Local Open Scope script_scope.

(** *** Strings *)

Fixpoint map_string (f : ascii -> ascii) (s : string) : string :=
  match s with
  | EmptyString => EmptyString
  | String c s' => String (f c) (map_string f s')
  end.

Definition in_range (lo hi : ascii) (c : ascii) : bool :=
  ((N_of_ascii lo <=? N_of_ascii c) && (N_of_ascii c <=? N_of_ascii hi))%N.

(** The characters the class [[a-zA-Z0-9._-]] accepts. *)
Definition allowed (c : ascii) : bool :=
  in_range "a" "z" c || in_range "A" "Z" c || in_range "0" "9" c
  || Ascii.eqb c "." || Ascii.eqb c "_" || Ascii.eqb c "-".

(** [s.replace(old, new)] for one-character [old] and [new]. *)
Definition replace (old new : ascii) (s : string) : string :=
  map_string (fun c => if Ascii.eqb c old then new else c) s.

(** [re.sub(r'[^a-zA-Z0-9._-]', '_', s)]. *)
Definition re_sub_disallowed (s : string) : string :=
  map_string (fun c => if allowed c then c else "_"%char) s.

Definition sanitize_filename (filename : string) : string :=
  let filename := replace " " "_" filename in
  let filename := re_sub_disallowed filename in
  filename.

(** Whitespace as [str.strip()] sees it, for code points below 256. *)
Definition is_space (c : ascii) : bool :=
  let n := N_of_ascii c in
  ((9 <=? n) && (n <=? 13) || (28 <=? n) && (n <=? 32) || (n =? 133) || (n =? 160))%N.

Fixpoint lstrip (s : string) : string :=
  match s with
  | String c s' => if is_space c then lstrip s' else s
  | EmptyString => EmptyString
  end.

Fixpoint rstrip (s : string) : string :=
  match s with
  | EmptyString => EmptyString
  | String c s' =>
      match rstrip s' with
      | EmptyString => if is_space c then EmptyString else String c EmptyString
      | t => String c t
      end
  end.

Definition strip (s : string) : string := rstrip (lstrip s).

Definition dquote : string := String "034"%char EmptyString.

(** [format_size]: the unit chosen by the loop and the quantity it would
    format with one decimal, kept as an exact fraction.  The code divides
    in floating point: the fraction is the float it holds for sizes below
    2^53, which a float represents exactly and divides by a power of two
    without rounding; larger sizes are rounded by the code, and from
    2^1024 on the division raises [OverflowError]. *)
Fixpoint format_size_loop (units : list string) (num den : Z) : piece :=
  match units with
  | [] => Scaled num den "TB"
  | u :: units' =>
      if num <? 1024 * den then Scaled num den u
      else format_size_loop units' num (den * 1024)
  end.

Definition format_size (size_bytes : Z) : piece :=
  format_size_loop ["B"; "KB"; "MB"; "GB"] size_bytes 1.

Definition print_header (text : line) : M unit unit :=
  print [Lit "=============================================="] ;;
  print text ;;
  print [Lit "=============================================="].

(** *** class CloudHealthFlexReport *)

Record client : Type := mkClient {
  api_key : string;
  access_token : json
}.

Definition base_url : string := "https://apps.cloudhealthtech.com/graphql".

(** The messages of the GraphQL errors: [error.get("message", "Unknown
    error")] for each element, which iterating anything but a list of
    dicts cannot deliver. *)
Fixpoint error_messages (errors : list json) : res (list json) :=
  match errors with
  | [] => Ok []
  | e :: errors' =>
      let? m := get e "message" (JStr "Unknown error") in
      let? ms := error_messages errors' in
      Ok (m :: ms)
  end.

(** [', '.join(msgs)]: every item must be a string. *)
Fixpoint join (msgs : list json) : res string :=
  match msgs with
  | [] => Ok ""
  | [JStr s] => Ok s
  | JStr s :: msgs' => let? t := join msgs' in Ok (s +:+ ", " +:+ t)
  | _ => Raise TypeError
  end.

Definition graphql_errors (errors : json) : res json :=
  match errors with
  | JList l =>
      let? msgs := error_messages l in
      let? text := join msgs in
      Raise (RuntimeError ("GraphQL query failed: " +:+ text))
  | JDict _ | JStr _ => Raise AttributeError
  | _ => Raise TypeError
  end.

(** What [_execute_query] does with the reply to its request. *)
Definition check_reply (r : http_reply) : res json :=
  match r with
  | NoReply why => Raise (RuntimeError ("Network request failed: " +:+ why))
  | Reply status reason body _ =>
      if (400 <=? status) && (status <? 600)
      then Raise (RuntimeError ("Network request failed: " +:+ reason))
      else match body with
           | None => Raise (RuntimeError "Failed to parse API response as JSON")
           | Some data =>
               let? present := has "errors" data in
               if present then
                 let? errors := getitem data "errors" in
                 if truthy errors then graphql_errors errors else Ok data
               else Ok data
           end
  end.

Section Client.

Variable net : nat -> http_reply.

Definition _execute_query (self : client) (query : string) (variables : json)
    (authenticated : bool) : M unit json :=
  let* bearer :=
    (if authenticated then
       if truthy (access_token self) then ret (Some (access_token self))
       else raise (ValueError "Not authenticated. Call authenticate() first.")
     else ret None) in
  let* reply := http net (Post base_url bearer query variables) in
  lift (check_reply reply).

Definition login_query : string :=
  "mutation Login($apiKey:String!){loginAPI(apiKey:$apiKey){accessToken}}".

(** The checks [authenticate] makes on the response, giving the token. *)
Definition token_of_response (response : json) : res json :=
  if negb (truthy response) then
    Raise (ValueError "Failed to authenticate: Invalid API response")
  else
    let? has_data := has "data" response in
    if negb has_data then
      Raise (ValueError "Failed to authenticate: Invalid API response")
    else
      let? data := getitem response "data" in
      let? has_login := has "loginAPI" data in
      if negb has_login then
        Raise (ValueError "Failed to authenticate: Invalid API response")
      else
        let? data := getitem response "data" in
        let? login := getitem data "loginAPI" in
        let? token := getitem login "accessToken" in
        if negb (truthy token) || eq_str token "null" then
          Raise (ValueError "Failed to obtain access token")
        else Ok token.

(** [authenticate] returns the client with its token set. *)
Definition authenticate (self : client) : M unit client :=
  let* response :=
    _execute_query self login_query (JDict [("apiKey", JStr (api_key self))]) false in
  let* token := lift (token_of_response response) in
  ret (mkClient (api_key self) token).

Definition report_query (report_id : string) : string :=
  "query queryReport{
                node(id:" +:+ dquote +:+ report_id +:+ dquote +:+ "){
                    id
                    ... on FlexReport{
                        name
                        result{
                            status
                            reportUpdatedOn
                            contents{
                                preSignedUrl
                            }
                        }
                    }
                }
            }".

Definition node_of_response (response : json) : res json :=
  if negb (truthy response) then Raise (ValueError "Invalid report information response")
  else
    let? has_data := has "data" response in
    if negb has_data then Raise (ValueError "Invalid report information response")
    else
      let? data := getitem response "data" in
      let? has_node := has "node" data in
      if negb has_node then Raise (ValueError "Invalid report information response")
      else
        let? data := getitem response "data" in
        getitem data "node".

Definition get_report_info (self : client) (report_id : string) : M unit json :=
  let* response := _execute_query self (report_query report_id) (JDict []) true in
  lift (node_of_response response).

Definition execute_report (self : client) (report_id : string) : M unit unit :=
  _execute_query self
    ("mutation executeFlexReport{triggerFlexReportExecution(id:"
       +:+ dquote +:+ report_id +:+ dquote +:+ ")}")
    (JDict []) true ;;
  ret tt.

Definition download_report (url : json) (filename : string) : M unit Z :=
  let* reply := http net (Get url) in
  match reply with
  | NoReply why => raise (RuntimeError ("Download failed: " +:+ why))
  | Reply status reason _ content =>
      if (400 <=? status) && (status <? 600)
      then raise (RuntimeError ("Download failed: " +:+ reason))
      else
        write_file filename [Lit content] ;;
        ret (Z.of_nat (String.length content))
  end.

End Client.

(** *** main *)

(** [int(sleep_time * 1.5)]: the product is exact in binary floating
    point for the magnitudes a delay reaches, and [int] truncates toward
    zero. *)
Definition int_times_1_5 (sleep_time : Z) : Z := Z.quot (3 * sleep_time) 2.

Definition max_retries : Z := 5.

(** The status the loop reads out of a report-information node. *)
Definition status_of_info (report_info : json) : res json :=
  let? result := get report_info "result" (JDict []) in
  let? status := get result "status" JNull in
  if negb (truthy status) then Raise (ValueError "Failed to retrieve report status")
  else Ok status.

(** The URL the download step reads out of the last node polled. *)
Definition download_url_of (report_info : json) : res json :=
  let? result := get report_info "result" (JDict []) in
  let? contents := get result "contents" (JList [JDict []]) in
  let? first := getitem0 contents in
  let? download_url := get first "preSignedUrl" JNull in
  if negb (truthy download_url) || eq_str download_url "null"
  then Raise (ValueError "Failed to retrieve download URL")
  else Ok download_url.

Section Main.

Variable net : nat -> http_reply.
Variable stdin : nat -> option string.

(** One status check: the [try] block at the head of the loop body with
    its handler. *)
Definition check_status (self : client) (report_id : string) : M unit (json * json) :=
  try_except
    (let* report_info := get_report_info net self report_id in
     let* status := lift (status_of_info report_info) in
     ret (report_info, status))
    (fun e =>
       match e with
       | ValueError _ | RuntimeError _ =>
           Some (print [Lit "ERROR: Failed to check report status - "; Err e] ;;
                 sys_exit 1)
       | _ => None
       end).

(** The [while True] loop; [fuel] bounds the number of iterations the
    model unfolds, and the result is [None] only if it runs out.  On
    [break] the result is the [report_info] of the last check. *)
Fixpoint poll_loop (fuel : nat) (self : client) (report_id : string)
    (counter sleep_time : Z) : M unit (option json) :=
  match fuel with
  | O => ret None
  | S fuel' =>
      let* (report_info, status) := check_status self report_id in
      print [Lit "Status check #"; Int counter; Lit ": "; Val status] ;;
      if eq_str status "COMPLETED" then
        print [] ;;
        print_header [Lit "REPORT COMPLETED SUCCESSFULLY"] ;;
        ret (Some report_info)
      else if eq_str status "QUEUED" then
        print [] ;;
        print [Lit "WARNING: Report is QUEUED"] ;;
        print [Lit "This may indicate the report is waiting for resources."] ;;
        print [Lit "Please check status in the CloudHealth platform."] ;;
        sys_exit 1
      else if eq_str status "FAILED" then
        print [] ;;
        print_header [Lit "ERROR: REPORT EXECUTION FAILED"] ;;
        print [Lit "Please check the report configuration in the CloudHealth platform."] ;;
        sys_exit 1
      else if counter >=? max_retries then
        print [] ;;
        print_header [Lit "TIMEOUT: Report still running after 5 checks"] ;;
        print [Lit "The report is taking longer than expected."] ;;
        print [Lit "Please check status in the CloudHealth platform."] ;;
        sys_exit 1
      else
        let counter := counter + 1 in
        let sleep_time := if counter >? 1 then int_times_1_5 sleep_time else sleep_time in
        print [Lit "Next status check in "; Int sleep_time; Lit " seconds..."] ;;
        print [] ;;
        sleep sleep_time ;;
        poll_loop fuel' self report_id counter sleep_time
  end.

(** The wait before the first check, the initial values of the loop
    variables, and the loop. *)
Definition poll (fuel : nat) (self : client) (report_id : string) : M unit (option json) :=
  sleep 15 ;;
  let counter := 1 in
  let sleep_time := 10 in
  poll_loop fuel self report_id counter sleep_time.

(** Everything after the loop: find the URL, name the file, download. *)
Definition download_step (self : client) (report_name report_info : json) : M unit unit :=
  print [] ;;
  print [Lit "Preparing to download report..."] ;;
  let* download_url :=
    try_except (lift (download_url_of report_info))
      (fun e =>
         match e with
         | ValueError _ | IndexError => Some (print [Lit "ERROR: "; Err e] ;; sys_exit 1)
         | _ => None
         end) in
  let* download_name :=
    match report_name with
    | JStr s => ret (sanitize_filename s)
    | _ => raise AttributeError
    end in
  let output_file := download_name +:+ ".csv" in
  print [Lit "Report Name: "; Val report_name] ;;
  print [Lit "Download URL: "; Val download_url] ;;
  print [Lit "Saving as: "; Lit output_file] ;;
  print [] ;;
  let* file_size :=
    try_except (download_report net download_url output_file)
      (fun e =>
         match e with
         | RuntimeError _ =>
             Some (print [] ;;
                   print_header [Lit "ERROR: DOWNLOAD FAILED"] ;;
                   print [Lit "Please try downloading manually from the CloudHealth platform."] ;;
                   sys_exit 1)
         | _ => None
         end) in
  print_header [Lit "DOWNLOAD COMPLETE"] ;;
  print [Lit "File saved: "; Lit output_file] ;;
  print [] ;;
  print [Lit "File size: "; format_size file_size] ;;
  print [].

(** Lines 251-348: the poll and, once the loop is left by [break], the
    download.  The result is [None] only when the loop ran out of [fuel]. *)
Definition poll_and_download (fuel : nat) (self : client)
    (report_id : string) (report_name : json) : M unit (option unit) :=
  let* polled := poll fuel self report_id in
  match polled with
  | None => ret None
  | Some report_info =>
      download_step self report_name report_info ;;
      ret (Some tt)
  end.

(** [input(prompt).strip()] under the handler for an interrupt or the
    end of input. *)
Definition prompt_stripped (prompt : string) : M unit string :=
  let* typed := input stdin prompt in
  match typed with
  | Some s => ret (strip s)
  | None =>
      print [Lit "

Operation cancelled by user"] ;;
      sys_exit 1
  end.

(** The client after [authenticate], or the exit of lines 205-207. *)
Definition login (api_key : string) : M unit client :=
  try_except (authenticate net (mkClient api_key JNull))
    (fun e =>
       match e with
       | ValueError _ | RuntimeError _ =>
           Some (print [Lit "ERROR: Authentication failed - "; Err e] ;; sys_exit 1)
       | _ => None
       end).

(** [main], run without command-line arguments.  The result is [None]
    only when the poll loop ran out of [fuel]. *)
Definition main (fuel : nat) : M unit (option unit) :=
  print_header [Lit "CloudHealth FlexReport Execution Tool"] ;;
  print [] ;;
  let* api_key := prompt_stripped "Enter your CloudHealth API key: " in
  (if String.eqb api_key "" then
     print [Lit "ERROR: API key cannot be empty"] ;; sys_exit 1
   else ret tt) ;;
  print [] ;;
  print [Lit "Authenticating with CloudHealth API..."] ;;
  let* client := login api_key in
  print [Lit "Authentication successful"] ;;
  print [] ;;
  let* report_id := prompt_stripped "Enter FlexReport ID: " in
  (if String.eqb report_id "" then
     print [Lit "ERROR: FlexReport ID cannot be empty"] ;; sys_exit 1
   else ret tt) ;;
  print [] ;;
  let* report_name :=
    try_except
      (let* report_info := get_report_info net client report_id in
       let* report_name := lift (get report_info "name" JNull) in
       if negb (truthy report_name) then raise (ValueError "Failed to retrieve report name")
       else ret report_name)
      (fun e =>
         match e with
         | ValueError _ | RuntimeError _ =>
             Some (print [Lit "ERROR: Failed to get report information - "; Err e] ;;
                   sys_exit 1)
         | _ => None
         end) in
  print_header [Lit "EXECUTING REPORT: "; Val report_name] ;;
  print [] ;;
  try_except (execute_report net client report_id)
    (fun e =>
       match e with
       | RuntimeError _ =>
           Some (print [Lit "ERROR: Failed to execute report - "; Err e] ;; sys_exit 1)
       | _ => None
       end) ;;
  print [Lit "Report execution triggered successfully"] ;;
  print [Lit "Waiting 15 seconds before first status check..."] ;;
  print [] ;;
  poll_and_download fuel client report_id report_name.

End Main.

(** *** Vocabulary for statements about the poll loop *)

(** The request one status check issues. *)
Definition report_request (self : client) (report_id : string) : request :=
  Post base_url (Some (access_token self)) (report_query report_id) (JDict []).

(** What one status check reads in the reply to its request: the node and
    the status in it, or the exception raised on the way. *)
Definition poll_status (r : http_reply) : res (json * json) :=
  let? response := check_reply r in
  let? report_info := node_of_response response in
  let? status := status_of_info report_info in
  Ok (report_info, status).

(** The status a reply reports, when the check can read one. *)
Definition reported (r : http_reply) : option json :=
  match poll_status r with
  | Ok (_, status) => Some status
  | Raise _ => None
  end.

(** A status that none of the three comparisons of the loop recognises. *)
Definition still_running (status : json) : bool :=
  negb (eq_str status "COMPLETED") && negb (eq_str status "QUEUED")
  && negb (eq_str status "FAILED").

Definition status_line (counter : Z) (status : json) : line :=
  [Lit "Status check #"; Int counter; Lit ": "; Val status].

Definition rule : line := [Lit "=============================================="].

Definition completed_lines : list line :=
  [[]; rule; [Lit "REPORT COMPLETED SUCCESSFULLY"]; rule].

Definition queued_lines : list line :=
  [[]; [Lit "WARNING: Report is QUEUED"];
   [Lit "This may indicate the report is waiting for resources."];
   [Lit "Please check status in the CloudHealth platform."]].

Definition failed_lines : list line :=
  [[]; rule; [Lit "ERROR: REPORT EXECUTION FAILED"]; rule;
   [Lit "Please check the report configuration in the CloudHealth platform."]].

Definition timeout_lines : list line :=
  [[]; rule; [Lit "TIMEOUT: Report still running after 5 checks"]; rule;
   [Lit "The report is taking longer than expected."];
   [Lit "Please check status in the CloudHealth platform."]].

(** The events of one iteration that goes round the loop again, entered
    with [counter] and [sleep_time] and reading [status]. *)
Definition next_sleep (counter sleep_time : Z) : Z :=
  if counter + 1 >? 1 then int_times_1_5 sleep_time else sleep_time.

Definition round_events (self : client) (report_id : string)
    (counter sleep_time : Z) (status : json) : list event :=
  [Sent (report_request self report_id);
   Printed (status_line counter status);
   Printed [Lit "Next status check in "; Int (next_sleep counter sleep_time);
            Lit " seconds..."];
   Printed [];
   Slept (next_sleep counter sleep_time)].

(** The status read at the n-th request of the process ([JNull] when the
    reply gives none), and the events of [k] consecutive iterations that
    each go round again, the first of them issuing request number
    [first]. *)
Definition status_at (net : nat -> http_reply) (n : nat) : json :=
  default JNull (reported (net n)).

Fixpoint rounds_events (net : nat -> http_reply) (self : client) (report_id : string)
    (k first : nat) (counter sleep_time : Z) : list event :=
  match k with
  | O => []
  | S k' =>
      round_events self report_id counter sleep_time (status_at net first)
      ++ rounds_events net self report_id k' (S first) (counter + 1)
           (next_sleep counter sleep_time)
  end.

(** The delays slept by [k] such iterations. *)
Fixpoint delays (k : nat) (counter sleep_time : Z) : list Z :=
  match k with
  | O => []
  | S k' =>
      next_sleep counter sleep_time
      :: delays k' (counter + 1) (next_sleep counter sleep_time)
  end.

Fixpoint sleep_after (k : nat) (counter sleep_time : Z) : Z :=
  match k with
  | O => sleep_time
  | S k' => sleep_after k' (counter + 1) (next_sleep counter sleep_time)
  end.

(** The events of an iteration that ends the loop after printing [lines]. *)
Definition final_events (self : client) (report_id : string)
    (counter : Z) (status : json) (lines : list line) : list event :=
  Sent (report_request self report_id)
  :: Printed (status_line counter status) :: map Printed lines.

(** *** Vocabulary for statements about authentication *)

(** The one request [authenticate] issues. *)
Definition login_request (api_key : string) : request :=
  Post base_url None login_query (JDict [("apiKey", JStr api_key)]).

(** What [authenticate] makes of the reply to it: the token, or the
    exception raised on the way. *)
Definition auth_outcome (r : http_reply) : res json :=
  let? response := check_reply r in
  token_of_response response.

(** The exceptions the handler around [authenticate] in [main] names. *)
Definition reported_as_auth_failure (e : exn) : bool :=
  match e with
  | ValueError _ | RuntimeError _ => true
  | _ => false
  end.

(** A token [authenticate] accepts: truthy and not the string ["null"]. *)
Definition valid_token (token : json) : bool :=
  truthy token && negb (eq_str token "null").

(** A JSON object without GraphQL errors: no [errors] entry, or a falsy
    one. *)
Definition error_free (top : list (string * json)) : Prop :=
  assoc "errors" top = None
  \/ exists errors, assoc "errors" top = Some errors /\ truthy errors = false.

(** The reply grants [token]: it arrived with a status outside 400-599
    and a JSON object without GraphQL errors whose
    [data.loginAPI.accessToken] is [token], a valid one. *)
Definition grants (r : http_reply) (token : json) : Prop :=
  exists status reason top data login content,
    r = Reply status reason (Some (JDict top)) content
    /\ ~ (400 <= status < 600)
    /\ error_free top
    /\ assoc "data" top = Some (JDict data)
    /\ assoc "loginAPI" data = Some (JDict login)
    /\ assoc "accessToken" login = Some token
    /\ valid_token token = true.

(** What [main] has printed and asked when it calls [authenticate]. *)
Definition before_login : list event :=
  [Printed rule; Printed [Lit "CloudHealth FlexReport Execution Tool"]; Printed rule;
   Printed [];
   Prompted "Enter your CloudHealth API key: ";
   Printed [];
   Printed [Lit "Authenticating with CloudHealth API..."]].

(** *** Sample data *)

Definition sample_node (status : string) (contents : list json) : json :=
  JDict [("id", JStr "crn:1:flexreport/7");
         ("name", JStr "My Report (Q1)!");
         ("result", JDict [("status", JStr status);
                           ("reportUpdatedOn", JNull);
                           ("contents", JList contents)])].

Definition descriptor (url : string) : json := JDict [("preSignedUrl", JStr url)].

Definition report_reply (status : string) : http_reply :=
  Reply 200 "OK"
    (Some (JDict [("data", JDict [("node",
       sample_node status [descriptor "https://files.test/a.csv";
                           descriptor "https://files.test/b.csv"])])]))
    "".

Definition login_reply (token : json) : http_reply :=
  Reply 200 "OK"
    (Some (JDict [("data", JDict [("loginAPI", JDict [("accessToken", token)])])])) "".

(** Two malformed login replies: a [loginAPI] object without
    [accessToken], and a null [data]. *)
Definition login_without_token : http_reply :=
  Reply 200 "OK" (Some (JDict [("data", JDict [("loginAPI", JDict [])])])) "".

Definition login_null_data : http_reply :=
  Reply 200 "OK" (Some (JDict [("data", JNull)])) "".

Definition sample_client : client := mkClient "api-key" (JStr "token").

Definition fresh : world unit := mkWorld [] ∅ tt.

Definition all_running : nat -> http_reply := fun _ => report_reply "RUNNING".

Definition completes_third : nat -> http_reply :=
  fun n => match n with
           | 2%nat => report_reply "COMPLETED"
           | _ => report_reply "RUNNING"
           end.

Definition unreachable : nat -> http_reply := fun _ => NoReply "connection refused".

(** A whole session: login, the name of the report, the trigger, three
    status checks of which the last reports COMPLETED, the download. *)
Definition session : nat -> http_reply :=
  fun n => match n with
           | 0%nat => login_reply (JStr "token")
           | 1%nat | 3%nat | 4%nat => report_reply "RUNNING"
           | 2%nat => Reply 200 "OK"
                        (Some (JDict [("data",
                           JDict [("triggerFlexReportExecution", JBool true)])])) ""
           | 5%nat => report_reply "COMPLETED"
           | _ => Reply 200 "OK" None "month,cost"
           end.

Definition typed : nat -> option string :=
  fun n => match n with
           | 0%nat => Some " api-key "
           | _ => Some "crn:1:flexreport/7"
           end.

Definition queued_second : nat -> http_reply :=
  fun n => match n with
           | 1%nat => report_reply "QUEUED"
           | _ => report_reply "RUNNING"
           end.

(** *** Further vocabulary and sample data *)

(** One character of [sanitize_filename]. *)
Definition sanitize_char (c : ascii) : ascii :=
  if Ascii.eqb c " " || negb (allowed c) then "_"%char else c.

Fixpoint all_allowed (s : string) : bool :=
  match s with
  | EmptyString => true
  | String c s' => allowed c && all_allowed s'
  end.

(** A JSON body that reports no GraphQL error: no [errors] entry, or a
    falsy one. *)
Definition no_graphql_errors (data : json) : Prop :=
  has "errors" data = Ok false
  \/ exists errors, has "errors" data = Ok true
                    /\ getitem data "errors" = Ok errors /\ truthy errors = false.

(** The request [execute_report] issues. *)
Definition trigger_request (self : client) (report_id : string) : request :=
  Post base_url (Some (access_token self))
    ("mutation executeFlexReport{triggerFlexReportExecution(id:"
       +:+ dquote +:+ report_id +:+ dquote +:+ ")}")
    (JDict []).

(** The message [_execute_query] reads in one GraphQL error, and whether
    it is one [', '.join] accepts: absent, or a string. *)
Definition message_of (error : list (string * json)) : string :=
  match assoc "message" error with
  | Some (JStr s) => s
  | _ => "Unknown error"
  end.

Definition string_message (error : list (string * json)) : bool :=
  match assoc "message" error with
  | Some (JStr _) | None => true
  | Some _ => false
  end.

(** The exceptions the handler of a status check names. *)
Definition caught_by_check (e : exn) : bool :=
  match e with
  | ValueError _ | RuntimeError _ => true
  | _ => false
  end.

(** Sum of the durations slept. *)
Definition total (durations : list Z) : Z := foldr Z.add 0 durations.

(** What the download step prints before it requests the file. *)
Definition before_download (report_name download_url : json) (output_file : string)
    : list event :=
  [Printed []; Printed [Lit "Preparing to download report..."];
   Printed [Lit "Report Name: "; Val report_name];
   Printed [Lit "Download URL: "; Val download_url];
   Printed [Lit "Saving as: "; Lit output_file];
   Printed []].

(** A reply [raise_for_status] lets through. *)
Definition delivered (r : http_reply) : option string :=
  match r with
  | NoReply _ => None
  | Reply status _ _ content =>
      if (400 <=? status) && (status <? 600) then None else Some content
  end.

(** What is typed at the next prompt is nothing usable: the input ended,
    or the line is blank once stripped. *)
Definition nothing_typed (stdin : nat -> option string) (n : nat) : bool :=
  match stdin n with
  | None => true
  | Some typed => String.eqb (strip typed) ""
  end.

(** A session in which the trigger gets no reply. *)
Definition trigger_refused : nat -> http_reply :=
  fun n => match n with
           | 0%nat => login_reply (JStr "token")
           | 1%nat => report_reply "RUNNING"
           | _ => NoReply "connection reset"
           end.

(** A server that delivers the file to whoever asks. *)
Definition file_server : nat -> http_reply := fun _ => Reply 200 "OK" None "month,cost".

End ExecuteAndDownload.

(** ** create-flexreports.py *)

Module CreateFlexReports.
Import Py Script.
Local Open Scope script_scope.

(** The two module-level lists the loop appends to. *)
Record lists : Type := mkLists {
  flex_report_ids : list json;
  successful_reports : list string
}.

Inductive load_result : Type :=
| NotFound
| LoadError (why : string)
| Loaded (report_definitions : json).

Definition graphql_endpoint : string := "https://apps.cloudhealthtech.com/graphql".

Definition flex_report_query : string := "
mutation CreateFlexReport($name: String!, $description: String!, $sqlStatement: String!, $needBackLinkingForTags: Boolean!, $dataGranularity: FlexReportDataGranularity!, $limit: Int!, $timeRangeLast: Int!, $excludeCurrent: Boolean!), 
{
  createFlexReport(input: {
    name: $name,
    description: $description,
    notification: {sendUserEmail: false},
    query: {
      sqlStatement: $sqlStatement,
      needBackLinkingForTags: $needBackLinkingForTags,
      dataGranularity: $dataGranularity,
      limit: $limit,
      timeRange: {last: $timeRangeLast excludeCurrent: $excludeCurrent}
    }
  }) {
    id
    name
  }
}
".

Definition get_access_token_query : string := "
mutation GetAccessToken($apiKey: String!) {
  loginAPI(apiKey: $apiKey) {
    accessToken
  }
}
".

Definition newline : string := String "010"%char EmptyString.

(** [string.ascii_uppercase + string.digits]. *)
Definition suffix_alphabet : string := "ABCDEFGHIJKLMNOPQRSTUVWXYZ0123456789".

(** What a [for] loop iterates over: the items of a list, the keys of a
    dict, the characters of a string; nothing else is iterable. *)
Fixpoint chars (s : string) : list json :=
  match s with
  | EmptyString => []
  | String c s' => JStr (String c EmptyString) :: chars s'
  end.

Definition iter_items (v : json) : res (list json) :=
  match v with
  | JList l => Ok l
  | JDict d => Ok (map (fun kv => JStr (fst kv)) d)
  | JStr s => Ok (chars s)
  | _ => Raise TypeError
  end.

(** The contents of the two output files: one [write] of [f"{x}\n"] per
    entry. *)
Definition id_lines (ids : list json) : list piece :=
  flat_map (fun flex_id => [Val flex_id; Lit newline]) ids.
Definition name_lines (names : list string) : list piece :=
  flat_map (fun report_name => [Lit report_name; Lit newline]) names.

Section Script.

(** The environment of a run: network, keyboard, random source (the n-th
    draw, reduced modulo the size of the population), command line,
    [open]+[json.load] of a file name, and two library functions taken as
    they are: [int] on a string and [str] on a value that is not a
    string. *)
Variable net : nat -> http_reply.
Variable stdin : nat -> option string.
Variable rng : nat -> nat.
Variable argv : list string.
Variable load : string -> load_result.
Variable int_of_str : string -> option Z.
Variable repr : json -> string.

Definition str (v : json) : string :=
  match v with
  | JStr s => s
  | _ => repr v
  end.

Definition int (v : json) : res Z :=
  match v with
  | JNum n => Ok n
  | JBool b => Ok (if b then 1 else 0)
  | JStr s => match int_of_str s with
              | Some n => Ok n
              | None => Raise (ValueError "invalid literal for int() with base 10")
              end
  | _ => Raise TypeError
  end.

Definition draw (population : string) : M lists ascii :=
  fun w =>
    let i := (rng (draws_made w) mod String.length population)%nat in
    (Ok (default "000"%char (String.get i population)), extend w [Drew i]).

(** [''.join(random.choices(population, k=k))]. *)
Fixpoint random_choices (population : string) (k : nat) : M lists string :=
  match k with
  | O => ret ""
  | S k' =>
      let* c := draw population in
      let* rest := random_choices population k' in
      ret (String c rest)
  end.

Definition get_filename : M lists string :=
  match argv with
  | _ :: a :: _ => ret a
  | _ =>
      let* typed := input stdin "Enter the JSON filename: " in
      match typed with
      | Some s => ret s
      | None => raise EOFError
      end
  end.

Definition append_id (flex_report_id : json) : M lists unit :=
  let* g := get_globals in
  set_globals (mkLists (flex_report_ids g ++ [flex_report_id]) (successful_reports g)).

Definition append_name (report_name : string) : M lists unit :=
  let* g := get_globals in
  set_globals (mkLists (flex_report_ids g) (successful_reports g ++ [report_name])).

(** The [flex_report_variables] dict of one manifest entry. *)
Definition variables_of (report_name_with_suffix : string) (report_definition : json)
    : res json :=
  let? description := getitem report_definition "description" in
  let? sqlStatement := getitem report_definition "sqlStatement" in
  let? dataGranularity := getitem report_definition "dataGranularity" in
  let? limit := getitem report_definition "limit" in
  let? limit := int limit in
  let? timeRange := getitem report_definition "timeRange" in
  let? timeRangeLast := int timeRange in
  let? backlinking := getitem report_definition "backlinking" in
  let? excludeCurrent := getitem report_definition "excludeCurrent" in
  Ok (JDict [("name", JStr report_name_with_suffix);
             ("description", description);
             ("sqlStatement", sqlStatement);
             ("dataGranularity", dataGranularity);
             ("limit", JNum limit);
             ("timeRangeLast", JNum timeRangeLast);
             ("needBackLinkingForTags", JBool (truthy backlinking));
             ("excludeCurrent", JBool (truthy excludeCurrent))]).

(** Lines 124-148: what the loop does with the response to one creation
    request. *)
Definition handle_response (report_name_with_suffix : string) (reply : http_reply)
    : M lists unit :=
  let failed (why : list piece) :=
    print (Lit "Failed to create FlexReport '" :: Lit report_name_with_suffix :: why) in
  match reply with
  | NoReply why => raise (RequestException why)
  | Reply status_code _ body text =>
      if status_code =? 200 then
        match body with
        | None => raise (RequestException "response body is not JSON")
        | Some flex_report_result =>
            match flex_report_result with
            | JNull => failed [Lit "'. Empty response received."]
            | _ =>
                let* flex_report_data := lift (get flex_report_result "data" (JDict [])) in
                if truthy flex_report_data then
                  let* create_flex_report_data :=
                    lift (get flex_report_data "createFlexReport" (JDict [])) in
                  if truthy create_flex_report_data then
                    let* flex_report_id := lift (get create_flex_report_data "id" JNull) in
                    if truthy flex_report_id then
                      append_id flex_report_id ;;
                      print [Lit "FlexReport '"; Lit report_name_with_suffix;
                             Lit "' created successfully!"] ;;
                      print [Lit "FlexReport ID:"; Lit " "; Val flex_report_id] ;;
                      print [] ;;
                      append_name report_name_with_suffix
                    else failed [Lit "'. FlexReport ID not found in response."]
                  else failed [Lit "'. 'createFlexReport' key not found in response."]
                else failed [Lit "'. 'data' key not found in response."]
            end
        end
      else
        failed [Lit "'. Status code:"; Lit " "; Int status_code] ;;
        print [Lit "Response:"; Lit " "; Lit text]
  end.

(** The body of the [for] loop. *)
Definition create_one (access_token : json) (report_definition : json) : M lists unit :=
  let* report_name := lift (getitem report_definition "name") in
  let* random_suffix := random_choices suffix_alphabet 6 in
  let report_name_with_suffix := str report_name +:+ " " +:+ random_suffix in
  let* flex_report_variables := lift (variables_of report_name_with_suffix report_definition) in
  let* _ := (match access_token with
             | JStr _ => ret tt
             | _ => raise TypeError
             end) in
  let* flex_report_response :=
    http net (Post graphql_endpoint (Some access_token) flex_report_query
                flex_report_variables) in
  handle_response report_name_with_suffix flex_report_response.

Fixpoint for_each (body : json -> M lists unit) (items : list json) : M lists unit :=
  match items with
  | [] => ret tt
  | x :: items' => body x ;; for_each body items'
  end.

(** Lines 150-159: the two output files. *)
Definition write_lists : M lists unit :=
  let* g := get_globals in
  write_file "previous-run.list" (id_lines (flex_report_ids g)) ;;
  match successful_reports g with
  | [] => ret tt
  | _ => write_file "successful_reports.list" (name_lines (successful_reports g))
  end.

(** Lines 78-92: the token request under its two handlers. *)
Definition get_access_token (api_key : string) : M lists json :=
  try_except
    (let* reply :=
       http net (Post graphql_endpoint None get_access_token_query
                   (JDict [("apiKey", JStr api_key)])) in
     match reply with
     | NoReply why => raise (RequestException why)
     | Reply status reason body _ =>
         if (400 <=? status) && (status <? 600) then raise (RequestException reason)
         else match body with
              | None => raise (RequestException "response body is not JSON")
              | Some response =>
                  lift (let? data := getitem response "data" in
                        let? login := getitem data "loginAPI" in
                        getitem login "accessToken")
              end
     end)
    (fun e =>
       match e with
       | RequestException _ =>
           Some (print [Lit "Failed to retrieve access token:"; Lit " "; Err e] ;; sys_exit 1)
       | KeyError _ =>
           Some (print [Lit "Error parsing access token response:"; Lit " "; Err e] ;;
                 sys_exit 1)
       | _ => None
       end).

(** Lines 94-148: the two empty lists and the loop over the manifest. *)
Definition create_all (access_token report_definitions : json) : M lists unit :=
  set_globals (mkLists [] []) ;;
  let* items := lift (iter_items report_definitions) in
  for_each (create_one access_token) items.

(** Lines 94-159: the loop and the output files. *)
Definition create_and_save (access_token report_definitions : json) : M lists unit :=
  create_all access_token report_definitions ;;
  write_lists.

(** The whole script. *)
Definition script : M lists unit :=
  let* json_filename := get_filename in
  let* report_definitions :=
    match load json_filename with
    | Loaded j => ret j
    | NotFound => print [Lit "File not found:"; Lit " "; Lit json_filename] ;; sys_exit 1
    | LoadError why => print [Lit "Error reading JSON file:"; Lit " "; Lit why] ;; sys_exit 1
    end in
  let* typed := input stdin "Enter your CloudHealth API key: " in
  let* api_key := (match typed with
                   | Some s => ret s
                   | None => raise EOFError
                   end) in
  let* access_token := get_access_token api_key in
  create_and_save access_token report_definitions.

(** *** Vocabulary for statements about the loop *)

(** The suffix made of [k] draws starting with draw number [first], and
    the events of drawing it. *)
Fixpoint picks (population : string) (k first : nat) : string :=
  match k with
  | O => ""
  | S k' =>
      String (default "000"%char
                (String.get (rng first mod String.length population)%nat population))
        (picks population k' (S first))
  end.

Fixpoint draw_events (population : string) (k first : nat) : list event :=
  match k with
  | O => []
  | S k' =>
      Drew (rng first mod String.length population)%nat
      :: draw_events population k' (S first)
  end.

(** The name under which the entry [report_definition] is created when
    its suffix starts at draw number [first]. *)
Definition suffixed_name (report_definition : json) (first : nat) : string :=
  match getitem report_definition "name" with
  | Ok report_name => str report_name +:+ " " +:+ picks suffix_alphabet 6 first
  | Raise _ => ""
  end.

(** A manifest entry the loop body can turn into a request. *)
Definition entry_ok (report_definition : json) : bool :=
  match getitem report_definition "name", variables_of "" report_definition with
  | Ok _, Ok _ => true
  | _, _ => false
  end.

End Script.

(** The request of one iteration. *)
Definition creation_request (access_token variables : json) : request :=
  Post graphql_endpoint (Some access_token) flex_report_query variables.

(** The world in which the loop handles the response to the request of an
    entry: the six draws of the suffix and the request have happened.
    [fields] are the variables of the request after the name. *)
Definition at_response (rng : nat -> nat) (repr : json -> string)
    (access_token report_definition : json) (w : world lists)
    (fields : list (string * json)) : world lists :=
  extend (extend w (draw_events rng suffix_alphabet 6 (draws_made w)))
    [Sent (creation_request access_token
             (JDict (("name", JStr (suffixed_name rng repr report_definition (draws_made w)))
                     :: fields)))].

(** The ID a response to a creation request carries, when the unwrapping
    of lines 124-132 finds one. *)
Definition created_id (reply : http_reply) : option json :=
  match reply with
  | Reply status_code _ (Some (JDict result)) _ =>
      if status_code =? 200 then
        match default (JDict []) (assoc "data" result) with
        | JDict ((_ :: _) as data) =>
            match default (JDict []) (assoc "createFlexReport" data) with
            | JDict ((_ :: _) as created) =>
                let flex_report_id := default JNull (assoc "id" created) in
                if truthy flex_report_id then Some flex_report_id else None
            | _ => None
            end
        | _ => None
        end
      else None
  | _ => None
  end.

(** The world after the loop has recorded a creation: three lines
    printed, the ID and the name appended to their lists. *)
Definition success_events (report_name : string) (flex_report_id : json) : list event :=
  [Printed [Lit "FlexReport '"; Lit report_name; Lit "' created successfully!"];
   Printed [Lit "FlexReport ID:"; Lit " "; Val flex_report_id];
   Printed []].

Definition record_creation (w : world lists) (flex_report_id : json)
    (report_name : string) : world lists :=
  mkWorld (trace w ++ success_events report_name flex_report_id) (fs w)
    (mkLists (flex_report_ids (globals w) ++ [flex_report_id])
       (successful_reports (globals w) ++ [report_name])).

(** A JSON body in which one of the keys [data], [createFlexReport], [id]
    is absent where the unwrapping looks for it. *)
Definition missing_key (flex_report_result : json) : Prop :=
  exists result, flex_report_result = JDict result /\
    (assoc "data" result = None
     \/ exists data, assoc "data" result = Some (JDict data) /\
          (assoc "createFlexReport" data = None
           \/ exists created, assoc "createFlexReport" data = Some (JDict created) /\
                assoc "id" created = None)).

(** The ID [flex_report_id] and the name [report_name] belong to one
    creation: some request of the trace carries the name and the reply
    to that request carries the ID. *)
Definition same_creation (net : nat -> http_reply) (w : world lists)
    (flex_report_id : json) (report_name : string) : Prop :=
  exists (n : nat) bearer variables,
    sent (trace w) !! n = Some (Post graphql_endpoint bearer flex_report_query variables)
    /\ assoc "name" (match variables with JDict d => d | _ => [] end)
       = Some (JStr report_name)
    /\ created_id (net n) = Some flex_report_id.

(** The two lists are paired: entry by entry, the ID and the name belong
    to one creation. *)
Definition paired (net : nat -> http_reply) (w : world lists) : Prop :=
  Forall2 (same_creation net w)
    (flex_report_ids (globals w)) (successful_reports (globals w)).

(** The report name a creation request carries. *)
Definition name_sent (r : request) : string :=
  match r with
  | Post _ _ _ (JDict d) =>
      match assoc "name" d with
      | Some (JStr s) => s
      | _ => ""
      end
  | _ => ""
  end.

(** The reports created by [requests], of which the first is request
    number [n] of the run: for every request whose reply carries an ID,
    in order, that ID and the name the request carries. *)
Fixpoint creations (net : nat -> http_reply) (n : nat) (requests : list request)
    : list (json * string) :=
  match requests with
  | [] => []
  | r :: requests' =>
      match created_id (net n) with
      | Some flex_report_id => (flex_report_id, name_sent r) :: creations net (S n) requests'
      | None => creations net (S n) requests'
      end
  end.

(** [r] is the creation request of the manifest entry
    [report_definition]: it carries the token and the suffixed name of
    the entry. *)
Definition requested_for (rng : nat -> nat) (repr : json -> string)
    (access_token report_definition : json) (r : request) : Prop :=
  exists first fields,
    r = creation_request access_token
          (JDict (("name", JStr (suffixed_name rng repr report_definition first))
                  :: fields)).

(** Both output files exist. *)
Definition both_files_written (w : world lists) : Prop :=
  is_Some (fs w !! "previous-run.list") /\ is_Some (fs w !! "successful_reports.list").

(** *** Sample data *)

Definition entry (name : string) : json :=
  JDict [("name", JStr name); ("description", JStr "monthly cost");
         ("sqlStatement", JStr "SELECT 1"); ("dataGranularity", JStr "MONTHLY");
         ("limit", JNum 100); ("timeRange", JNum 12);
         ("backlinking", JBool false); ("excludeCurrent", JBool true)].

Definition created (id : string) : http_reply :=
  Reply 200 "OK"
    (Some (JDict [("data", JDict [("createFlexReport",
       JDict [("id", JStr id); ("name", JStr "n")])])])) "".

Definition without_id : http_reply :=
  Reply 200 "OK"
    (Some (JDict [("data", JDict [("createFlexReport", JDict [("name", JStr "n")])])])) "".

Definition token_reply : http_reply :=
  Reply 200 "OK"
    (Some (JDict [("data", JDict [("loginAPI", JDict [("accessToken", JStr "token")])])])) "".

Definition second_omits_id : nat -> http_reply :=
  fun n => match n with
           | 0%nat => token_reply
           | 1%nat => created "id-1"
           | 2%nat => without_id
           | _ => created "id-3"
           end.

Definition all_rejected : nat -> http_reply :=
  fun n => match n with
           | 0%nat => token_reply
           | _ => Reply 500 "500 Server Error" None "busy"
           end.

Definition three_entries : json := JList [entry "A"; entry "B"; entry "C"].

(** For the sample runs: [int] on a string read as an optional minus
    sign and decimal digits, and [str] on the constants. *)
Fixpoint digits (s : string) (acc : Z) : option Z :=
  match s with
  | EmptyString => Some acc
  | String c s' =>
      let n := N_of_ascii c in
      if ((48 <=? n) && (n <=? 57))%N then digits s' (10 * acc + Z.of_N (n - 48))
      else None
  end.

Definition sample_int_of_str (s : string) : option Z :=
  match s with
  | EmptyString => None
  | String "-" (String c s') => option_map Z.opp (digits (String c s') 0)
  | _ => digits s 0
  end.

Definition sample_repr (v : json) : string :=
  match v with
  | JNull => "None"
  | JBool true => "True"
  | JBool false => "False"
  | _ => "?"
  end.
Definition counter_rng : nat -> nat := fun n => n.
Definition typed_key : nat -> option string := fun _ => Some "api-key".
Definition command_line : list string := ["create-flexreports.py"; "reports.json"].

Definition start : world lists := mkWorld [] ∅ (mkLists [] []).

(** The replies to the three creation requests alone. *)
Definition creations_second_omits_id : nat -> http_reply :=
  fun n => second_omits_id (S n).

(** A run over three entries of which the second gets no ID, and a run
    in which every creation is refused. *)
Definition run_second_omits_id : res unit * world lists :=
  script second_omits_id typed_key counter_rng command_line
    (fun _ => Loaded three_entries) sample_int_of_str sample_repr start.

Definition run_all_rejected : res unit * world lists :=
  script all_rejected typed_key counter_rng command_line
    (fun _ => Loaded three_entries) sample_int_of_str sample_repr start.

(** *** Further vocabulary and sample data *)

(** Every character of [s] occurs in [population]. *)
Fixpoint drawn_from (population s : string) : Prop :=
  match s with
  | EmptyString => True
  | String c s' => (exists j, String.get j population = Some c) /\ drawn_from population s'
  end.

(** A capital letter or a digit. *)
Definition upper_or_digit (c : ascii) : bool :=
  let n := N_of_ascii c in
  ((65 <=? n) && (n <=? 90) || (48 <=? n) && (n <=? 57))%N.

Fixpoint all_upper_or_digit (s : string) : bool :=
  match s with
  | EmptyString => true
  | String c s' => upper_or_digit c && all_upper_or_digit s'
  end.

(** The request for the access token. *)
Definition token_request (api_key : string) : request :=
  Post graphql_endpoint None get_access_token_query (JDict [("apiKey", JStr api_key)]).

(** A reply on which [requests.post] or [raise_for_status] raises. *)
Definition refused (r : http_reply) : bool :=
  match r with
  | NoReply _ => true
  | Reply status _ _ _ => (400 <=? status) && (status <? 600)
  end.

(** A manifest whose second entry has no name, and the replies of a
    server that creates every report. *)
Definition second_unnamed : json := JList [entry "A"; JDict []; entry "C"].
Definition all_created : nat -> http_reply := fun _ => created "id-1".
Definition nothing_loads : string -> load_result := fun _ => NotFound.
Definition token_refused : nat -> http_reply :=
  fun _ => Reply 401 "401 Client Error: Unauthorized" None "".

End CreateFlexReports.

(** * Properties *)

Module WorldFacts.
Import Py Script.

Section Facts.
Context {G : Type}.
Implicit Types (w : world G) (evs : list event).

Lemma extend_nil w : extend w [] = w.
Proof. destruct w as [t f g]. unfold extend. simpl. by rewrite app_nil_r. Qed.

Lemma extend_extend w evs1 evs2 :
  extend (extend w evs1) evs2 = extend w (evs1 ++ evs2).
Proof. unfold extend. simpl. by rewrite app_assoc. Qed.

Lemma trace_extend w evs : trace (extend w evs) = trace w ++ evs.
Proof. reflexivity. Qed.

Lemma requests_made_extend w evs :
  requests_made (extend w evs) = (requests_made w + length (List.filter is_sent evs))%nat.
Proof. unfold requests_made. simpl. by rewrite List.filter_app, length_app. Qed.

Lemma sleeps_app (t1 t2 : list event) : sleeps (t1 ++ t2) = sleeps t1 ++ sleeps t2.
Proof. apply omap_app. Qed.

Lemma printed_app (t1 t2 : list event) : printed (t1 ++ t2) = printed t1 ++ printed t2.
Proof. apply omap_app. Qed.

Lemma sent_app (t1 t2 : list event) : sent (t1 ++ t2) = sent t1 ++ sent t2.
Proof. apply omap_app. Qed.

Lemma printed_map_Printed (ls : list line) : printed (map Printed ls) = ls.
Proof. induction ls as [|l ls IH]; [done|]. unfold printed in *. cbn. by f_equal. Qed.

End Facts.
End WorldFacts.

Module PollFacts.
Import Py Script ExecuteAndDownload WorldFacts.

Ltac run_effects :=
  unfold print_header, print, sleep, sys_exit, emit, raise, ret, bind;
  cbn beta iota;
  rewrite ?extend_extend; cbn [app].

Section Poll.
Variable net : nat -> http_reply.
Variables (self : client) (report_id : string).
Hypothesis authenticated : truthy (access_token self) = true.

Lemma get_report_info_run (w : world unit) :
  get_report_info net self report_id w =
    (bindR (check_reply (net (requests_made w))) node_of_response,
     extend w [Sent (report_request self report_id)]).
Proof.
  unfold get_report_info, _execute_query, bind, http, lift, ret. rewrite authenticated.
  simpl. destruct (check_reply _); reflexivity.
Qed.

Lemma check_status_run (w : world unit) :
  check_status net self report_id w =
    let w1 := extend w [Sent (report_request self report_id)] in
    match poll_status (net (requests_made w)) with
    | Ok p => (Ok p, w1)
    | Raise e =>
        match e with
        | ValueError _ | RuntimeError _ =>
            (Raise (SystemExit 1),
             extend w1 [Printed [Lit "ERROR: Failed to check report status - "; Err e]])
        | _ => (Raise e, w1)
        end
    end.
Proof.
  unfold check_status, try_except, bind at 1. rewrite get_report_info_run.
  unfold poll_status.
  destruct (check_reply _) as [response|e]; simpl.
  - destruct (node_of_response response) as [info|e]; simpl.
    + unfold bind, lift, ret. destruct (status_of_info info) as [st|e]; simpl; [done|].
      destruct e; reflexivity.
    + destruct e; reflexivity.
  - destruct e; reflexivity.
Qed.

Lemma eq_str_true (v : json) (s : string) : eq_str v s = true <-> v = JStr s.
Proof.
  destruct v; simpl; try (split; [discriminate | congruence]).
  rewrite String.eqb_eq. split; congruence.
Qed.

Lemma poll_loop_round fuel counter sleep_time (w : world unit) info status :
  poll_status (net (requests_made w)) = Ok (info, status) ->
  still_running status = true ->
  counter < max_retries ->
  poll_loop net (S fuel) self report_id counter sleep_time w =
  poll_loop net fuel self report_id (counter + 1) (next_sleep counter sleep_time)
    (extend w (round_events self report_id counter sleep_time status)).
Proof.
  intros Hst Hrun Hlt. cbn [poll_loop]. unfold bind at 1.
  rewrite check_status_run, Hst. cbn zeta beta iota.
  unfold still_running in Hrun.
  apply andb_true_iff in Hrun as [Hrun Hf]. apply andb_true_iff in Hrun as [Hc Hq].
  apply negb_true_iff in Hc, Hq, Hf.
  unfold bind at 1.
  unfold print at 1, emit at 1. cbn beta iota.
  rewrite Hc, Hq, Hf.
  assert ((counter >=? max_retries) = false) as -> by (unfold max_retries in *; lia).
  fold (next_sleep counter sleep_time).
  run_effects. reflexivity.
Qed.

Lemma poll_loop_completed fuel counter sleep_time (w : world unit) info status :
  poll_status (net (requests_made w)) = Ok (info, status) ->
  eq_str status "COMPLETED" = true ->
  poll_loop net (S fuel) self report_id counter sleep_time w =
  (Ok (Some info),
   extend w (final_events self report_id counter status completed_lines)).
Proof.
  intros Hst Hc. cbn [poll_loop]. unfold bind at 1.
  rewrite check_status_run, Hst. cbn zeta beta iota.
  unfold bind at 1. unfold print at 1, emit at 1. cbn beta iota.
  rewrite Hc. run_effects. reflexivity.
Qed.

Lemma poll_loop_queued fuel counter sleep_time (w : world unit) info status :
  poll_status (net (requests_made w)) = Ok (info, status) ->
  eq_str status "QUEUED" = true ->
  poll_loop net (S fuel) self report_id counter sleep_time w =
  (Raise (SystemExit 1),
   extend w (final_events self report_id counter status queued_lines)).
Proof.
  intros Hst Hq. cbn [poll_loop]. unfold bind at 1.
  rewrite check_status_run, Hst. cbn zeta beta iota.
  unfold bind at 1. unfold print at 1, emit at 1. cbn beta iota.
  apply eq_str_true in Hq as ->. cbn [eq_str String.eqb Ascii.eqb Bool.eqb].
  run_effects. reflexivity.
Qed.

Lemma poll_loop_failed fuel counter sleep_time (w : world unit) info status :
  poll_status (net (requests_made w)) = Ok (info, status) ->
  eq_str status "FAILED" = true ->
  poll_loop net (S fuel) self report_id counter sleep_time w =
  (Raise (SystemExit 1),
   extend w (final_events self report_id counter status failed_lines)).
Proof.
  intros Hst Hq. cbn [poll_loop]. unfold bind at 1.
  rewrite check_status_run, Hst. cbn zeta beta iota.
  unfold bind at 1. unfold print at 1, emit at 1. cbn beta iota.
  apply eq_str_true in Hq as ->. cbn [eq_str String.eqb Ascii.eqb Bool.eqb].
  run_effects. reflexivity.
Qed.

Lemma poll_loop_timeout fuel counter sleep_time (w : world unit) info status :
  poll_status (net (requests_made w)) = Ok (info, status) ->
  still_running status = true ->
  max_retries <= counter ->
  poll_loop net (S fuel) self report_id counter sleep_time w =
  (Raise (SystemExit 1),
   extend w (final_events self report_id counter status timeout_lines)).
Proof.
  intros Hst Hrun Hge. cbn [poll_loop]. unfold bind at 1.
  rewrite check_status_run, Hst. cbn zeta beta iota.
  unfold still_running in Hrun.
  apply andb_true_iff in Hrun as [Hrun Hf]. apply andb_true_iff in Hrun as [Hc Hq].
  apply negb_true_iff in Hc, Hq, Hf.
  unfold bind at 1. unfold print at 1, emit at 1. cbn beta iota.
  rewrite Hc, Hq, Hf.
  assert ((counter >=? max_retries) = true) as -> by (unfold max_retries in *; lia).
  run_effects. reflexivity.
Qed.

Lemma reported_poll_status (r : http_reply) (status : json) :
  reported r = Some status -> exists info, poll_status r = Ok (info, status).
Proof.
  unfold reported. destruct (poll_status r) as [[info st]|e]; [|discriminate].
  intros [= ->]. by exists info.
Qed.

(** [k] iterations that each go round again. *)
Lemma poll_loop_rounds (k : nat) :
  forall fuel counter sleep_time (w : world unit),
    counter + Z.of_nat k <= max_retries ->
    (forall i, (i < k)%nat ->
       exists status, reported (net (requests_made w + i)) = Some status
                      /\ still_running status = true) ->
    poll_loop net (k + fuel) self report_id counter sleep_time w =
    poll_loop net fuel self report_id (counter + Z.of_nat k)
      (sleep_after k counter sleep_time)
      (extend w (rounds_events net self report_id k (requests_made w) counter sleep_time)).
Proof.
  induction k as [|k IH]; intros fuel counter sleep_time w Hle Hall.
  - cbn. rewrite extend_nil. by rewrite Z.add_0_r.
  - destruct (Hall 0%nat ltac:(lia)) as (status & Hrep & Hrun).
    rewrite Nat.add_0_r in Hrep.
    destruct (reported_poll_status _ _ Hrep) as [info Hst].
    change (S k + fuel)%nat with (S (k + fuel)).
    rewrite (poll_loop_round _ _ _ _ info status Hst Hrun) by lia.
    rewrite IH.
    + rewrite extend_extend. cbn [rounds_events sleep_after].
      rewrite requests_made_extend. cbn [round_events List.filter is_sent length].
      replace (requests_made w + 1)%nat with (S (requests_made w)) by lia.
      replace (counter + 1 + Z.of_nat k) with (counter + Z.of_nat (S k)) by lia.
      unfold status_at at 1. rewrite Hrep. cbn [default].
      reflexivity.
    + lia.
    + intros i Hi. rewrite requests_made_extend. cbn [round_events List.filter is_sent length].
      destruct (Hall (S i) ltac:(lia)) as (st & H1 & H2).
      exists st. split; [|done].
      replace (requests_made w + 1 + i)%nat with (requests_made w + S i)%nat by lia. done.
Qed.

Lemma sent_rounds_events (k : nat) : forall first counter sleep_time,
  sent (rounds_events net self report_id k first counter sleep_time)
  = replicate k (report_request self report_id).
Proof.
  induction k as [|k IH]; intros; [done|].
  cbn [rounds_events]. rewrite sent_app, IH. reflexivity.
Qed.

Lemma sleeps_rounds_events (k : nat) : forall first counter sleep_time,
  sleeps (rounds_events net self report_id k first counter sleep_time)
  = delays k counter sleep_time.
Proof.
  induction k as [|k IH]; intros; [done|].
  cbn [rounds_events]. rewrite sleeps_app, IH. reflexivity.
Qed.

Lemma requests_rounds_events (k : nat) : forall first counter sleep_time,
  length (List.filter is_sent (rounds_events net self report_id k first counter sleep_time))
  = k.
Proof.
  induction k as [|k IH]; intros; [done|].
  cbn [rounds_events]. rewrite List.filter_app, length_app, IH. reflexivity.
Qed.

End Poll.

Implicit Types (net : nat -> http_reply) (self : client) (report_id : string).

(** One status check issues at most one request, whoever the client is. *)
Lemma check_status_requests net self report_id (w : world unit) :
  (requests_made (snd (check_status net self report_id w)) <= requests_made w + 1)%nat.
Proof.
  destruct (truthy (access_token self)) eqn:Hauth.
  - rewrite check_status_run by done. cbn zeta.
    destruct (poll_status _) as [p|e]; [|destruct e]; cbn [snd];
      rewrite ?extend_extend, requests_made_extend; cbn; lia.
  - unfold check_status, try_except, get_report_info, _execute_query, bind at 1 2 3.
    rewrite Hauth. unfold raise, print, emit, sys_exit, bind, raise. cbn [snd].
    rewrite requests_made_extend. cbn. lia.
Qed.

Lemma poll_loop_terminates net self report_id (n : nat) :
  forall fuel counter sleep_time (w : world unit),
    max_retries - counter <= Z.of_nat n ->
    (n < fuel)%nat ->
    exists r w',
      poll_loop net fuel self report_id counter sleep_time w = (r, w')
      /\ r <> Ok None /\ (requests_made w' <= requests_made w + S n)%nat.
Proof.
  induction n as [|n IH]; intros fuel counter sleep_time w Hn Hfuel;
    (destruct fuel as [|fuel]; [lia|]); cbn [poll_loop]; unfold bind at 1;
    pose proof (check_status_requests net self report_id w) as Hreq;
    destruct (check_status net self report_id w) as [[[info status]|e] w1];
    cbn [snd] in Hreq; cbn beta iota.
  all: try (eexists _, _; split; [reflexivity|]; split; [discriminate | lia]).
  all: unfold bind at 1; unfold print at 1, emit at 1; cbn beta iota.
  all: destruct (eq_str status "COMPLETED");
    [run_effects; eexists _, _; split; [reflexivity|]; split;
     [discriminate|rewrite requests_made_extend; cbn; lia] | ].
  all: destruct (eq_str status "QUEUED");
    [run_effects; eexists _, _; split; [reflexivity|]; split;
     [discriminate|rewrite requests_made_extend; cbn; lia] | ].
  all: destruct (eq_str status "FAILED");
    [run_effects; eexists _, _; split; [reflexivity|]; split;
     [discriminate|rewrite requests_made_extend; cbn; lia] | ].
  all: destruct (counter >=? max_retries) eqn:Hc;
    [run_effects; eexists _, _; split; [reflexivity|]; split;
     [discriminate|rewrite requests_made_extend; cbn; lia] | ].
  - unfold max_retries in *. lia.
  - run_effects.
    match goal with
    | |- context [poll_loop net fuel self report_id ?c ?s ?w'] =>
        destruct (IH fuel c s w' ltac:(unfold max_retries in *; lia) ltac:(lia))
          as (r & w2 & H0 & H1 & H2)
    end.
    exists r, w2. split; [exact H0|]. split; [exact H1|].
    etrans; [exact H2|]. rewrite requests_made_extend. cbn. lia.
Qed.

(** [poll] after [k] iterations that each went round again. *)
Lemma poll_rounds net self report_id (k fuel : nat) (w : world unit) :
  truthy (access_token self) = true ->
  (k <= 4)%nat ->
  (forall i, (i < k)%nat ->
     exists status, reported (net (requests_made w + i)%nat) = Some status
                    /\ still_running status = true) ->
  poll net (k + fuel) self report_id w =
  poll_loop net fuel self report_id (1 + Z.of_nat k) (sleep_after k 1 10)
    (extend w (Slept 15 :: rounds_events net self report_id k (requests_made w) 1 10)).
Proof.
  intros Hauth Hk Hall. unfold poll. unfold bind at 1, sleep at 1, emit at 1.
  cbn beta iota zeta.
  rewrite poll_loop_rounds; try done.
  - rewrite extend_extend, requests_made_extend. cbn [List.filter is_sent length app].
    rewrite Nat.add_0_r. reflexivity.
  - unfold max_retries. lia.
  - intros i Hi. rewrite requests_made_extend. cbn [List.filter is_sent length].
    rewrite Nat.add_0_r. by apply Hall.
Qed.

Lemma requests_made_after_rounds net self report_id (k : nat) (w : world unit) c s :
  requests_made (extend w (Slept 15 :: rounds_events net self report_id k (requests_made w) c s))
  = (requests_made w + k)%nat.
Proof.
  rewrite requests_made_extend. cbn [List.filter is_sent].
  by rewrite requests_rounds_events.
Qed.

Lemma sent_after_final net self report_id (k : nat) (w : world unit) c s c' status lines :
  sent (trace (extend
          (extend w (Slept 15 :: rounds_events net self report_id k (requests_made w) c s))
          (final_events self report_id c' status lines)))
  = sent (trace w) ++ replicate (S k) (report_request self report_id).
Proof.
  rewrite !trace_extend, !sent_app.
  change (sent (Slept 15 :: ?t)) with (sent t).
  rewrite sent_rounds_events. unfold final_events.
  change (sent (Sent ?r :: Printed ?l :: ?t)) with (r :: sent t).
  assert (forall ls : list line, sent (map Printed ls) = []) as ->.
  { induction ls as [|l ls IH]; [done|]. exact IH. }
  rewrite <- app_assoc. f_equal.
  replace (S k) with (k + 1)%nat by lia. by rewrite replicate_add.
Qed.

Lemma printed_after_final (w : world unit) evs self report_id c status lines :
  exists before,
    printed (trace (extend (extend w evs) (final_events self report_id c status lines)))
    = before ++ lines.
Proof.
  exists (printed (trace w) ++ printed evs ++ [status_line c status]).
  rewrite !trace_extend, !printed_app. unfold final_events.
  change (printed (Sent ?r :: Printed ?l :: ?t)) with (l :: printed t).
  rewrite printed_map_Printed. rewrite <- !app_assoc. reflexivity.
Qed.

End PollFacts.

Module PollTheorems.
Import Py Script ExecuteAndDownload WorldFacts PollFacts.
Implicit Types (net : nat -> http_reply) (self : client) (report_id : string).

(** C1.  Whatever the replies, the poll loop ends within five status
    checks once it has fuel for five iterations.  When the first five
    replies each report a status that is none of COMPLETED, QUEUED and
    FAILED, the loop makes exactly five checks and leaves through the
    retry ceiling: it prints the timeout message and exits with status 1. *)
Theorem poll_retry_ceiling net self report_id (fuel : nat) (w : world unit) :
  (5 <= fuel)%nat ->
  (exists r w', poll net fuel self report_id w = (r, w') /\ r <> Ok None
      /\ (requests_made w' <= requests_made w + 5)%nat)
  /\
  (truthy (access_token self) = true ->
   (forall i, (i < 5)%nat ->
      exists status, reported (net (requests_made w + i)%nat) = Some status
                     /\ still_running status = true) ->
   exists w',
     poll net fuel self report_id w = (Raise (SystemExit 1), w')
     /\ exit_code (fst (poll net fuel self report_id w)) = 1
     /\ sent (trace w') = sent (trace w) ++ replicate 5 (report_request self report_id)
     /\ exists before, printed (trace w') = before ++ timeout_lines).
Proof.
  intros Hfuel. split.
  - unfold poll, bind at 1, sleep at 1, emit at 1. cbn beta iota.
    destruct (poll_loop_terminates net self report_id 4 fuel 1 10 (extend w [Slept 15]))
      as (r & w' & Hrun & Hr & Hreq); [unfold max_retries; lia | lia |].
    exists r, w'. split; [exact Hrun|]. split; [exact Hr|].
    rewrite requests_made_extend in Hreq. cbn in Hreq. lia.
  - intros Hauth Hall.
    replace fuel with (4 + S (fuel - 5))%nat by lia.
    rewrite poll_rounds by (try done; try lia; intros i Hi; apply Hall; lia).
    destruct (Hall 4%nat ltac:(lia)) as (status & Hrep & Hrun).
    destruct (reported_poll_status _ _ Hrep) as [info Hst].
    rewrite (poll_loop_timeout net self report_id Hauth _ _ _ _ info status).
    + eexists. split; [reflexivity|]. split; [reflexivity|]. split.
      * apply sent_after_final.
      * apply printed_after_final.
    + by rewrite requests_made_after_rounds.
    + exact Hrun.
    + unfold max_retries. lia.
Qed.

Lemma poll_retry_ceiling_witness :
  exists w',
    poll all_running 5 sample_client "crn:1:flexreport/7" fresh = (Raise (SystemExit 1), w')
    /\ exit_code (fst (poll all_running 5 sample_client "crn:1:flexreport/7" fresh)) = 1
    /\ sent (trace w')
       = sent (trace fresh)
         ++ replicate 5 (report_request sample_client "crn:1:flexreport/7")
    /\ exists before, printed (trace w') = before ++ timeout_lines.
Proof.
  apply (poll_retry_ceiling all_running sample_client "crn:1:flexreport/7" 5 fresh).
  - lia.
  - reflexivity.
  - intros i _. exists (JStr "RUNNING"). split; reflexivity.
Defined.

(** The delays of a run whose five checks all go unrecognised. *)
Lemma poll_sleeps_running net self report_id (fuel : nat) (w : world unit) :
  truthy (access_token self) = true ->
  (5 <= fuel)%nat ->
  (forall i, (i < 5)%nat ->
     exists status, reported (net (requests_made w + i)%nat) = Some status
                    /\ still_running status = true) ->
  sleeps (trace (snd (poll net fuel self report_id w)))
  = sleeps (trace w) ++ [15; 15; 22; 33; 49].
Proof.
  intros Hauth Hfuel Hall.
  replace fuel with (4 + S (fuel - 5))%nat by lia.
  rewrite poll_rounds by (try done; try lia; intros i Hi; apply Hall; lia).
  destruct (Hall 4%nat ltac:(lia)) as (status & Hrep & Hrun).
  destruct (reported_poll_status _ _ Hrep) as [info Hst].
  rewrite (poll_loop_timeout net self report_id Hauth _ _ _ _ info status);
    [| by rewrite requests_made_after_rounds | exact Hrun | unfold max_retries; lia].
  cbn [snd]. rewrite !trace_extend, !sleeps_app.
  change (sleeps (Slept 15 :: ?t)) with (15 :: sleeps t).
  rewrite sleeps_rounds_events.
  assert (sleeps (final_events self report_id (1 + Z.of_nat 4) status timeout_lines) = [])
    as -> by reflexivity.
  rewrite app_nil_r. reflexivity.
Qed.

(** C2.  The delays slept when every reply reports RUNNING: the wait of
    15 before the first check, then 15, 22, 33 and 49 between the five
    checks.  The initial delay of 10 is multiplied before it is ever
    slept. *)
Theorem poll_delays_all_running :
  sleeps (trace (snd (poll all_running 5 sample_client "crn:1:flexreport/7" fresh)))
  = [15; 15; 22; 33; 49].
Proof. vm_compute. reflexivity. Qed.

(** C3.  With statuses RUNNING, RUNNING, COMPLETED the loop makes exactly
    three checks, stops with the node of the third reply, and [main]
    goes on with the download step for that node. *)
Theorem poll_running_running_completed net self report_id report_name
    (fuel : nat) (w : world unit) (info : json) :
  truthy (access_token self) = true ->
  (3 <= fuel)%nat ->
  reported (net (requests_made w)) = Some (JStr "RUNNING") ->
  reported (net (requests_made w + 1)%nat) = Some (JStr "RUNNING") ->
  poll_status (net (requests_made w + 2)%nat) = Ok (info, JStr "COMPLETED") ->
  exists w',
    poll net fuel self report_id w = (Ok (Some info), w')
    /\ sent (trace w') = sent (trace w) ++ replicate 3 (report_request self report_id)
    /\ poll_and_download net fuel self report_id report_name w
       = bind (download_step net self report_name info) (fun _ => ret (Some tt)) w'.
Proof.
  intros Hauth Hfuel H0 H1 H2.
  assert (poll net fuel self report_id w
          = (Ok (Some info),
             extend (extend w (Slept 15 :: rounds_events net self report_id 2
                                             (requests_made w) 1 10))
               (final_events self report_id (1 + Z.of_nat 2) (JStr "COMPLETED")
                  completed_lines))) as Hpoll.
  { replace fuel with (2 + S (fuel - 3))%nat by lia.
    rewrite poll_rounds; [| done | lia |].
    - apply (poll_loop_completed net self report_id Hauth); [|reflexivity].
      by rewrite requests_made_after_rounds.
    - intros i Hi. exists (JStr "RUNNING"). split; [|reflexivity].
      destruct i as [|[|i]]; [by rewrite Nat.add_0_r | done | lia]. }
  eexists. split; [exact Hpoll|]. split.
  - apply sent_after_final.
  - unfold poll_and_download. unfold bind at 1. rewrite Hpoll. reflexivity.
Qed.

Lemma poll_running_running_completed_witness :
  exists w',
    poll completes_third 3 sample_client "crn:1:flexreport/7" fresh
    = (Ok (Some (sample_node "COMPLETED"
                   [descriptor "https://files.test/a.csv";
                    descriptor "https://files.test/b.csv"])), w')
    /\ sent (trace w')
       = sent (trace fresh)
         ++ replicate 3 (report_request sample_client "crn:1:flexreport/7")
    /\ poll_and_download completes_third 3 sample_client "crn:1:flexreport/7"
         (JStr "My Report (Q1)!") fresh
       = bind (download_step completes_third sample_client (JStr "My Report (Q1)!")
                 (sample_node "COMPLETED"
                    [descriptor "https://files.test/a.csv";
                     descriptor "https://files.test/b.csv"]))
           (fun _ => ret (Some tt)) w'.
Proof.
  apply (poll_running_running_completed completes_third sample_client
           "crn:1:flexreport/7" (JStr "My Report (Q1)!") 3 fresh);
    solve [reflexivity | lia].
Defined.

(** C4.  When the reply to a status check the loop reaches (the [k]
    checks before it went round again) reports QUEUED or FAILED, the
    run ends at that check: [k + 1] requests in all, the message of that
    status printed last, exit status 1. *)
Theorem poll_aborts_on_queued_or_failed net self report_id
    (fuel k : nat) (w : world unit) (status : json) :
  truthy (access_token self) = true ->
  (k < 5)%nat ->
  (k < fuel)%nat ->
  (forall i, (i < k)%nat ->
     exists earlier, reported (net (requests_made w + i)%nat) = Some earlier
                     /\ still_running earlier = true) ->
  reported (net (requests_made w + k)%nat) = Some status ->
  status = JStr "QUEUED" \/ status = JStr "FAILED" ->
  exists w',
    poll net fuel self report_id w = (Raise (SystemExit 1), w')
    /\ exit_code (fst (poll net fuel self report_id w)) = 1
    /\ sent (trace w') = sent (trace w) ++ replicate (S k) (report_request self report_id)
    /\ exists before,
         printed (trace w')
         = before ++ (if eq_str status "QUEUED" then queued_lines else failed_lines).
Proof.
  intros Hauth Hk Hfuel Hall Hrep Hstatus.
  destruct (reported_poll_status _ _ Hrep) as [info Hst].
  replace fuel with (k + S (fuel - S k))%nat by lia.
  rewrite poll_rounds by (done || lia).
  destruct Hstatus as [-> | ->].
  - rewrite (poll_loop_queued net self report_id Hauth _ _ _ _ info (JStr "QUEUED"));
      [| by rewrite requests_made_after_rounds | reflexivity].
    eexists. split; [reflexivity|]. split; [reflexivity|]. split.
    + apply sent_after_final.
    + apply printed_after_final.
  - rewrite (poll_loop_failed net self report_id Hauth _ _ _ _ info (JStr "FAILED"));
      [| by rewrite requests_made_after_rounds | reflexivity].
    eexists. split; [reflexivity|]. split; [reflexivity|]. split.
    + apply sent_after_final.
    + apply printed_after_final.
Qed.

Lemma poll_aborts_on_queued_or_failed_witness :
  exists w',
    poll queued_second 5 sample_client "crn:1:flexreport/7" fresh
    = (Raise (SystemExit 1), w')
    /\ exit_code (fst (poll queued_second 5 sample_client "crn:1:flexreport/7" fresh)) = 1
    /\ sent (trace w')
       = sent (trace fresh)
         ++ replicate 2 (report_request sample_client "crn:1:flexreport/7")
    /\ exists before, printed (trace w') = before ++ queued_lines.
Proof.
  apply (poll_aborts_on_queued_or_failed queued_second sample_client
           "crn:1:flexreport/7" 5 1 fresh (JStr "QUEUED")).
  - reflexivity.
  - lia.
  - lia.
  - intros i Hi. exists (JStr "RUNNING"). destruct i as [|i]; [|lia]. split; reflexivity.
  - reflexivity.
  - left. reflexivity.
Defined.

End PollTheorems.

Module SanitizeTheorems.
Import Py Script ExecuteAndDownload.

Lemma get_map_string (f : ascii -> ascii) (s : string) (i : nat) :
  String.get i (map_string f s) = option_map f (String.get i s).
Proof.
  revert i. induction s as [|c s IH]; intros i; [done|].
  destruct i as [|i]; [done|]. cbn. apply IH.
Qed.

Lemma length_map_string (f : ascii -> ascii) (s : string) :
  String.length (map_string f s) = String.length s.
Proof. induction s as [|c s IH]; [done|]. cbn. by rewrite IH. Qed.

(** C5.  [sanitize_filename] keeps the length of the name; position by
    position it puts an underscore for a space and for every character
    outside [a-zA-Z0-9._-] and keeps the others, so every character of
    the result is in that class.  The name ["My Report (Q1)!.csv"]
    becomes ["My_Report__Q1__"] followed by [".csv"], and the report name
    ["My Report (Q1)!"] becomes the base ["My_Report__Q1__"]. *)
Theorem sanitize_filename_replaces (filename : string) :
  String.length (sanitize_filename filename) = String.length filename
  /\ (forall i c, String.get i filename = Some c ->
        String.get i (sanitize_filename filename)
        = Some (if Ascii.eqb c " " || negb (allowed c) then "_"%char else c))
  /\ (forall i c, String.get i (sanitize_filename filename) = Some c -> allowed c = true)
  /\ sanitize_filename "My Report (Q1)!.csv" = "My_Report__Q1__" +:+ ".csv"
  /\ sanitize_filename "My Report (Q1)!" = "My_Report__Q1__".
Proof.
  assert (forall i c, String.get i filename = Some c ->
            String.get i (sanitize_filename filename)
            = Some (if Ascii.eqb c " " || negb (allowed c) then "_"%char else c)) as Hget.
  { intros i c Hc. unfold sanitize_filename, re_sub_disallowed, replace.
    rewrite !get_map_string, Hc. cbn [option_map]. f_equal.
    destruct (Ascii.eqb c " ") eqn:Hsp; cbn [orb].
    - reflexivity.
    - destruct (allowed c); reflexivity. }
  split; [|split; [exact Hget|split; [|split; reflexivity]]].
  - unfold sanitize_filename, re_sub_disallowed, replace. by rewrite !length_map_string.
  - intros i c Hc.
    destruct (String.get i filename) as [c0|] eqn:Hc0.
    + rewrite (Hget i c0 Hc0) in Hc. injection Hc as <-.
      destruct (Ascii.eqb c0 " "); cbn [orb]; [reflexivity|].
      destruct (allowed c0) eqn:Ha; [exact Ha | reflexivity].
    + unfold sanitize_filename, re_sub_disallowed, replace in Hc.
      rewrite !get_map_string, Hc0 in Hc. discriminate.
Qed.

Lemma sanitize_filename_replaces_witness :
  String.get 2 (sanitize_filename "My Report (Q1)!.csv") = Some "_"%char
  /\ allowed "_" = true.
Proof.
  destruct (sanitize_filename_replaces "My Report (Q1)!.csv") as (_ & Hget & Hall & _).
  split.
  - exact (Hget 2%nat " "%char eq_refl).
  - exact (Hall 2%nat "_"%char eq_refl).
Defined.

End SanitizeTheorems.

Module AuthTheorems.
Import Py Script ExecuteAndDownload WorldFacts PollFacts.
Implicit Types (net : nat -> http_reply) (stdin : nat -> option string).

Lemma authenticate_run net (api_key : string) (w : world unit) :
  authenticate net (mkClient api_key JNull) w =
  (match auth_outcome (net (requests_made w)) with
   | Ok token => Ok (mkClient api_key token)
   | Raise e => Raise e
   end,
   extend w [Sent (login_request api_key)]).
Proof.
  unfold authenticate, _execute_query, auth_outcome, bind, http, lift, ret. cbn.
  destruct (check_reply _) as [response|e]; cbn; [|reflexivity].
  destruct (token_of_response response); reflexivity.
Qed.

(** A token [authenticate] accepts is truthy and is not ["null"]. *)
Lemma token_of_response_valid (response token : json) :
  token_of_response response = Ok token ->
  truthy token = true /\ token <> JStr "null".
Proof.
  unfold token_of_response.
  destruct (negb (truthy response)); [discriminate|].
  destruct (has "data" response) as [[]|]; cbn; try discriminate.
  destruct (getitem response "data") as [data|]; cbn; [|discriminate].
  destruct (has "loginAPI" data) as [[]|]; cbn; try discriminate.
  destruct (getitem data "loginAPI") as [login|]; cbn; [|discriminate].
  destruct (getitem login "accessToken") as [tok|]; cbn; [|discriminate].
  destruct (truthy tok) eqn:Ht; cbn; [|discriminate].
  destruct (eq_str tok "null") eqn:Hn; [discriminate|].
  intros [= <-]. split; [done|]. intros ->. discriminate.
Qed.

Lemma no_exit_bindR {A B} (r : res A) (k : A -> res B) :
  no_exit r -> (forall a, no_exit (k a)) -> no_exit (bindR r k).
Proof. destruct r as [a|e]; cbn; [auto|]. by destruct e. Qed.

Lemma no_exit_get v k d : no_exit (get v k d).
Proof. by destruct v. Qed.

Lemma no_exit_getitem v k : no_exit (getitem v k).
Proof. destruct v; cbn; try done. by destruct (assoc k d). Qed.

Lemma no_exit_has k v : no_exit (has k v).
Proof. by destruct v. Qed.

Create HintDb no_exit.
#[local] Hint Resolve no_exit_get no_exit_getitem no_exit_has : no_exit.

Lemma no_exit_error_messages l : no_exit (error_messages l).
Proof.
  induction l as [|e l IH]; [done|]. cbn [error_messages].
  apply no_exit_bindR; [apply no_exit_get|]. intros m.
  apply no_exit_bindR; [exact IH|]. done.
Qed.

Lemma no_exit_join msgs : no_exit (join msgs).
Proof.
  induction msgs as [|m msgs IH]; [done|]. cbn [join].
  destruct m; try done. destruct msgs as [|m' msgs]; [done|].
  apply no_exit_bindR; [exact IH|]. done.
Qed.

Lemma no_exit_graphql_errors errors : no_exit (graphql_errors errors).
Proof.
  destruct errors; try done. cbn [graphql_errors].
  apply no_exit_bindR; [apply no_exit_error_messages|]. intros msgs.
  apply no_exit_bindR; [apply no_exit_join|]. done.
Qed.

Lemma no_exit_check_reply r : no_exit (check_reply r).
Proof.
  destruct r as [why|status reason [data|] content]; cbn [check_reply]; [done| |].
  - destruct (_ && _); [done|].
    apply no_exit_bindR; [apply no_exit_has|]. intros [|]; [|done].
    apply no_exit_bindR; [apply no_exit_getitem|]. intros errors.
    destruct (truthy errors); [apply no_exit_graphql_errors|done].
  - by destruct (_ && _).
Qed.

Lemma no_exit_token_of_response response : no_exit (token_of_response response).
Proof.
  unfold token_of_response. destruct (negb (truthy response)); [done|].
  apply no_exit_bindR; [auto with no_exit|]. intros [|]; [|done]. cbn [negb].
  apply no_exit_bindR; [auto with no_exit|]. intros data.
  apply no_exit_bindR; [auto with no_exit|]. intros [|]; [|done]. cbn [negb].
  do 3 (apply no_exit_bindR; [auto with no_exit|]; intros ?).
  by destruct (_ || _).
Qed.

Lemma no_exit_auth_outcome r : no_exit (auth_outcome r).
Proof.
  unfold auth_outcome. apply no_exit_bindR; [apply no_exit_check_reply|].
  apply no_exit_token_of_response.
Qed.

(** The failures the handler in [main] reports as authentication
    failures: no reply, an error status, a body that is not JSON, a JSON
    object without [data], and a token that is missing its value. *)
Lemma auth_failures_reported (why reason content : string) (status : Z)
    (top : list (string * json)) (token : json) :
  auth_outcome (NoReply why)
  = Raise (RuntimeError ("Network request failed: " +:+ why))
  /\ (400 <= status < 600 ->
      forall body, auth_outcome (Reply status reason body content)
                   = Raise (RuntimeError ("Network request failed: " +:+ reason)))
  /\ auth_outcome (Reply 200 reason None content)
     = Raise (RuntimeError "Failed to parse API response as JSON")
  /\ (assoc "errors" top = None -> assoc "data" top = None -> top <> [] ->
      auth_outcome (Reply 200 reason (Some (JDict top)) content)
      = Raise (ValueError "Failed to authenticate: Invalid API response"))
  /\ (negb (truthy token) || eq_str token "null" = true ->
      auth_outcome (login_reply token) = Raise (ValueError "Failed to obtain access token")).
Proof.
  split; [reflexivity|]. split; [|split; [reflexivity|split]].
  - intros Hstatus body. unfold auth_outcome, check_reply.
    assert ((400 <=? status) && (status <? 600) = true) as -> by lia. reflexivity.
  - intros Herrors Hdata Htop. unfold auth_outcome, check_reply.
    change ((400 <=? 200) && (200 <? 600)) with false. cbn [has].
    rewrite Herrors. rewrite bool_decide_eq_false_2 by (by intros [x Hx]).
    cbn [bindR]. unfold token_of_response. cbn [truthy].
    destruct top as [|kv top]; [done|]. cbn [negb has bindR].
    rewrite Hdata. rewrite bool_decide_eq_false_2 by (by intros [x Hx]). reflexivity.
  - intros Htoken. unfold auth_outcome, login_reply, check_reply.
    change ((400 <=? 200) && (200 <? 600)) with false.
    cbn [has assoc String.eqb Ascii.eqb Bool.eqb bindR]. cbn.
    unfold token_of_response. cbn. by rewrite Htoken.
Qed.

Lemma login_run net (api_key : string) (w : world unit) :
  login net api_key w =
  let w1 := extend w [Sent (login_request api_key)] in
  match auth_outcome (net (requests_made w)) with
  | Ok token => (Ok (mkClient api_key token), w1)
  | Raise e =>
      if reported_as_auth_failure e
      then (Raise (SystemExit 1),
            extend w1 [Printed [Lit "ERROR: Authentication failed - "; Err e]])
      else (Raise e, w1)
  end.
Proof.
  unfold login, try_except. rewrite authenticate_run.
  destruct (auth_outcome _) as [token|e]; [reflexivity|].
  destruct e; reflexivity.
Qed.

(** [main] up to the call of [authenticate], for a key typed at the
    prompt that is not blank. *)
Lemma prompts_made_extend (w : world unit) evs :
  prompts_made (extend w evs)
  = (prompts_made w + length (List.filter is_prompted evs))%nat.
Proof. unfold prompts_made. cbn. by rewrite List.filter_app, length_app. Qed.

Lemma main_until_login net stdin (fuel : nat) (w : world unit) (typed : string) :
  stdin (prompts_made w) = Some typed ->
  strip typed <> "" ->
  forall e w',
    login net (strip typed) (extend w before_login) = (Raise e, w') ->
    main net stdin fuel w = (Raise e, w').
Proof.
  intros Htyped Hkey e w' Hlogin.
  unfold main. unfold bind at 1 2. run_effects.
  unfold prompt_stripped at 1, input. run_effects.
  rewrite prompts_made_extend. cbn [List.filter is_prompted length].
  rewrite Nat.add_0_r, Htyped.
  apply String.eqb_neq in Hkey. rewrite Hkey.
  rewrite !extend_extend. cbn [app].
  change (extend w _) with (extend w before_login).
  by rewrite Hlogin.
Qed.

Lemma has_dict (k : string) (d : list (string * json)) :
  has k (JDict d) = Ok (match assoc k d with Some _ => true | None => false end).
Proof.
  cbn [has]. destruct (assoc k d) as [x|].
  - by rewrite bool_decide_eq_true_2.
  - rewrite bool_decide_eq_false_2; [done|]. by intros [x Hx].
Qed.

(** The body [_execute_query] returns for a JSON object. *)
Lemma check_reply_object (status : Z) (reason content : string)
    (top : list (string * json)) :
  ~ (400 <= status < 600) ->
  error_free top ->
  check_reply (Reply status reason (Some (JDict top)) content) = Ok (JDict top).
Proof.
  intros Hstatus Herrors. unfold check_reply.
  assert ((400 <=? status) && (status <? 600) = false) as -> by lia.
  rewrite has_dict. cbn [getitem].
  destruct Herrors as [->|(errors & -> & Hfalsy)]; cbn [bindR]; [done|].
  by rewrite Hfalsy.
Qed.

(** A reply that grants a token yields it, and only such a reply yields
    one. *)
Lemma auth_outcome_grants (r : http_reply) (token : json) :
  auth_outcome r = Ok token <-> grants r token.
Proof.
  split.
  - unfold auth_outcome. intros Hout.
    destruct r as [why|status reason [response|] content]; cbn [check_reply] in Hout;
      try discriminate Hout.
    2:{ destruct ((400 <=? status) && (status <? 600)); discriminate Hout. }
    destruct ((400 <=? status) && (status <? 600)) eqn:Hstatus; [discriminate Hout|].
    destruct response as [| | |s|l|top];
      try (cbn [has bindR] in Hout; discriminate Hout).
    { (* a string *)
      cbn [has bindR getitem] in Hout.
      destruct (contains "errors" s); cbn [bindR] in Hout; [discriminate Hout|].
      unfold token_of_response in Hout.
      destruct (negb (truthy (JStr s))); [discriminate Hout|].
      cbn [has bindR getitem] in Hout.
      destruct (negb (contains "data" s)); discriminate Hout. }
    { (* a list *)
      cbn [has bindR getitem] in Hout.
      destruct (existsb _ l); cbn [bindR] in Hout; [discriminate Hout|].
      unfold token_of_response in Hout.
      destruct (negb (truthy (JList l))); [discriminate Hout|].
      cbn [has bindR getitem] in Hout.
      destruct (negb (existsb _ l)); discriminate Hout. }
    rewrite has_dict in Hout. cbn [getitem] in Hout.
    assert (error_free top /\ token_of_response (JDict top) = Ok token) as [Herrors Htoken].
    { destruct (assoc "errors" top) as [errors|] eqn:He; cbn [bindR] in Hout.
      - destruct (truthy errors) eqn:Ht.
        + destruct errors; cbn [graphql_errors] in Hout; try discriminate Hout.
          destruct (error_messages l) as [msgs|]; cbn [bindR] in Hout; [|discriminate Hout].
          destruct (join msgs); cbn [bindR] in Hout; discriminate Hout.
        + split; [right; by exists errors|exact Hout].
      - split; [by left|exact Hout]. }
    clear Hout. unfold token_of_response in Htoken.
    destruct (negb (truthy (JDict top))); [discriminate Htoken|].
    rewrite has_dict in Htoken. cbn [getitem] in Htoken.
    destruct (assoc "data" top) as [data|] eqn:Hdata; cbn [bindR negb] in Htoken;
      [|discriminate Htoken].
    destruct data as [| | |s|l|data];
      try (cbn [has bindR] in Htoken; discriminate Htoken).
    { cbn [has bindR getitem] in Htoken.
      destruct (negb (contains "loginAPI" s)); discriminate Htoken. }
    { cbn [has bindR getitem] in Htoken.
      destruct (negb (existsb _ l)); discriminate Htoken. }
    rewrite has_dict in Htoken. cbn [getitem] in Htoken.
    destruct (assoc "loginAPI" data) as [login|] eqn:Hlogin; cbn [bindR negb] in Htoken;
      [|discriminate Htoken].
    destruct login as [| | | | |login]; try (cbn [getitem bindR] in Htoken; discriminate Htoken).
    cbn [getitem] in Htoken.
    destruct (assoc "accessToken" login) as [tok|] eqn:Htok; cbn [bindR] in Htoken;
      [|discriminate Htoken].
    destruct (negb (truthy tok) || eq_str tok "null") eqn:Hvalid; [discriminate Htoken|].
    injection Htoken as <-.
    exists status, reason, top, data, login, content.
    split; [reflexivity|]. split; [lia|]. split; [exact Herrors|].
    split; [exact Hdata|]. split; [exact Hlogin|]. split; [exact Htok|].
    unfold valid_token. apply orb_false_iff in Hvalid as [H1 H2].
    apply negb_false_iff in H1. by rewrite H1, H2.
  - intros (status & reason & top & data & login & content
            & -> & Hstatus & Herrors & Hdata & Hlogin & Htok & Hvalid).
    unfold auth_outcome. rewrite (check_reply_object _ _ _ _ Hstatus Herrors).
    cbn [bindR]. unfold token_of_response.
    assert (truthy (JDict top) = true) as -> by (by destruct top).
    cbn [negb]. rewrite has_dict. cbn [getitem]. rewrite Hdata. cbn [bindR negb].
    rewrite has_dict. cbn [getitem]. rewrite Hlogin. cbn [bindR negb getitem].
    rewrite Htok. cbn [bindR].
    unfold valid_token in Hvalid. apply andb_true_iff in Hvalid as [H1 H2].
    apply negb_true_iff in H2. by rewrite H1, H2.
Qed.

(** A response without [data], or whose [data] object has no
    [loginAPI]. *)
Lemma auth_outcome_invalid (status : Z) (reason content : string)
    (top : list (string * json)) :
  ~ (400 <= status < 600) ->
  error_free top ->
  (assoc "data" top = None
   \/ exists data, assoc "data" top = Some (JDict data) /\ assoc "loginAPI" data = None) ->
  auth_outcome (Reply status reason (Some (JDict top)) content)
  = Raise (ValueError "Failed to authenticate: Invalid API response").
Proof.
  intros Hstatus Herrors Hshape.
  unfold auth_outcome. rewrite (check_reply_object _ _ _ _ Hstatus Herrors).
  cbn [bindR]. unfold token_of_response.
  destruct (negb (truthy (JDict top))); [reflexivity|].
  rewrite has_dict. cbn [getitem].
  destruct Hshape as [->|(data & -> & Hlogin)]; cbn [bindR negb]; [reflexivity|].
  rewrite has_dict, Hlogin. reflexivity.
Qed.

(** A token that is falsy or ["null"]. *)
Lemma auth_outcome_bad_token (status : Z) (reason content : string)
    (top data login : list (string * json)) (token : json) :
  ~ (400 <= status < 600) ->
  error_free top ->
  assoc "data" top = Some (JDict data) ->
  assoc "loginAPI" data = Some (JDict login) ->
  assoc "accessToken" login = Some token ->
  valid_token token = false ->
  auth_outcome (Reply status reason (Some (JDict top)) content)
  = Raise (ValueError "Failed to obtain access token").
Proof.
  intros Hstatus Herrors Hdata Hlogin Htok Hvalid.
  unfold auth_outcome. rewrite (check_reply_object _ _ _ _ Hstatus Herrors).
  cbn [bindR]. unfold token_of_response.
  assert (truthy (JDict top) = true) as -> by (by destruct top).
  cbn [negb]. rewrite has_dict. cbn [getitem]. rewrite Hdata. cbn [bindR negb].
  rewrite has_dict. cbn [getitem]. rewrite Hlogin. cbn [bindR negb getitem].
  rewrite Htok. cbn [bindR].
  unfold valid_token in Hvalid.
  destruct (truthy token); cbn [negb orb andb] in *; [|reflexivity].
  apply negb_false_iff in Hvalid. by rewrite Hvalid.
Qed.

(** [main] when [authenticate] raises, for a key typed at the prompt
    that is not blank. *)
Lemma main_login_failure net stdin (fuel : nat) (w : world unit) (typed : string) (e : exn) :
  stdin (prompts_made w) = Some typed ->
  strip typed <> "" ->
  auth_outcome (net (requests_made w)) = Raise e ->
  main net stdin fuel w
  = if reported_as_auth_failure e
    then (Raise (SystemExit 1),
          extend w (before_login
                    ++ [Sent (login_request (strip typed));
                        Printed [Lit "ERROR: Authentication failed - "; Err e]]))
    else (Raise e, extend w (before_login ++ [Sent (login_request (strip typed))])).
Proof.
  intros Htyped Hkey Hout.
  pose proof (login_run net (strip typed) (extend w before_login)) as Hlogin.
  rewrite requests_made_extend in Hlogin.
  cbn [before_login List.filter is_sent length] in Hlogin.
  rewrite Nat.add_0_r, Hout in Hlogin. cbn zeta in Hlogin.
  destruct (reported_as_auth_failure e) eqn:Hrep.
  - rewrite (main_until_login net stdin fuel w typed Htyped Hkey _ _ Hlogin).
    by rewrite !extend_extend.
  - rewrite (main_until_login net stdin fuel w typed Htyped Hkey _ _ Hlogin).
    by rewrite !extend_extend.
Qed.




End AuthTheorems.

Module DownloadTheorems.
Import Py Script ExecuteAndDownload WorldFacts PollFacts.
Implicit Types (net : nat -> http_reply) (self : client).

(** The URL of the download depends on the first descriptor only. *)
Lemma download_url_of_contents (report_info result first : json) (rest : list json) :
  get report_info "result" (JDict []) = Ok result ->
  get result "contents" (JList [JDict []]) = Ok (JList (first :: rest)) ->
  download_url_of report_info =
  bindR (get first "preSignedUrl" JNull)
    (fun download_url =>
       if negb (truthy download_url) || eq_str download_url "null"
       then Raise (ValueError "Failed to retrieve download URL")
       else Ok download_url).
Proof. intros H1 H2. unfold download_url_of. rewrite H1. cbn. rewrite H2. reflexivity. Qed.

Lemma download_report_sent net (url : json) (filename : string) (w : world unit) :
  sent (trace (snd (download_report net url filename w))) = sent (trace w) ++ [Get url].
Proof.
  unfold download_report, bind at 1, http.
  destruct (net (requests_made w)) as [why|status reason body content]; cbn beta iota.
  - unfold raise. cbn [snd]. by rewrite trace_extend, sent_app.
  - destruct (_ && _); run_effects.
    + cbn [snd]. by rewrite trace_extend, sent_app.
    + unfold write_file, extend. cbn [snd trace]. by rewrite sent_app.
Qed.

Ltac sent_norm :=
  rewrite ?trace_extend, ?sent_app; cbn; rewrite ?app_nil_r; reflexivity.

(** C10.  When the result of the node polled last carries a list of
    content descriptors, the download step looks at the first one only.
    With an empty list, or a first descriptor whose [preSignedUrl] is
    absent, falsy or ["null"], it exits with status 1 without any
    request.  Otherwise it issues at most one request, a GET of the URL
    of the first descriptor, and exactly that one when the report name is
    a string; the other descriptors are never requested. *)
Theorem download_step_first_descriptor net self (report_name report_info result : json)
    (contents : list json) (w : world unit) :
  get report_info "result" (JDict []) = Ok result ->
  get result "contents" (JList [JDict []]) = Ok (JList contents) ->
  let run := download_step net self report_name report_info w in
  (contents = [] ->
   fst run = Raise (SystemExit 1) /\ sent (trace (snd run)) = sent (trace w))
  /\ (forall d rest, contents = JDict d :: rest ->
      let url := default JNull (assoc "preSignedUrl" d) in
      if negb (truthy url) || eq_str url "null"
      then fst run = Raise (SystemExit 1) /\ sent (trace (snd run)) = sent (trace w)
      else (sent (trace (snd run)) = sent (trace w) ++ [Get url]
            \/ sent (trace (snd run)) = sent (trace w))
           /\ ((exists name, report_name = JStr name) ->
               sent (trace (snd run)) = sent (trace w) ++ [Get url])).
Proof.
  intros Hresult Hcontents run. subst run.
  destruct (download_step net self report_name report_info w) as [r w'] eqn:Hrun.
  cbn [fst snd]. revert Hrun. unfold download_step. run_effects.
  unfold try_except at 1, lift. split.
  - intros ->. revert Hrun.
    unfold download_url_of. rewrite Hresult. cbn [bindR]. rewrite Hcontents.
    cbn [bindR getitem0]. run_effects. intros [= <- <-]. split; [reflexivity|]. sent_norm.
  - intros d rest ->. cbn zeta. revert Hrun.
    rewrite (download_url_of_contents _ _ _ _ Hresult Hcontents). cbn [get bindR].
    destruct (negb _ || _) eqn:Hbad.
    + run_effects. intros [= <- <-]. split; [reflexivity|]. sent_norm.
    + intros Hrun.
      assert (forall name, report_name = JStr name ->
                sent (trace w')
                = sent (trace w) ++ [Get (default JNull (assoc "preSignedUrl" d))])
        as Hstr.
      { intros name ->. revert Hrun. run_effects.
        match goal with
        | |- context [try_except (download_report net ?u ?f) ?h ?w0] =>
            pose proof (download_report_sent net u f w0) as Hsent;
            unfold try_except;
            destruct (download_report net u f w0) as [[size|e] w1]
        end; cbn [snd] in Hsent.
        - run_effects. intros [= <- <-].
          rewrite !trace_extend, !sent_app, Hsent. sent_norm.
        - destruct e; run_effects; intros [= <- <-];
            rewrite ?trace_extend, ?sent_app, Hsent; sent_norm. }
      split; [|intros [name ->]; by apply (Hstr name)].
      destruct report_name as [| | |name| |]; try (left; by apply (Hstr name));
        right; revert Hrun; run_effects; intros [= <- <-]; sent_norm.
Qed.

Lemma download_step_first_descriptor_witness :
  sent (trace (snd (download_step completes_third sample_client (JStr "My Report (Q1)!")
                      (sample_node "COMPLETED"
                         [descriptor "https://files.test/a.csv";
                          descriptor "https://files.test/b.csv"]) fresh)))
  = sent (trace fresh) ++ [Get (JStr "https://files.test/a.csv")].
Proof.
  pose proof (download_step_first_descriptor completes_third sample_client
                (JStr "My Report (Q1)!")
                (sample_node "COMPLETED"
                   [descriptor "https://files.test/a.csv";
                    descriptor "https://files.test/b.csv"])
                _ _ fresh eq_refl eq_refl) as [_ H].
  apply (H _ _ eq_refl). by exists "My Report (Q1)!".
Defined.

(** A whole run of [main]: seven requests, three sleeps, the file named
    after the sanitized report name. *)
Example main_session :
  let run := main session typed 5 fresh in
  fst run = Ok (Some tt)
  /\ exit_code (fst run) = 0
  /\ requests_made (snd run) = 7%nat
  /\ sleeps (trace (snd run)) = [15; 15; 22]
  /\ last (sent (trace (snd run))) = Some (Get (JStr "https://files.test/a.csv"))
  /\ fs (snd run) !! "My_Report__Q1__.csv" = Some [Lit "month,cost"].
Proof. cbn zeta. repeat split; vm_compute; reflexivity. Qed.

End DownloadTheorems.

Module CreateFacts.
Import Py Script CreateFlexReports WorldFacts.

Lemma requests_made_sent {G} (w : world G) : requests_made w = length (sent (trace w)).
Proof.
  unfold requests_made, sent. induction (trace w) as [|e t IH]; [done|].
  destruct e; cbn; try exact IH. by rewrite <- IH.
Qed.

Lemma draws_made_extend {G} (w : world G) evs :
  draws_made (extend w evs) = (draws_made w + length (List.filter is_drew evs))%nat.
Proof. unfold draws_made. cbn. by rewrite List.filter_app, length_app. Qed.

Ltac break_match_in H :=
  repeat match type of H with
         | context [match ?x with _ => _ end] => destruct x eqn:?; try discriminate H
         | context [if ?x then _ else _] => destruct x eqn:?; try discriminate H
         end.

Ltac run_effects :=
  unfold print, sleep, sys_exit, emit, raise, ret, lift, bind, append_id, append_name,
    get_globals, set_globals;
  cbn beta iota;
  rewrite ?extend_extend; cbn [app].

Lemma handle_response_created (name : string) (reply : http_reply) (w : world lists)
    (flex_report_id : json) :
  created_id reply = Some flex_report_id ->
  handle_response name reply w = (Ok tt, record_creation w flex_report_id name).
Proof.
  intros H. unfold handle_response. unfold created_id in H.
  destruct reply as [why|status_code reason [flex_report_result|] text]; try discriminate H.
  destruct flex_report_result as [| | | | |result]; try discriminate H.
  destruct (status_code =? 200); [|discriminate H].
  cbn [get]. run_effects.
  destruct (default (JDict []) (assoc "data" result)) as [| | | | |[|b data]];
    try discriminate H.
  cbn [truthy get]. cbn beta iota.
  destruct (default (JDict []) (assoc "createFlexReport" (b :: data)))
    as [| | | | |[|c created]]; try discriminate H.
  cbn [truthy get]. cbn beta iota.
  lazy zeta in H.
  destruct (truthy (default JNull (assoc "id" (c :: created)))); [|discriminate H].
  injection H as <-. run_effects.
  unfold record_creation, extend.
  cbn [trace fs globals flex_report_ids successful_reports].
  rewrite <- ?app_assoc. reflexivity.
Qed.

Ltac done_skipped :=
  solve [ eexists _, []; split; [by rewrite extend_nil | reflexivity]
        | eexists _, _; split; reflexivity ].

Ltac skip_case :=
  cbn [truthy get]; cbn beta iota;
  try done_skipped;
  try (match goal with |- context [if negb ?c then _ else _] => destruct c end;
       cbn [negb get]; cbn beta iota; done_skipped);
  try (match goal with
       | |- context [if ?b then _ else _] => is_var b; destruct b
       | |- context [match ?l with [] => _ | _ :: _ => _ end] => is_var l; destruct l
       end;
       cbn [get]; cbn beta iota; done_skipped).

(** A response that carries no ID leaves the lists as they are, whatever
    else it does. *)
Lemma handle_response_skipped (name : string) (reply : http_reply) (w : world lists) :
  created_id reply = None ->
  exists r evs,
    handle_response name reply w = (r, extend w evs) /\ sent evs = [].
Proof.
  intros H. unfold handle_response. unfold created_id in H.
  destruct reply as [why|status_code reason [flex_report_result|] text];
    [run_effects; done_skipped | | destruct (status_code =? 200); run_effects; done_skipped].
  destruct (status_code =? 200); run_effects; [|done_skipped].
  destruct flex_report_result as [| | | | |result]; cbn [get]; run_effects;
    try done_skipped.
  destruct (default (JDict []) (assoc "data" result)) as [| | | | |[|b data]];
    [skip_case | skip_case | skip_case | skip_case | skip_case | skip_case | ].
  cbn [truthy get]. cbn beta iota.
  destruct (default (JDict []) (assoc "createFlexReport" (b :: data)))
    as [| | | | |[|c created]];
    [skip_case | skip_case | skip_case | skip_case | skip_case | skip_case | ].
  cbn [truthy get]. cbn beta iota. lazy zeta in H.
  destruct (truthy (default JNull (assoc "id" (c :: created)))); [discriminate H|].
  done_skipped.
Qed.

Lemma handle_response_missing_key (name reason text : string) (body : json)
    (w : world lists) :
  missing_key body ->
  exists why,
    handle_response name (Reply 200 reason (Some body) text) w
    = (Ok tt, extend w [Printed (Lit "Failed to create FlexReport '" :: Lit name :: why)]).
Proof.
  intros (result & -> & Hmissing). unfold handle_response.
  change (200 =? 200) with true. cbn [get]. run_effects.
  destruct Hmissing as [Hdata | (data & Hdata & Hcreate)]; rewrite Hdata; cbn [default from_option id].
  { cbn [truthy]. by eexists. }
  destruct data as [|b data]; [cbn [truthy]; by eexists|].
  cbn [truthy get]. cbn beta iota.
  destruct Hcreate as [Hcreate | (created & Hcreate & Hid)]; rewrite Hcreate; cbn [default from_option id].
  { cbn [truthy]. by eexists. }
  destruct created as [|c created]; [cbn [truthy]; by eexists|].
  cbn [truthy get]. cbn beta iota. rewrite Hid. cbn [default from_option id truthy]. by eexists.
Qed.

Lemma missing_key_not_created (reason text : string) (body : json) (status : Z) :
  missing_key body -> created_id (Reply status reason (Some body) text) = None.
Proof.
  intros (result & -> & Hmissing). unfold created_id.
  destruct (status =? 200); [|done].
  destruct Hmissing as [Hdata | (data & Hdata & Hcreate)]; rewrite Hdata; cbn [default from_option id];
    [done|].
  destruct data as [|b data]; [done|].
  destruct Hcreate as [Hcreate | (created & Hcreate & Hid)]; rewrite Hcreate; cbn [default from_option id];
    [done|].
  destruct created as [|c created]; [done|].
  lazy zeta. by rewrite Hid.
Qed.

Section Loop.

Variable net : nat -> http_reply.
Variable rng : nat -> nat.
Variable int_of_str : string -> option Z.
Variable repr : json -> string.

Lemma random_choices_run (population : string) (k : nat) :
  forall w : world lists,
    random_choices rng population k w
    = (Ok (picks rng population k (draws_made w)),
       extend w (draw_events rng population k (draws_made w))).
Proof.
  induction k as [|k IH]; intros w.
  - cbn. by rewrite extend_nil.
  - cbn [random_choices picks draw_events]. unfold bind at 1, draw at 1. cbn beta iota zeta.
    unfold bind at 1. rewrite IH. unfold ret.
    rewrite extend_extend, draws_made_extend. cbn [List.filter is_drew length app].
    replace (draws_made w + 1)%nat with (S (draws_made w)) by lia. reflexivity.
Qed.

Lemma draw_events_no_request (population : string) (k : nat) : forall first,
  sent (draw_events rng population k first) = []
  /\ List.filter is_sent (draw_events rng population k first) = [].
Proof. induction k as [|k IH]; intros first; [done|]. cbn. apply IH. Qed.

Lemma create_one_run (access_token report_definition : json) (w : world lists) :
  create_one net rng int_of_str repr access_token report_definition w =
  match getitem report_definition "name" with
  | Raise e => (Raise e, w)
  | Ok report_name =>
      let w1 := extend w (draw_events rng suffix_alphabet 6 (draws_made w)) in
      let name := suffixed_name rng repr report_definition (draws_made w) in
      match variables_of int_of_str name report_definition with
      | Raise e => (Raise e, w1)
      | Ok variables =>
          match access_token with
          | JStr _ =>
              handle_response name (net (requests_made w))
                (extend w1 [Sent (creation_request access_token variables)])
          | _ => (Raise TypeError, w1)
          end
      end
  end.
Proof.
  unfold create_one, suffixed_name. unfold bind at 1, lift at 1.
  destruct (getitem report_definition "name") as [report_name|e]; [|reflexivity].
  unfold bind at 1. rewrite random_choices_run. cbn zeta.
  unfold bind at 1, lift at 1.
  destruct (variables_of _ _ _) as [variables|e]; [|reflexivity].
  assert (requests_made (extend w (draw_events rng suffix_alphabet 6 (draws_made w)))
          = requests_made w) as Hreq.
  { rewrite requests_made_extend.
    destruct (draw_events_no_request suffix_alphabet 6 (draws_made w)) as [_ ->]. cbn. lia. }
  destruct access_token; try reflexivity.
  unfold bind at 1, ret at 1. unfold bind at 1, http at 1. rewrite Hreq. reflexivity.
Qed.

Lemma variables_of_shape (name : string) (report_definition vars : json) :
  variables_of int_of_str name report_definition = Ok vars ->
  exists fields,
    vars = JDict (("name", JStr name) :: fields)
    /\ forall name', variables_of int_of_str name' report_definition
                     = Ok (JDict (("name", JStr name') :: fields)).
Proof.
  unfold variables_of.
  repeat match goal with
         | |- context [bindR ?r _] =>
             destruct r; cbn [bindR]; [|discriminate]
         end.
  intros [= <-]. eexists. split; reflexivity.
Qed.

Lemma entry_ok_run (report_definition : json) :
  entry_ok int_of_str report_definition = true ->
  exists report_name fields,
    getitem report_definition "name" = Ok report_name
    /\ forall name, variables_of int_of_str name report_definition
                    = Ok (JDict (("name", JStr name) :: fields)).
Proof.
  unfold entry_ok.
  destruct (getitem report_definition "name") as [report_name|]; [|discriminate].
  destruct (variables_of int_of_str "" report_definition) as [vars|] eqn:Hvars;
    [|discriminate].
  intros _. destruct (variables_of_shape _ _ _ Hvars) as (fields & _ & Hall).
  by exists report_name, fields.
Qed.

Lemma requests_made_record (w : world lists) id name :
  requests_made (record_creation w id name) = requests_made w.
Proof.
  unfold requests_made, record_creation. cbn [trace].
  rewrite List.filter_app, length_app. cbn. lia.
Qed.

Lemma draws_made_record (w : world lists) id name :
  draws_made (record_creation w id name) = draws_made w.
Proof.
  unfold draws_made, record_creation. cbn [trace].
  rewrite List.filter_app, length_app. cbn. lia.
Qed.

Lemma draws_of_draw_events (population : string) (k : nat) : forall first,
  length (List.filter is_drew (draw_events rng population k first)) = k.
Proof. induction k as [|k IH]; intros first; [done|]. cbn. by rewrite IH. Qed.

Lemma create_one_ok (token : string) (report_definition : json) (w : world lists) :
  entry_ok int_of_str report_definition = true ->
  exists fields,
    create_one net rng int_of_str repr (JStr token) report_definition w
    = handle_response (suffixed_name rng repr report_definition (draws_made w))
        (net (requests_made w))
        (at_response rng repr (JStr token) report_definition w fields).
Proof.
  intros Hok. destruct (entry_ok_run _ Hok) as (report_name & fields & Hname & Hvars).
  exists fields. rewrite create_one_run, Hname. cbn zeta. rewrite Hvars. reflexivity.
Qed.

Lemma requests_made_at_response token rd (w : world lists) fields :
  requests_made (at_response rng repr token rd w fields) = S (requests_made w).
Proof.
  unfold at_response. rewrite !requests_made_extend.
  destruct (draw_events_no_request suffix_alphabet 6 (draws_made w)) as [_ ->]. cbn. lia.
Qed.

Lemma draws_made_at_response token rd (w : world lists) fields :
  draws_made (at_response rng repr token rd w fields) = (draws_made w + 6)%nat.
Proof.
  unfold at_response. rewrite !draws_made_extend, draws_of_draw_events. cbn. lia.
Qed.

Lemma same_creation_mono (w w' : world lists) evs id name :
  trace w' = trace w ++ evs ->
  same_creation net w id name -> same_creation net w' id name.
Proof.
  intros Htrace (n & bearer & variables & Hn & Hname & Hid).
  exists n, bearer, variables. split; [|done].
  rewrite Htrace, sent_app. by apply lookup_app_l_Some.
Qed.

Lemma paired_mono (w w' : world lists) evs :
  trace w' = trace w ++ evs -> globals w' = globals w ->
  paired net w -> paired net w'.
Proof.
  unfold paired. intros Htrace -> H. eapply Forall2_impl; [exact H|].
  intros id name. by apply (same_creation_mono w w' evs).
Qed.

Lemma paired_record (w0 w : world lists) evs fields id name bearer :
  trace w = trace w0 ++ evs ++ [Sent (creation_request bearer
                                        (JDict (("name", JStr name) :: fields)))] ->
  sent evs = [] ->
  globals w = globals w0 ->
  created_id (net (requests_made w0)) = Some id ->
  paired net w0 -> paired net (record_creation w id name).
Proof.
  intros Htrace Hevs Hglobals Hid Hpaired. unfold paired, record_creation.
  cbn [globals flex_report_ids successful_reports]. rewrite Hglobals.
  apply Forall2_app.
  - eapply Forall2_impl; [exact Hpaired|]. intros id0 name0.
    apply (same_creation_mono w0 _
             (evs ++ [Sent (creation_request bearer (JDict (("name", JStr name) :: fields)))]
              ++ success_events name id)).
    cbn [trace]. rewrite Htrace. by rewrite <- !app_assoc.
  - constructor; [|constructor].
    exists (requests_made w0), (Some bearer), (JDict (("name", JStr name) :: fields)).
    split; [|split; [reflexivity|exact Hid]].
    cbn [trace]. rewrite Htrace, !sent_app, Hevs. cbn [app].
    rewrite requests_made_sent. apply lookup_app_l_Some.
    exact (list_lookup_middle (sent (trace w0)) [] _ _ eq_refl).
Qed.

Lemma trace_at_response token rd (w : world lists) fields :
  trace (at_response rng repr token rd w fields)
  = trace w ++ draw_events rng suffix_alphabet 6 (draws_made w)
      ++ [Sent (creation_request token
                  (JDict (("name", JStr (suffixed_name rng repr rd (draws_made w)))
                          :: fields)))].
Proof. unfold at_response. rewrite !trace_extend. by rewrite <- app_assoc. Qed.

(** One iteration keeps the lists paired, however it ends. *)
Lemma paired_create_one (access_token report_definition : json) (w : world lists) :
  paired net w ->
  paired net (snd (create_one net rng int_of_str repr access_token report_definition w)).
Proof.
  intros Hpaired. rewrite create_one_run.
  destruct (getitem report_definition "name") as [report_name|e]; [|done].
  cbn zeta.
  destruct (variables_of _ _ _) as [variables|e] eqn:Hvars;
    [|by apply (paired_mono w _ (draw_events rng suffix_alphabet 6 (draws_made w)))].
  destruct (variables_of_shape _ _ _ Hvars) as (fields & -> & _).
  destruct access_token as [| | |token| |];
    try by apply (paired_mono w _ (draw_events rng suffix_alphabet 6 (draws_made w))).
  fold (creation_request (JStr token)
          (JDict (("name", JStr (suffixed_name rng repr report_definition (draws_made w)))
                  :: fields))).
  fold (at_response rng repr (JStr token) report_definition w fields).
  destruct (created_id (net (requests_made w))) as [id|] eqn:Hid.
  - rewrite (handle_response_created _ _ _ id Hid). cbn [snd].
    eapply (paired_record w); [apply trace_at_response| |reflexivity|exact Hid|exact Hpaired].
    apply draw_events_no_request.
  - destruct (handle_response_skipped
                (suffixed_name rng repr report_definition (draws_made w))
                _ (at_response rng repr (JStr token) report_definition w fields) Hid)
      as (r & evs & -> & _).
    cbn [snd]. eapply (paired_mono w); [|reflexivity|exact Hpaired].
    rewrite trace_extend, trace_at_response. by rewrite <- app_assoc.
Qed.

(** One iteration leaves the files alone and either leaves both lists
    alone or appends to both. *)
Lemma create_one_step (access_token report_definition : json) (w : world lists) :
  let run := create_one net rng int_of_str repr access_token report_definition w in
  fs (snd run) = fs w
  /\ (globals (snd run) = globals w
      \/ exists id,
           created_id (net (requests_made w)) = Some id
           /\ fst run = Ok tt
           /\ flex_report_ids (globals (snd run)) = flex_report_ids (globals w) ++ [id]
           /\ successful_reports (globals (snd run))
              = successful_reports (globals w)
                ++ [suffixed_name rng repr report_definition (draws_made w)]).
Proof.
  cbn zeta. rewrite create_one_run.
  destruct (getitem report_definition "name") as [report_name|e]; [|by split; [|left]].
  cbn zeta.
  destruct (variables_of _ _ _) as [variables|e] eqn:Hvars; [|by split; [|left]].
  destruct access_token as [| | |token| |]; try by split; [|left].
  destruct (created_id (net (requests_made w))) as [id|] eqn:Hid.
  - rewrite (handle_response_created _ _ _ id Hid). cbn [fst snd].
    split; [reflexivity|]. right. by exists id.
  - match goal with
    | |- context [handle_response ?n ?r ?w0] =>
        destruct (handle_response_skipped n r w0 Hid) as (r0 & evs & -> & _)
    end.
    by split; [|left].
Qed.

(** The loop keeps the lists paired and leaves the files alone. *)
Lemma for_each_create_one (access_token : json) (items : list json) :
  forall w : world lists,
    paired net w ->
    let run := for_each (create_one net rng int_of_str repr access_token) items w in
    paired net (snd run) /\ fs (snd run) = fs w.
Proof.
  induction items as [|item items IH]; intros w Hpaired; [done|].
  cbn zeta. cbn [for_each]. unfold bind.
  pose proof (paired_create_one access_token item w Hpaired) as Hstep.
  destruct (create_one_step access_token item w) as [Hfs _]. cbn zeta in Hfs.
  destruct (create_one net rng int_of_str repr access_token item w) as [[[]|e] w1];
    cbn [snd] in *; [|done].
  destruct (IH w1 Hstep) as [H1 H2]. split; [exact H1|]. by rewrite H2.
Qed.

Lemma create_all_paired (access_token report_definitions : json) (w : world lists) :
  let run := create_all net rng int_of_str repr access_token report_definitions w in
  paired net (snd run) /\ fs (snd run) = fs w.
Proof.
  cbn zeta. unfold create_all. run_effects.
  destruct (iter_items report_definitions) as [items|e].
  - apply (for_each_create_one access_token items
             (mkWorld (trace w) (fs w) (mkLists [] []))).
    constructor.
  - split; [constructor|reflexivity].
Qed.

Lemma create_one_created (token : string) (report_definition id : json) (w : world lists) :
  entry_ok int_of_str report_definition = true ->
  created_id (net (requests_made w)) = Some id ->
  exists fields,
    create_one net rng int_of_str repr (JStr token) report_definition w
    = (Ok tt,
       record_creation (at_response rng repr (JStr token) report_definition w fields) id
         (suffixed_name rng repr report_definition (draws_made w))).
Proof.
  intros Hok Hid. destruct (create_one_ok token _ w Hok) as [fields ->].
  exists fields. by apply handle_response_created.
Qed.

Lemma create_one_missing (token reason text : string) (report_definition body : json)
    (w : world lists) :
  entry_ok int_of_str report_definition = true ->
  net (requests_made w) = Reply 200 reason (Some body) text ->
  missing_key body ->
  exists fields why,
    create_one net rng int_of_str repr (JStr token) report_definition w
    = (Ok tt,
       extend (at_response rng repr (JStr token) report_definition w fields)
         [Printed (Lit "Failed to create FlexReport '"
                   :: Lit (suffixed_name rng repr report_definition (draws_made w))
                   :: why)]).
Proof.
  intros Hok Hreply Hmissing. destruct (create_one_ok token _ w Hok) as [fields ->].
  rewrite Hreply.
  destruct (handle_response_missing_key
              (suffixed_name rng repr report_definition (draws_made w)) reason text body
              (at_response rng repr (JStr token) report_definition w fields) Hmissing)
    as [why ->].
  by exists fields, why.
Qed.

End Loop.
End CreateFacts.

Module CreationFacts.
Import Py Script CreateFlexReports WorldFacts CreateFacts.

Lemma creations_app net (requests1 requests2 : list request) : forall n : nat,
  creations net n (requests1 ++ requests2)
  = creations net n requests1 ++ creations net (n + length requests1)%nat requests2.
Proof.
  induction requests1 as [|r requests1 IH]; intros n.
  - cbn. by rewrite Nat.add_0_r.
  - cbn [app creations length]. rewrite IH.
    replace (S n + length requests1)%nat with (n + S (length requests1))%nat by lia.
    by destruct (created_id (net n)).
Qed.

Section Loop.

Variable net : nat -> http_reply.
Variable rng : nat -> nat.
Variable int_of_str : string -> option Z.
Variable repr : json -> string.

(** One iteration: the requests it sends, and what it appends to the two
    lists, which is what those requests created. *)
Lemma create_one_creations (access_token report_definition : json) (w : world lists) :
  let run := create_one net rng int_of_str repr access_token report_definition w in
  exists requests,
    sent (trace (snd run)) = sent (trace w) ++ requests
    /\ flex_report_ids (globals (snd run))
       = flex_report_ids (globals w) ++ map fst (creations net (requests_made w) requests)
    /\ successful_reports (globals (snd run))
       = successful_reports (globals w)
         ++ map snd (creations net (requests_made w) requests)
    /\ (fst run = Ok tt ->
        exists r, requests = [r] /\ requested_for rng repr access_token report_definition r).
Proof.
  cbn zeta. rewrite create_one_run.
  assert (sent (draw_events rng suffix_alphabet 6 (draws_made w)) = []) as Hdraws
    by apply draw_events_no_request.
  destruct (getitem report_definition "name") as [report_name|e].
  2:{ exists []. cbn [fst snd creations map]. rewrite !app_nil_r. by repeat split. }
  cbn zeta.
  destruct (variables_of _ _ _) as [variables|e] eqn:Hvars.
  2:{ exists []. cbn [fst snd creations map]. rewrite trace_extend, sent_app, Hdraws.
      rewrite !app_nil_r. by repeat split. }
  destruct access_token as [| | |token| |];
    try (exists []; cbn [fst snd creations map]; rewrite trace_extend, sent_app, Hdraws;
         rewrite !app_nil_r; by repeat split).
  destruct (variables_of_shape int_of_str _ _ _ Hvars) as (fields & -> & _).
  exists [creation_request (JStr token)
            (JDict (("name", JStr (suffixed_name rng repr report_definition (draws_made w)))
                    :: fields))].
  assert (requested_for rng repr (JStr token) report_definition
            (creation_request (JStr token)
               (JDict (("name",
                        JStr (suffixed_name rng repr report_definition (draws_made w)))
                       :: fields)))) as Hfor
    by (by exists (draws_made w), fields).
  cbn [creations].
  destruct (created_id (net (requests_made w))) as [id|] eqn:Hid.
  - rewrite (handle_response_created _ _ _ id Hid). cbn [fst snd].
    unfold record_creation. cbn [trace globals flex_report_ids successful_reports].
    rewrite !trace_extend, !sent_app, Hdraws.
    change (globals (extend (extend w ?a) ?b)) with (globals w).
    split.
    { rewrite app_nil_r. change (sent (success_events ?n ?i)) with (@nil request).
      by rewrite app_nil_r. }
    split; [reflexivity|]. split; [reflexivity|]. intros _. by eexists.
  - match goal with
    | |- context [handle_response ?n ?r ?w0] =>
        destruct (handle_response_skipped n r w0 Hid) as (r0 & evs & -> & Hevs)
    end.
    cbn [fst snd map]. rewrite !trace_extend, !sent_app, Hdraws, Hevs.
    change (globals (extend (extend (extend w ?a) ?b) ?c)) with (globals w).
    rewrite !app_nil_r. split; [reflexivity|]. split; [reflexivity|].
    split; [reflexivity|]. intros _. by eexists.
Qed.

(** The loop: the lists grow by exactly what its requests created, and
    a loop that runs to its end has sent one request per entry. *)
Lemma for_each_creations (access_token : json) (items : list json) :
  forall w : world lists,
    let run := for_each (create_one net rng int_of_str repr access_token) items w in
    exists requests,
      sent (trace (snd run)) = sent (trace w) ++ requests
      /\ flex_report_ids (globals (snd run))
         = flex_report_ids (globals w)
           ++ map fst (creations net (requests_made w) requests)
      /\ successful_reports (globals (snd run))
         = successful_reports (globals w)
           ++ map snd (creations net (requests_made w) requests)
      /\ (fst run = Ok tt ->
          Forall2 (requested_for rng repr access_token) items requests).
Proof.
  induction items as [|item items IH]; intros w; cbn zeta.
  - exists []. cbn. rewrite !app_nil_r. repeat split; first [done | intros _; constructor].
  - cbn [for_each]. unfold bind.
    destruct (create_one_creations access_token item w)
      as (reqs1 & Hsent1 & Hids1 & Hnames1 & Hok1). cbn zeta in *.
    destruct (create_one net rng int_of_str repr access_token item w) as [[[]|e] w1];
      cbn [fst snd] in *.
    + destruct (IH w1) as (reqs2 & Hsent2 & Hids2 & Hnames2 & Hok2). cbn zeta in *.
      assert (requests_made w1 = (requests_made w + length reqs1)%nat) as Hmade.
      { rewrite !requests_made_sent, Hsent1, length_app. reflexivity. }
      exists (reqs1 ++ reqs2). rewrite creations_app, !map_app, <- Hmade.
      rewrite Hsent2, Hsent1, Hids2, Hids1, Hnames2, Hnames1, <- !app_assoc.
      split; [reflexivity|]. split; [reflexivity|]. split; [reflexivity|].
      intros Hok. destruct (Hok1 eq_refl) as (r & -> & Hfor).
      constructor; [exact Hfor|]. by apply Hok2.
    + exists reqs1. split; [exact Hsent1|]. split; [exact Hids1|].
      split; [exact Hnames1|]. discriminate.
Qed.

End Loop.

(** The whole loop, from the two empty lists. *)
Lemma create_all_creations net rng int_of_str repr
    (access_token report_definitions : json) (w w1 : world lists) :
  create_all net rng int_of_str repr access_token report_definitions w = (Ok tt, w1) ->
  exists items requests,
    iter_items report_definitions = Ok items
    /\ sent (trace w1) = sent (trace w) ++ requests
    /\ Forall2 (requested_for rng repr access_token) items requests
    /\ flex_report_ids (globals w1) = map fst (creations net (requests_made w) requests)
    /\ successful_reports (globals w1)
       = map snd (creations net (requests_made w) requests).
Proof.
  unfold create_all. unfold bind at 1, set_globals at 1. cbn beta iota.
  unfold bind at 1, lift at 1.
  destruct (iter_items report_definitions) as [items|e]; [|discriminate].
  intros Hloop.
  destruct (for_each_creations net rng int_of_str repr access_token items
              (mkWorld (trace w) (fs w) (mkLists [] [])))
    as (requests & Hsent & Hids & Hnames & Hok). cbn zeta in *.
  rewrite Hloop in Hsent, Hids, Hnames, Hok. cbn [fst snd trace globals] in *.
  exists items, requests. split; [reflexivity|]. split; [exact Hsent|].
  split; [by apply Hok|]. split; [exact Hids|exact Hnames].
Qed.

End CreationFacts.

Module CreateTheorems.
Import Py Script CreateFlexReports WorldFacts CreateFacts CreationFacts.
Implicit Types (net : nat -> http_reply) (rng : nat -> nat)
  (int_of_str : string -> option Z) (repr : json -> string).

(** C9.  After the loop, however it ended, the list of IDs and the list
    of names have the same length, and entry by entry the ID and the name
    come from one creation: some request of the run carries the name and
    the reply to that request carries the ID.  In one iteration either
    both lists stay as they are or each grows by one entry, the ID of the
    reply to the request of that iteration and the suffixed name of its
    entry. *)
Theorem lists_stay_paired net rng int_of_str repr
    (access_token report_definitions : json) (w : world lists) :
  (let w' := snd (create_all net rng int_of_str repr access_token report_definitions w) in
   length (flex_report_ids (globals w')) = length (successful_reports (globals w'))
   /\ Forall2 (same_creation net w')
        (flex_report_ids (globals w')) (successful_reports (globals w')))
  /\ (forall report_definition (w0 : world lists),
        let run := create_one net rng int_of_str repr access_token report_definition w0 in
        globals (snd run) = globals w0
        \/ exists id,
             created_id (net (requests_made w0)) = Some id
             /\ flex_report_ids (globals (snd run))
                = flex_report_ids (globals w0) ++ [id]
             /\ successful_reports (globals (snd run))
                = successful_reports (globals w0)
                  ++ [suffixed_name rng repr report_definition (draws_made w0)]).
Proof.
  split.
  - cbn zeta.
    destruct (create_all_paired net rng int_of_str repr access_token report_definitions w)
      as [Hpaired _].
    split; [|exact Hpaired]. exact (Forall2_length _ _ _ Hpaired).
  - intros report_definition w0.
    destruct (create_one_step net rng int_of_str repr access_token report_definition w0)
      as [_ [Hsame | (id & Hid & _ & Hids & Hnames)]]; [by left|].
    right. by exists id.
Qed.

Lemma write_lists_run (w : world lists) :
  exists w',
    write_lists w = (Ok tt, w')
    /\ globals w' = globals w
    /\ trace w' = trace w
    /\ fs w' !! "previous-run.list" = Some (id_lines (flex_report_ids (globals w)))
    /\ (successful_reports (globals w) <> [] ->
        fs w' !! "successful_reports.list"
        = Some (name_lines (successful_reports (globals w))))
    /\ (successful_reports (globals w) = [] ->
        fs w' !! "successful_reports.list" = fs w !! "successful_reports.list").
Proof.
  unfold write_lists. run_effects. unfold write_file. cbn [globals trace fs].
  destruct (successful_reports (globals w)) as [|name names] eqn:Hnames.
  - eexists. split; [reflexivity|]. cbn [globals trace fs].
    split; [done|]. split; [done|]. split; [by rewrite lookup_insert_eq|].
    split; [done|]. intros _. by rewrite lookup_insert_ne.
  - eexists. split; [reflexivity|]. cbn [globals trace fs].
    split; [done|]. split; [done|].
    split; [by rewrite lookup_insert_ne, lookup_insert_eq|].
    split; [intros _; by rewrite lookup_insert_eq|done].
Qed.

(** What [create_and_save] leaves behind when the loop runs to its end. *)
Lemma create_and_save_run net rng int_of_str repr
    (access_token report_definitions : json) (w w1 : world lists) :
  create_all net rng int_of_str repr access_token report_definitions w = (Ok tt, w1) ->
  exists w2,
    create_and_save net rng int_of_str repr access_token report_definitions w = (Ok tt, w2)
    /\ globals w2 = globals w1
    /\ paired net w2
    /\ fs w2 !! "previous-run.list" = Some (id_lines (flex_report_ids (globals w1)))
    /\ (successful_reports (globals w1) <> [] ->
        fs w2 !! "successful_reports.list"
        = Some (name_lines (successful_reports (globals w1))))
    /\ (successful_reports (globals w1) = [] ->
        fs w2 !! "successful_reports.list" = fs w !! "successful_reports.list").
Proof.
  intros Hloop.
  destruct (create_all_paired net rng int_of_str repr access_token report_definitions w)
    as [Hpaired Hfs].
  rewrite Hloop in Hpaired, Hfs. cbn [snd] in Hpaired, Hfs.
  destruct (write_lists_run w1) as (w2 & Hwrite & Hglobals & Htrace & Hids & Hnames & Hnone).
  exists w2. unfold create_and_save, bind. rewrite Hloop, Hwrite.
  split; [reflexivity|]. split; [exact Hglobals|]. split.
  - apply (paired_mono net w1 w2 []); [by rewrite app_nil_r|exact Hglobals|exact Hpaired].
  - split; [exact Hids|]. split; [exact Hnames|].
    intros Hempty. rewrite (Hnone Hempty). by rewrite Hfs.
Qed.

(** C8, as amended.  When the loop runs to its end it has sent one
    creation request per manifest entry, in order, each carrying the
    suffixed name of its entry.  Whatever the number of entries that
    failed, [previous-run.list] is written and holds exactly the IDs
    created, those the replies to these requests carry, in order (none,
    and an empty file, when no entry succeeded);
    [successful_reports.list] is written, and holds exactly the names
    these requests carry for the reports created, when at least one entry
    succeeded, and is left as it was when none did.  The two lists of the
    script are these IDs and these names. *)
Theorem output_files_after_loop net rng int_of_str repr
    (access_token report_definitions : json) (w w1 : world lists) :
  create_all net rng int_of_str repr access_token report_definitions w = (Ok tt, w1) ->
  exists w2 items requests,
    create_and_save net rng int_of_str repr access_token report_definitions w = (Ok tt, w2)
    /\ globals w2 = globals w1
    /\ iter_items report_definitions = Ok items
    /\ sent (trace w2) = sent (trace w) ++ requests
    /\ Forall2 (requested_for rng repr access_token) items requests
    /\ flex_report_ids (globals w1) = map fst (creations net (requests_made w) requests)
    /\ successful_reports (globals w1)
       = map snd (creations net (requests_made w) requests)
    /\ fs w2 !! "previous-run.list"
       = Some (id_lines (map fst (creations net (requests_made w) requests)))
    /\ (creations net (requests_made w) requests <> [] ->
        fs w2 !! "successful_reports.list"
        = Some (name_lines (map snd (creations net (requests_made w) requests))))
    /\ (creations net (requests_made w) requests = [] ->
        fs w2 !! "successful_reports.list" = fs w !! "successful_reports.list")
    /\ fs w2 !! "previous-run.list" = Some (id_lines (flex_report_ids (globals w1)))
    /\ (successful_reports (globals w1) <> [] ->
        fs w2 !! "successful_reports.list"
        = Some (name_lines (successful_reports (globals w1))))
    /\ (successful_reports (globals w1) = [] ->
        fs w2 !! "successful_reports.list" = fs w !! "successful_reports.list")
    /\ Forall2 (same_creation net w2)
         (flex_report_ids (globals w1)) (successful_reports (globals w1)).
Proof.
  intros Hloop.
  destruct (create_and_save_run net rng int_of_str repr access_token report_definitions
              w w1 Hloop) as (w2 & Hrun & Hg & Hpaired & Hids & Hnames & Hnone).
  destruct (create_all_creations net rng int_of_str repr access_token report_definitions
              w w1 Hloop) as (items & requests & Hitems & Hsent & Hfor & Hcids & Hcnames).
  assert (trace w2 = trace w1) as Htrace.
  { unfold create_and_save, bind in Hrun. rewrite Hloop in Hrun.
    destruct (write_lists_run w1) as (w2' & Hwrite & _ & Htrace & _).
    rewrite Hwrite in Hrun. by injection Hrun as <-. }
  exists w2, items, requests.
  split; [exact Hrun|]. split; [exact Hg|]. split; [exact Hitems|].
  split; [by rewrite Htrace|]. split; [exact Hfor|].
  split; [exact Hcids|]. split; [exact Hcnames|].
  split; [by rewrite <- Hcids|].
  split.
  { intros Hmade. rewrite <- Hcnames. apply Hnames. rewrite Hcnames.
    by destruct (creations net (requests_made w) requests). }
  split.
  { intros Hmade. apply Hnone. by rewrite Hcnames, Hmade. }
  split; [exact Hids|]. split; [exact Hnames|]. split; [exact Hnone|].
  unfold paired in Hpaired. by rewrite Hg in Hpaired.
Qed.

(** C8, counterexample.  A run in which every creation is refused ends
    with exit status 0 and no name in the list, and [successful_reports.list]
    is not written. *)
Lemma names_file_missing_when_nothing_created :
  exit_code (fst run_all_rejected) = 0
  /\ successful_reports (globals (snd run_all_rejected)) = []
  /\ ~ both_files_written (snd run_all_rejected).
Proof.
  split; [vm_compute; reflexivity|]. split; [vm_compute; reflexivity|].
  intros [_ [x Hx]]. vm_compute in Hx. discriminate Hx.
Qed.

Lemma output_files_after_loop_witness :
  exists w1 w2 requests,
    create_all creations_second_omits_id counter_rng sample_int_of_str sample_repr (JStr "token")
      three_entries start = (Ok tt, w1)
    /\ create_and_save creations_second_omits_id counter_rng sample_int_of_str sample_repr (JStr "token")
         three_entries start = (Ok tt, w2)
    /\ sent (trace w2) = sent (trace start) ++ requests
    /\ Forall2 (requested_for counter_rng sample_repr (JStr "token"))
         [entry "A"; entry "B"; entry "C"] requests
    /\ fs w2 !! "previous-run.list"
       = Some (id_lines (map fst (creations creations_second_omits_id
                                    (requests_made start) requests)))
    /\ fs w2 !! "previous-run.list" = Some (id_lines (flex_report_ids (globals w1)))
    /\ fs w2 !! "successful_reports.list"
       = Some (name_lines (successful_reports (globals w1))).
Proof.
  assert (create_all creations_second_omits_id counter_rng sample_int_of_str sample_repr (JStr "token")
            three_entries start
          = (Ok tt,
             snd (create_all creations_second_omits_id counter_rng sample_int_of_str sample_repr
                    (JStr "token") three_entries start))) as Hloop
    by (vm_compute; reflexivity).
  destruct (output_files_after_loop creations_second_omits_id counter_rng sample_int_of_str sample_repr
              (JStr "token") three_entries start _ Hloop)
    as (w2 & items & requests & Hrun & _ & Hitems & Hsent & Hfor & _ & _ & Hcids & _ & _
        & Hids & Hnames & _).
  injection Hitems as <-.
  eexists _, w2, requests. split; [exact Hloop|]. split; [exact Hrun|].
  split; [exact Hsent|]. split; [exact Hfor|]. split; [exact Hcids|]. split; [exact Hids|].
  apply Hnames. vm_compute. discriminate.
Defined.

(** C7.  A 200 response whose JSON lacks [data], [createFlexReport] or
    [id] where the loop looks for it is logged and skipped: the iteration
    ends normally, the lists are unchanged, the last line printed is the
    failure message for that entry, and the loop goes on with the
    remaining entries.  With three entries of which the second gets such
    a response and the other two get an ID, the run ends with exit status
    0, and the ID list, the name list and the two files hold exactly the
    two entries created. *)
Theorem missing_key_is_skipped net rng int_of_str repr (token : string)
    (w : world lists) :
  (forall report_definition body reason text,
     entry_ok int_of_str report_definition = true ->
     net (requests_made w) = Reply 200 reason (Some body) text ->
     missing_key body ->
     exists w' why,
       create_one net rng int_of_str repr (JStr token) report_definition w = (Ok tt, w')
       /\ globals w' = globals w
       /\ last (printed (trace w'))
          = Some (Lit "Failed to create FlexReport '"
                  :: Lit (suffixed_name rng repr report_definition (draws_made w)) :: why)
       /\ forall rest,
            for_each (create_one net rng int_of_str repr (JStr token))
              (report_definition :: rest) w
            = for_each (create_one net rng int_of_str repr (JStr token)) rest w')
  /\ (forall e1 e2 e3 id1 id3 body reason text,
       entry_ok int_of_str e1 = true ->
       entry_ok int_of_str e2 = true ->
       entry_ok int_of_str e3 = true ->
       created_id (net (requests_made w)) = Some id1 ->
       net (requests_made w + 1)%nat = Reply 200 reason (Some body) text ->
       missing_key body ->
       created_id (net (requests_made w + 2)%nat) = Some id3 ->
       exists w',
         create_and_save net rng int_of_str repr (JStr token) (JList [e1; e2; e3]) w
         = (Ok tt, w')
         /\ exit_code (fst (create_and_save net rng int_of_str repr (JStr token)
                              (JList [e1; e2; e3]) w)) = 0
         /\ flex_report_ids (globals w') = [id1; id3]
         /\ successful_reports (globals w')
            = [suffixed_name rng repr e1 (draws_made w);
               suffixed_name rng repr e3 (draws_made w + 12)%nat]
         /\ fs w' !! "previous-run.list" = Some (id_lines [id1; id3])
         /\ fs w' !! "successful_reports.list"
            = Some (name_lines [suffixed_name rng repr e1 (draws_made w);
                                suffixed_name rng repr e3 (draws_made w + 12)%nat])).
Proof.
  split.
  - intros report_definition body reason text Hok Hreply Hmissing.
    destruct (create_one_missing net rng int_of_str repr token reason text
                report_definition body w Hok Hreply Hmissing) as (fields & why & Hrun).
    eexists _, why. split; [exact Hrun|]. split; [reflexivity|]. split.
    + rewrite trace_extend, printed_app. apply last_snoc.
    + intros rest. cbn [for_each]. unfold bind. by rewrite Hrun.
  - intros e1 e2 e3 id1 id3 body reason text Hok1 Hok2 Hok3 Hid1 Hreply Hmissing Hid3.
    set (w0 := mkWorld (trace w) (fs w) (mkLists [] [])).
    destruct (create_one_created net rng int_of_str repr token e1 id1 w0 Hok1 Hid1)
      as (f1 & Hrun1).
    set (w1 := record_creation (at_response rng repr (JStr token) e1 w0 f1) id1
                 (suffixed_name rng repr e1 (draws_made w0))) in Hrun1.
    assert (requests_made w1 = (requests_made w + 1)%nat) as Hreq1.
    { unfold w1. rewrite requests_made_record, requests_made_at_response.
      unfold w0, requests_made. cbn [trace]. lia. }
    assert (draws_made w1 = (draws_made w + 6)%nat) as Hdraw1.
    { unfold w1. by rewrite draws_made_record, draws_made_at_response. }
    rewrite <- Hreq1 in Hreply.
    destruct (create_one_missing net rng int_of_str repr token reason text e2 body w1
                Hok2 Hreply Hmissing) as (f2 & why & Hrun2).
    set (w2 := extend (at_response rng repr (JStr token) e2 w1 f2) _) in Hrun2.
    assert (requests_made w2 = (requests_made w + 2)%nat) as Hreq2.
    { unfold w2. rewrite requests_made_extend, requests_made_at_response, Hreq1.
      cbn. lia. }
    assert (draws_made w2 = (draws_made w + 12)%nat) as Hdraw2.
    { unfold w2. rewrite draws_made_extend, draws_made_at_response, Hdraw1. cbn. lia. }
    rewrite <- Hreq2 in Hid3.
    destruct (create_one_created net rng int_of_str repr token e3 id3 w2 Hok3 Hid3)
      as (f3 & Hrun3).
    set (w3 := record_creation (at_response rng repr (JStr token) e3 w2 f3) id3
                 (suffixed_name rng repr e3 (draws_made w2))) in Hrun3.
    assert (create_all net rng int_of_str repr (JStr token) (JList [e1; e2; e3]) w
            = (Ok tt, w3)) as Hloop.
    { unfold create_all. run_effects. fold w0. cbn [iter_items for_each].
      unfold bind. rewrite Hrun1, Hrun2, Hrun3. reflexivity. }
    assert (globals w3 = mkLists [id1; id3]
                           [suffixed_name rng repr e1 (draws_made w);
                            suffixed_name rng repr e3 (draws_made w + 12)%nat]) as Hglobals.
    { unfold w3. rewrite Hdraw2. reflexivity. }
    destruct (create_and_save_run net rng int_of_str repr (JStr token)
                (JList [e1; e2; e3]) w w3 Hloop)
      as (w' & Hrun & Hg & _ & Hids & Hnames & _).
    rewrite Hglobals in Hg, Hids, Hnames. cbn [flex_report_ids successful_reports] in *.
    exists w'. rewrite Hrun, Hg. cbn [fst exit_code flex_report_ids successful_reports].
    split; [reflexivity|]. split; [reflexivity|]. split; [reflexivity|].
    split; [reflexivity|]. split; [exact Hids|]. apply Hnames. discriminate.
Qed.

(** The whole script on three entries of which the second gets no ID. *)
Example script_second_omits_id :
  fst run_second_omits_id = Ok tt
  /\ exit_code (fst run_second_omits_id) = 0
  /\ globals (snd run_second_omits_id)
     = mkLists [JStr "id-1"; JStr "id-3"] ["A ABCDEF"; "C MNOPQR"]
  /\ fs (snd run_second_omits_id) !! "previous-run.list"
     = Some [Val (JStr "id-1"); Lit newline; Val (JStr "id-3"); Lit newline]
  /\ fs (snd run_second_omits_id) !! "successful_reports.list"
     = Some [Lit "A ABCDEF"; Lit newline; Lit "C MNOPQR"; Lit newline].
Proof. repeat split; vm_compute; reflexivity. Qed.

Lemma missing_key_is_skipped_witness :
  exists w',
    create_and_save creations_second_omits_id counter_rng sample_int_of_str sample_repr (JStr "token")
      (JList [entry "A"; entry "B"; entry "C"]) start = (Ok tt, w')
    /\ exit_code (fst (create_and_save creations_second_omits_id counter_rng sample_int_of_str sample_repr
                         (JStr "token") (JList [entry "A"; entry "B"; entry "C"]) start))
       = 0
    /\ flex_report_ids (globals w') = [JStr "id-1"; JStr "id-3"]
    /\ successful_reports (globals w')
       = [suffixed_name counter_rng sample_repr (entry "A") (draws_made start);
          suffixed_name counter_rng sample_repr (entry "C") (draws_made start + 12)%nat]
    /\ fs w' !! "previous-run.list" = Some (id_lines [JStr "id-1"; JStr "id-3"])
    /\ fs w' !! "successful_reports.list"
       = Some (name_lines
                 [suffixed_name counter_rng sample_repr (entry "A") (draws_made start);
                  suffixed_name counter_rng sample_repr (entry "C")
                    (draws_made start + 12)%nat]).
Proof.
  destruct (missing_key_is_skipped creations_second_omits_id counter_rng sample_int_of_str sample_repr
              "token" start) as [_ H].
  apply (H (entry "A") (entry "B") (entry "C") (JStr "id-1") (JStr "id-3")
           (JDict [("data", JDict [("createFlexReport", JDict [("name", JStr "n")])])])
           "OK" "").
  - vm_compute. reflexivity.
  - vm_compute. reflexivity.
  - vm_compute. reflexivity.
  - vm_compute. reflexivity.
  - vm_compute. reflexivity.
  - eexists. split; [reflexivity|]. right. eexists. split; [reflexivity|].
    right. eexists. split; reflexivity.
  - vm_compute. reflexivity.
Defined.

End CreateTheorems.

(** ** Further properties of execute-and-download-flexreport.py *)

Module SanitizeMore.
Import Py Script ExecuteAndDownload.

Lemma map_string_compose (f g : ascii -> ascii) (s : string) :
  map_string f (map_string g s) = map_string (fun c => f (g c)) s.
Proof. induction s as [|c s IH]; [done|]. cbn. by rewrite IH. Qed.

Lemma map_string_ext (f g : ascii -> ascii) (s : string) :
  (forall c, f c = g c) -> map_string f s = map_string g s.
Proof. intros H. induction s as [|c s IH]; [done|]. cbn. by rewrite H, IH. Qed.

Lemma map_string_id (f : ascii -> ascii) (s : string) :
  (forall i c, String.get i s = Some c -> f c = c) -> map_string f s = s.
Proof.
  induction s as [|c s IH]; intros H; [done|]. cbn.
  rewrite (H 0%nat c eq_refl), IH; [done|].
  intros i c' Hc'. exact (H (S i) c' Hc').
Qed.

Lemma sanitize_filename_map (s : string) :
  sanitize_filename s = map_string sanitize_char s.
Proof.
  unfold sanitize_filename, re_sub_disallowed, replace. rewrite map_string_compose.
  apply map_string_ext. intros c. unfold sanitize_char.
  destruct (Ascii.eqb c " ") eqn:Hsp; cbn [orb]; [reflexivity|].
  by destruct (allowed c).
Qed.

Lemma allowed_sanitize_char (c : ascii) : allowed (sanitize_char c) = true.
Proof.
  unfold sanitize_char. destruct (Ascii.eqb c " "); cbn [orb]; [reflexivity|].
  destruct (allowed c) eqn:H; [exact H|reflexivity].
Qed.

Lemma allowed_not_space (c : ascii) : allowed c = true -> Ascii.eqb c " " = false.
Proof.
  intros H. destruct (Ascii.eqb c " ") eqn:Hsp; [|done].
  apply Ascii.eqb_eq in Hsp. subst c. discriminate H.
Qed.

Lemma all_allowed_get (s : string) :
  all_allowed s = true -> forall i c, String.get i s = Some c -> allowed c = true.
Proof.
  induction s as [|c0 s IH]; intros H i c; [destruct i; discriminate|].
  cbn in H. apply andb_true_iff in H as [H0 Hs].
  destruct i as [|i]; cbn; [by intros [= <-]|]. by apply IH.
Qed.

Lemma all_allowed_sanitize (s : string) : all_allowed (sanitize_filename s) = true.
Proof.
  rewrite sanitize_filename_map. induction s as [|c s IH]; [done|].
  cbn. by rewrite allowed_sanitize_char, IH.
Qed.

Lemma sanitize_filename_fixed (s : string) :
  all_allowed s = true -> sanitize_filename s = s.
Proof.
  intros Hs. rewrite sanitize_filename_map. apply map_string_id.
  intros i c Hc. unfold sanitize_char.
  pose proof (all_allowed_get s Hs i c Hc) as Ha.
  by rewrite (allowed_not_space c Ha), Ha.
Qed.

(** Sanitising a file name a second time changes nothing:
    [sanitize_filename] is idempotent. *)
Theorem sanitize_filename_idempotent (filename : string) :
  sanitize_filename (sanitize_filename filename) = sanitize_filename filename.
Proof. apply sanitize_filename_fixed, all_allowed_sanitize. Qed.

(** A name made only of ASCII letters, digits, [.], [_] and [-] is
    returned as it is. *)
Theorem sanitize_filename_keeps_clean_names (filename : string) :
  all_allowed filename = true -> sanitize_filename filename = filename.
Proof. apply sanitize_filename_fixed. Qed.

Lemma sanitize_filename_keeps_clean_names_witness :
  sanitize_filename "cost-report_2024.v1" = "cost-report_2024.v1".
Proof. apply (sanitize_filename_keeps_clean_names "cost-report_2024.v1"). reflexivity. Defined.

(** For a size a float holds exactly (below 2^53, which covers the
    size of any file), [format_size] chooses the unit by powers of 1024:
    bytes below 1024, KB below 1024^2, MB below 1024^3, GB below 1024^4
    and TB from there on; the quantity shown is the size divided by that
    power. *)
Theorem format_size_units (size_bytes : Z) :
  0 <= size_bytes < 2 ^ 53 ->
  (size_bytes < 1024 -> format_size size_bytes = Scaled size_bytes 1 "B")
  /\ (1024 <= size_bytes < 1024 ^ 2 ->
      format_size size_bytes = Scaled size_bytes 1024 "KB")
  /\ (1024 ^ 2 <= size_bytes < 1024 ^ 3 ->
      format_size size_bytes = Scaled size_bytes (1024 ^ 2) "MB")
  /\ (1024 ^ 3 <= size_bytes < 1024 ^ 4 ->
      format_size size_bytes = Scaled size_bytes (1024 ^ 3) "GB")
  /\ (1024 ^ 4 <= size_bytes ->
      format_size size_bytes = Scaled size_bytes (1024 ^ 4) "TB").
Proof.
  intros [Hpos _]. unfold format_size. cbn [format_size_loop].
  change (1024 ^ 2) with 1048576. change (1024 ^ 3) with 1073741824.
  change (1024 ^ 4) with 1099511627776.
  change (1 * 1024) with 1024. change (1024 * 1024) with 1048576.
  change (1048576 * 1024) with 1073741824. change (1073741824 * 1024) with 1099511627776.
  change (1024 * 1) with 1024.
  change (1024 * 1048576) with 1073741824.
  change (1024 * 1073741824) with 1099511627776.
  repeat split; intros H;
    repeat match goal with
           | |- context [?a <? ?b] =>
               first [ assert ((a <? b) = true) as -> by lia
                     | assert ((a <? b) = false) as -> by lia ]
           end; reflexivity.
Qed.

Lemma format_size_units_witness :
  format_size 1536 = Scaled 1536 1024 "KB".
Proof.
  destruct (format_size_units 1536 ltac:(lia)) as (_ & H & _). apply H. lia.
Defined.

End SanitizeMore.

Module QueryMore.
Import Py Script ExecuteAndDownload WorldFacts PollFacts.
Implicit Types (net : nat -> http_reply) (self : client).

Lemma graphql_errors_raises (errors : json) : forall data, graphql_errors errors <> Ok data.
Proof.
  intros data. destruct errors; cbn [graphql_errors]; try discriminate.
  destruct (error_messages l) as [msgs|]; cbn [bindR]; [|discriminate].
  destruct (join msgs); cbn [bindR]; discriminate.
Qed.

(** [_execute_query] returns a body only when the reply arrived, its
    status is outside 400-599, its body is JSON, and that body has no
    [errors] entry or a falsy one. *)
Theorem check_reply_accepts (r : http_reply) (data : json) :
  check_reply r = Ok data ->
  exists status reason content,
    r = Reply status reason (Some data) content
    /\ ~ (400 <= status < 600)
    /\ no_graphql_errors data.
Proof.
  destruct r as [why|status reason [body|] content]; cbn [check_reply]; [discriminate| |].
  - destruct ((400 <=? status) && (status <? 600)) eqn:Hstatus; [discriminate|].
    destruct (has "errors" body) as [[|]|] eqn:Hhas; cbn [bindR]; [| |discriminate].
    + destruct (getitem body "errors") as [errors|] eqn:Herrors; cbn [bindR];
        [|discriminate].
      destruct (truthy errors) eqn:Htruthy.
      * intros H. by destruct (graphql_errors_raises errors data).
      * intros [= <-]. exists status, reason, content.
        split; [reflexivity|]. split; [lia|]. right. by exists errors.
    + intros [= <-]. exists status, reason, content.
      split; [reflexivity|]. split; [lia|]. by left.
  - destruct ((400 <=? status) && (status <? 600)); discriminate.
Qed.

Lemma check_reply_accepts_witness :
  exists status reason content,
    report_reply "RUNNING"
    = Reply status reason
        (Some (JDict [("data", JDict [("node",
           sample_node "RUNNING" [descriptor "https://files.test/a.csv";
                                  descriptor "https://files.test/b.csv"])])]))
        content
    /\ ~ (400 <= status < 600)
    /\ no_graphql_errors
         (JDict [("data", JDict [("node",
            sample_node "RUNNING" [descriptor "https://files.test/a.csv";
                                   descriptor "https://files.test/b.csv"])])]).
Proof. apply (check_reply_accepts (report_reply "RUNNING")). reflexivity. Defined.

Lemma error_messages_dicts (errors : list (list (string * json))) :
  forallb string_message errors = true ->
  error_messages (map JDict errors) = Ok (map (fun d => JStr (message_of d)) errors).
Proof.
  induction errors as [|d errors IH]; [done|]. cbn [forallb map error_messages].
  intros H. apply andb_true_iff in H as [Hd Herrors]. rewrite (IH Herrors).
  unfold string_message in Hd. unfold message_of. cbn [get bindR].
  destruct (assoc "message" d) as [[]|]; try discriminate; reflexivity.
Qed.

Lemma join_strings (strs : list string) :
  join (map JStr strs) = Ok (String.concat ", " strs).
Proof.
  induction strs as [|s strs IH]; [done|]. cbn [map join].
  destruct strs as [|s' strs]; [done|].
  cbn [map] in *. rewrite IH. reflexivity.
Qed.

(** A reply whose body lists GraphQL errors is turned into a
    [RuntimeError] whose text joins the messages with a comma and a
    space, [Unknown error] standing for an error without a message. *)
Theorem check_reply_graphql_errors (status : Z) (reason content : string)
    (top : list (string * json)) (errors : list (list (string * json))) :
  ~ (400 <= status < 600) ->
  assoc "errors" top = Some (JList (map JDict errors)) ->
  errors <> [] ->
  forallb string_message errors = true ->
  check_reply (Reply status reason (Some (JDict top)) content)
  = Raise (RuntimeError
             ("GraphQL query failed: " +:+ String.concat ", " (map message_of errors))).
Proof.
  intros Hstatus Herrors Hne Hstr. cbn [check_reply].
  assert ((400 <=? status) && (status <? 600) = false) as -> by lia.
  cbn [has getitem]. rewrite Herrors.
  rewrite bool_decide_eq_true_2 by (by eexists). cbn [bindR].
  destruct errors as [|d errors]; [done|]. cbn [map truthy graphql_errors].
  change (JDict d :: map JDict errors) with (map JDict (d :: errors)).
  rewrite (error_messages_dicts _ Hstr). cbn [bindR].
  rewrite <- (map_map message_of JStr), join_strings. reflexivity.
Qed.

Lemma check_reply_graphql_errors_witness :
  check_reply (Reply 200 "OK"
                 (Some (JDict [("errors", JList [JDict [("message", JStr "Not found")];
                                                 JDict [("path", JNull)]]);
                               ("data", JNull)])) "")
  = Raise (RuntimeError "GraphQL query failed: Not found, Unknown error").
Proof.
  apply (check_reply_graphql_errors 200 "OK" ""
           [("errors", JList [JDict [("message", JStr "Not found")];
                              JDict [("path", JNull)]]);
            ("data", JNull)]
           [[("message", JStr "Not found")]; [("path", JNull)]]).
  - lia.
  - reflexivity.
  - discriminate.
  - reflexivity.
Defined.

(** Without an access token [get_report_info] and [execute_report] raise
    [ValueError] before anything is sent; with one, each sends exactly
    one request, which carries the token. *)
Theorem queries_carry_the_token net self (report_id : string) (w : world unit) :
  (truthy (access_token self) = false ->
   get_report_info net self report_id w
   = (Raise (ValueError "Not authenticated. Call authenticate() first."), w)
   /\ execute_report net self report_id w
      = (Raise (ValueError "Not authenticated. Call authenticate() first."), w))
  /\ (truthy (access_token self) = true ->
      sent (trace (snd (get_report_info net self report_id w)))
      = sent (trace w) ++ [report_request self report_id]
      /\ sent (trace (snd (execute_report net self report_id w)))
         = sent (trace w) ++ [trigger_request self report_id]).
Proof.
  split; intros Hauth.
  - unfold get_report_info, execute_report, _execute_query, bind. rewrite Hauth.
    split; reflexivity.
  - split.
    + rewrite get_report_info_run by done. cbn [snd]. by rewrite trace_extend, sent_app.
    + unfold execute_report, _execute_query, bind, http, lift, ret. rewrite Hauth.
      destruct (check_reply _); cbn [snd]; by rewrite trace_extend, sent_app.
Qed.

Lemma queries_carry_the_token_witness :
  get_report_info all_running (mkClient "api-key" JNull) "crn:1:flexreport/7" fresh
  = (Raise (ValueError "Not authenticated. Call authenticate() first."), fresh)
  /\ execute_report all_running (mkClient "api-key" JNull) "crn:1:flexreport/7" fresh
     = (Raise (ValueError "Not authenticated. Call authenticate() first."), fresh).
Proof.
  destruct (queries_carry_the_token all_running (mkClient "api-key" JNull)
              "crn:1:flexreport/7" fresh) as [H _].
  apply H. reflexivity.
Defined.

End QueryMore.

Module PollMore.
Import Py Script ExecuteAndDownload WorldFacts PollFacts.
Implicit Types (net : nat -> http_reply) (self : client) (report_id : string).

Lemma poll_loop_unreadable net self report_id (fuel : nat) (counter sleep_time : Z)
    (w : world unit) (e : exn) :
  truthy (access_token self) = true ->
  poll_status (net (requests_made w)) = Raise e ->
  caught_by_check e = true ->
  poll_loop net (S fuel) self report_id counter sleep_time w
  = (Raise (SystemExit 1),
     extend w [Sent (report_request self report_id);
               Printed [Lit "ERROR: Failed to check report status - "; Err e]]).
Proof.
  intros Hauth Hst He. cbn [poll_loop]. unfold bind at 1.
  rewrite check_status_run, Hst by done. cbn zeta.
  destruct e; try discriminate He; by rewrite extend_extend.
Qed.

Ltac finish_shape :=
  eexists _, _, 0%nat; split; [reflexivity|]; split; [discriminate|];
  split; [lia|]; rewrite ?extend_extend, !trace_extend, !sent_app, !sleeps_app;
  split; cbn; rewrite ?app_nil_r; reflexivity.

(** The shape of every run of the loop: [j] rounds and a last check. *)
Lemma poll_loop_shape net self report_id (n : nat) :
  truthy (access_token self) = true ->
  forall fuel counter sleep_time (w : world unit),
    max_retries - counter <= Z.of_nat n ->
    (n < fuel)%nat ->
    exists r w' j,
      poll_loop net fuel self report_id counter sleep_time w = (r, w')
      /\ r <> Ok None
      /\ (j <= n)%nat
      /\ sent (trace w')
         = sent (trace w) ++ replicate (S j) (report_request self report_id)
      /\ sleeps (trace w') = sleeps (trace w) ++ delays j counter sleep_time.
Proof.
  intros Hauth.
  induction n as [|n IH]; intros fuel counter sleep_time w Hn Hfuel;
    (destruct fuel as [|fuel]; [lia|]); cbn [poll_loop]; unfold bind at 1;
    rewrite check_status_run by done; cbn zeta;
    (destruct (poll_status (net (requests_made w))) as [[info status]|e];
     [|destruct e; finish_shape]).
  all: unfold bind at 1; unfold print at 1, emit at 1; cbn beta iota.
  all: destruct (eq_str status "COMPLETED"); [run_effects; finish_shape|].
  all: destruct (eq_str status "QUEUED"); [run_effects; finish_shape|].
  all: destruct (eq_str status "FAILED"); [run_effects; finish_shape|].
  all: destruct (counter >=? max_retries) eqn:Hc; [run_effects; finish_shape|].
  - unfold max_retries in *. lia.
  - run_effects. fold (next_sleep counter sleep_time).
    match goal with
    | |- context [poll_loop net fuel self report_id ?c ?s ?w0] =>
        destruct (IH fuel c s w0 ltac:(unfold max_retries in *; lia) ltac:(lia))
          as (r & w' & j & Hrun & Hr & Hj & Hsent & Hsleeps)
    end.
    exists r, w', (S j). split; [exact Hrun|]. split; [exact Hr|]. split; [lia|].
    rewrite Hsent, Hsleeps, !trace_extend, !sent_app, !sleeps_app.
    split; cbn; rewrite <- !app_assoc; reflexivity.
Qed.

Lemma delays_from_start (j : nat) :
  (j <= 4)%nat -> delays j 1 10 = take j [15; 22; 33; 49].
Proof. intros H. do 5 (destruct j as [|j]; [reflexivity|]). lia. Qed.

(** The wait for completion ends: it checks the status between one and
    five times, sleeps 15 seconds before the first check and then 15, 22,
    33 and 49 seconds between checks, 134 seconds at most in all. *)
Theorem poll_checks_and_sleeps net self report_id (fuel : nat) (w : world unit) :
  truthy (access_token self) = true ->
  (5 <= fuel)%nat ->
  exists r w' j slept,
    poll net fuel self report_id w = (r, w')
    /\ r <> Ok None
    /\ (j <= 4)%nat
    /\ sent (trace w') = sent (trace w) ++ replicate (S j) (report_request self report_id)
    /\ sleeps (trace w') = sleeps (trace w) ++ slept
    /\ slept = 15 :: take j [15; 22; 33; 49]
    /\ total slept <= 134.
Proof.
  intros Hauth Hfuel. unfold poll, bind at 1, sleep at 1, emit at 1. cbn beta iota.
  destruct (poll_loop_shape net self report_id 4 Hauth fuel 1 10 (extend w [Slept 15]))
    as (r & w' & j & Hrun & Hr & Hj & Hsent & Hsleeps);
    [unfold max_retries; lia | lia |].
  exists r, w', j, (15 :: take j [15; 22; 33; 49]).
  split; [exact Hrun|]. split; [exact Hr|]. split; [exact Hj|].
  rewrite Hsent, Hsleeps, trace_extend, sent_app, sleeps_app, delays_from_start by done.
  split; [cbn; by rewrite app_nil_r|]. split; [by rewrite <- app_assoc|].
  split; [reflexivity|].
  do 5 (destruct j as [|j]; [cbn; lia|]). lia.
Qed.

Lemma poll_checks_and_sleeps_witness :
  exists r w' j slept,
    poll queued_second 5 sample_client "crn:1:flexreport/7" fresh = (r, w')
    /\ r <> Ok None
    /\ (j <= 4)%nat
    /\ sent (trace w')
       = sent (trace fresh)
         ++ replicate (S j) (report_request sample_client "crn:1:flexreport/7")
    /\ sleeps (trace w') = sleeps (trace fresh) ++ slept
    /\ slept = 15 :: take j [15; 22; 33; 49]
    /\ total slept <= 134.
Proof.
  apply (poll_checks_and_sleeps queued_second sample_client "crn:1:flexreport/7" 5 fresh).
  - reflexivity.
  - lia.
Defined.

(** When a status check fails with an error the handler names (no reply,
    an error status, a body that is not JSON, GraphQL errors, a response
    without [data] or [node]), the wait prints the error and exits with
    status 1, whatever the number of checks that said RUNNING before. *)
Theorem poll_aborts_when_status_unreadable net self report_id
    (fuel k : nat) (w : world unit) (e : exn) :
  truthy (access_token self) = true ->
  (k < 5)%nat ->
  (k < fuel)%nat ->
  (forall i, (i < k)%nat ->
     exists earlier, reported (net (requests_made w + i)%nat) = Some earlier
                     /\ still_running earlier = true) ->
  poll_status (net (requests_made w + k)%nat) = Raise e ->
  caught_by_check e = true ->
  exists w',
    poll net fuel self report_id w = (Raise (SystemExit 1), w')
    /\ sent (trace w') = sent (trace w) ++ replicate (S k) (report_request self report_id)
    /\ last (printed (trace w'))
       = Some [Lit "ERROR: Failed to check report status - "; Err e].
Proof.
  intros Hauth Hk Hfuel Hall Hst He.
  replace fuel with (k + S (fuel - S k))%nat by lia.
  rewrite poll_rounds by (done || lia).
  rewrite (poll_loop_unreadable net self report_id _ _ _ _ e Hauth);
    [| by rewrite requests_made_after_rounds | exact He].
  eexists. split; [reflexivity|]. split.
  - rewrite !trace_extend, !sent_app.
    change (sent (Slept 15 :: ?t)) with (sent t). rewrite sent_rounds_events.
    rewrite <- app_assoc. f_equal.
    replace (S k) with (k + 1)%nat by lia. by rewrite replicate_add.
  - rewrite trace_extend, printed_app.
    change (printed [Sent ?r; Printed ?l]) with [l]. apply last_snoc.
Qed.

Lemma poll_aborts_when_status_unreadable_witness :
  exists w',
    poll (fun n => match n with
                   | 1%nat => report_reply ""
                   | _ => report_reply "RUNNING"
                   end) 5 sample_client "crn:1:flexreport/7" fresh
    = (Raise (SystemExit 1), w')
    /\ sent (trace w')
       = sent (trace fresh)
         ++ replicate 2 (report_request sample_client "crn:1:flexreport/7")
    /\ last (printed (trace w'))
       = Some [Lit "ERROR: Failed to check report status - ";
               Err (ValueError "Failed to retrieve report status")].
Proof.
  apply (poll_aborts_when_status_unreadable
           (fun n => match n with
                     | 1%nat => report_reply ""
                     | _ => report_reply "RUNNING"
                     end) sample_client "crn:1:flexreport/7" 5 1 fresh
           (ValueError "Failed to retrieve report status")).
  - reflexivity.
  - lia.
  - lia.
  - intros i Hi. exists (JStr "RUNNING"). destruct i as [|i]; [|lia]. split; reflexivity.
  - reflexivity.
  - reflexivity.
Defined.

(** A report that is COMPLETED at any of the five checks, the fifth
    included, is returned, after the sleeps of the checks before it. *)
Theorem poll_completed_at_any_check net self report_id
    (fuel k : nat) (w : world unit) (info : json) :
  truthy (access_token self) = true ->
  (k < 5)%nat ->
  (k < fuel)%nat ->
  (forall i, (i < k)%nat ->
     exists earlier, reported (net (requests_made w + i)%nat) = Some earlier
                     /\ still_running earlier = true) ->
  poll_status (net (requests_made w + k)%nat) = Ok (info, JStr "COMPLETED") ->
  exists w',
    poll net fuel self report_id w = (Ok (Some info), w')
    /\ sent (trace w') = sent (trace w) ++ replicate (S k) (report_request self report_id)
    /\ sleeps (trace w') = sleeps (trace w) ++ 15 :: take k [15; 22; 33; 49].
Proof.
  intros Hauth Hk Hfuel Hall Hst.
  replace fuel with (k + S (fuel - S k))%nat by lia.
  rewrite poll_rounds by (done || lia).
  rewrite (poll_loop_completed net self report_id Hauth _ _ _ _ info (JStr "COMPLETED"));
    [| by rewrite requests_made_after_rounds | reflexivity].
  eexists. split; [reflexivity|]. split; [apply sent_after_final|].
  rewrite !trace_extend, !sleeps_app.
  change (sleeps (Slept 15 :: ?t)) with (15 :: sleeps t).
  rewrite sleeps_rounds_events, delays_from_start by lia.
  assert (forall c st ls, sleeps (final_events self report_id c st ls) = []) as ->.
  { intros c st ls. unfold final_events.
    change (sleeps (Sent ?r :: Printed ?l :: ?t)) with (sleeps t).
    induction ls as [|l ls IH]; [done|exact IH]. }
  by rewrite app_nil_r.
Qed.

Lemma poll_completed_at_any_check_witness :
  exists w',
    poll (fun n => match n with
                   | 4%nat => report_reply "COMPLETED"
                   | _ => report_reply "RUNNING"
                   end) 5 sample_client "crn:1:flexreport/7" fresh
    = (Ok (Some (sample_node "COMPLETED"
                   [descriptor "https://files.test/a.csv";
                    descriptor "https://files.test/b.csv"])), w')
    /\ sent (trace w')
       = sent (trace fresh)
         ++ replicate 5 (report_request sample_client "crn:1:flexreport/7")
    /\ sleeps (trace w') = sleeps (trace fresh) ++ 15 :: take 4 [15; 22; 33; 49].
Proof.
  apply (poll_completed_at_any_check
           (fun n => match n with
                     | 4%nat => report_reply "COMPLETED"
                     | _ => report_reply "RUNNING"
                     end) sample_client "crn:1:flexreport/7" 5 4 fresh).
  - reflexivity.
  - lia.
  - lia.
  - intros i Hi. exists (JStr "RUNNING").
    do 4 (destruct i as [|i]; [split; reflexivity|]). lia.
  - reflexivity.
Defined.

End PollMore.

Module DownloadMore.
Import Py Script ExecuteAndDownload WorldFacts PollFacts.
Implicit Types (net : nat -> http_reply) (self : client).

Lemma download_step_run net self (name : string) (report_info download_url : json)
    (w : world unit) :
  download_url_of report_info = Ok download_url ->
  let output_file := sanitize_filename name +:+ ".csv" in
  let w0 := extend w (before_download (JStr name) download_url output_file) in
  download_step net self (JStr name) report_info w
  = match net (requests_made w) with
    | NoReply _ =>
        (Raise (SystemExit 1),
         extend w0 (Sent (Get download_url)
                    :: map Printed [[]; rule; [Lit "ERROR: DOWNLOAD FAILED"]; rule;
                         [Lit "Please try downloading manually from the CloudHealth platform."]]))
    | Reply status _ _ content =>
        if (400 <=? status) && (status <? 600) then
          (Raise (SystemExit 1),
           extend w0 (Sent (Get download_url)
                      :: map Printed [[]; rule; [Lit "ERROR: DOWNLOAD FAILED"]; rule;
                           [Lit "Please try downloading manually from the CloudHealth platform."]]))
        else
          (Ok tt,
           mkWorld
             (trace w0
              ++ Sent (Get download_url)
                 :: map Printed [rule; [Lit "DOWNLOAD COMPLETE"]; rule;
                                 [Lit "File saved: "; Lit output_file]; [];
                                 [Lit "File size: ";
                                  format_size (Z.of_nat (String.length content))]; []])
             (<[output_file := [Lit content]]> (fs w)) tt)
    end.
Proof.
  intros Hurl. cbn zeta. unfold download_step. run_effects.
  unfold try_except at 1, lift. rewrite Hurl. run_effects.
  unfold try_except, download_report, bind, http.
  rewrite requests_made_extend. cbn [before_download List.filter is_sent length].
  rewrite Nat.add_0_r.
  destruct (net (requests_made w)) as [why|status reason body content]; run_effects.
  - reflexivity.
  - destruct ((400 <=? status) && (status <? 600)); run_effects; [reflexivity|].
    unfold write_file, extend. cbn [trace fs globals]. destruct (globals w).
    rewrite <- !app_assoc. reflexivity.
Qed.

(** When the file is delivered, the download step writes exactly the
    content received to the sanitised report name followed by [.csv],
    with one GET of the URL, and prints the size of that content. *)
Theorem download_step_saves_content net self (name content : string)
    (report_info download_url : json) (w : world unit) :
  download_url_of report_info = Ok download_url ->
  delivered (net (requests_made w)) = Some content ->
  exists w',
    download_step net self (JStr name) report_info w = (Ok tt, w')
    /\ fs w' = <[sanitize_filename name +:+ ".csv" := [Lit content]]> (fs w)
    /\ sent (trace w') = sent (trace w) ++ [Get download_url]
    /\ [Lit "File size: "; format_size (Z.of_nat (String.length content))]
       ∈ printed (trace w').
Proof.
  intros Hurl Hcontent. rewrite (download_step_run net self name _ _ w Hurl). cbn zeta.
  unfold delivered in Hcontent.
  destruct (net (requests_made w)) as [why|status reason body content0]; [discriminate|].
  destruct ((400 <=? status) && (status <? 600)); [discriminate|].
  injection Hcontent as ->.
  eexists. split; [reflexivity|]. cbn [fs trace]. split; [reflexivity|]. split.
  - rewrite trace_extend, !sent_app. cbn. by rewrite app_nil_r.
  - rewrite !printed_app. apply elem_of_app. right. cbn. set_solver.
Qed.

Lemma download_step_saves_content_witness :
  exists w',
    download_step file_server sample_client (JStr "My Report (Q1)!")
      (sample_node "COMPLETED" [descriptor "https://files.test/a.csv"]) fresh = (Ok tt, w')
    /\ fs w' = <[sanitize_filename "My Report (Q1)!" +:+ ".csv" := [Lit "month,cost"]]> (fs fresh)
    /\ sent (trace w') = sent (trace fresh) ++ [Get (JStr "https://files.test/a.csv")]
    /\ [Lit "File size: "; format_size (Z.of_nat (String.length "month,cost"))]
       ∈ printed (trace w').
Proof.
  apply (download_step_saves_content file_server sample_client "My Report (Q1)!" "month,cost"
           (sample_node "COMPLETED" [descriptor "https://files.test/a.csv"])
           (JStr "https://files.test/a.csv") fresh).
  - reflexivity.
  - reflexivity.
Defined.

(** When the download fails (no reply or an error status), no file is
    written, the failure banner is printed and the script exits with
    status 1. *)
Theorem download_step_failure_writes_nothing net self (name : string)
    (report_info download_url : json) (w : world unit) :
  download_url_of report_info = Ok download_url ->
  delivered (net (requests_made w)) = None ->
  exists w',
    download_step net self (JStr name) report_info w = (Raise (SystemExit 1), w')
    /\ fs w' = fs w
    /\ sent (trace w') = sent (trace w) ++ [Get download_url]
    /\ exists before,
         printed (trace w')
         = before ++ [[]; rule; [Lit "ERROR: DOWNLOAD FAILED"]; rule;
                      [Lit "Please try downloading manually from the CloudHealth platform."]].
Proof.
  intros Hurl Hnone. rewrite (download_step_run net self name _ _ w Hurl). cbn zeta.
  unfold delivered in Hnone.
  destruct (net (requests_made w)) as [why|status reason body content];
    [|destruct ((400 <=? status) && (status <? 600)); [|discriminate]].
  all: eexists; split; [reflexivity|]; split; [reflexivity|]; split;
    [rewrite !trace_extend, !sent_app; cbn; by rewrite app_nil_r
    |exists (printed (trace w)
             ++ printed (before_download (JStr name) download_url
                           (sanitize_filename name +:+ ".csv")));
     rewrite !trace_extend, !printed_app; rewrite <- !app_assoc; reflexivity].
Qed.

Lemma download_step_failure_writes_nothing_witness :
  exists w',
    download_step unreachable sample_client (JStr "My Report (Q1)!")
      (sample_node "COMPLETED" [descriptor "https://files.test/a.csv"]) fresh
    = (Raise (SystemExit 1), w')
    /\ fs w' = fs fresh
    /\ sent (trace w') = sent (trace fresh) ++ [Get (JStr "https://files.test/a.csv")]
    /\ exists before,
         printed (trace w')
         = before ++ [[]; rule; [Lit "ERROR: DOWNLOAD FAILED"]; rule;
                      [Lit "Please try downloading manually from the CloudHealth platform."]].
Proof.
  apply (download_step_failure_writes_nothing unreachable sample_client "My Report (Q1)!"
           (sample_node "COMPLETED" [descriptor "https://files.test/a.csv"])
           (JStr "https://files.test/a.csv") fresh).
  - reflexivity.
  - reflexivity.
Defined.

End DownloadMore.

Module BoundFacts.
Import Py Script WorldFacts.

Section Facts.
Context {G : Type}.

Lemma at_most_weaken {A} (n n' : nat) (m : M G A) :
  (n <= n')%nat -> at_most n m -> at_most n' m.
Proof. intros Hn H w. specialize (H w). lia. Qed.

Lemma at_most_ret {A} (a : A) : at_most (G:=G) 0 (ret a).
Proof. intros w. cbn. lia. Qed.

Lemma at_most_raise {A} (e : exn) : at_most (G:=G) (A:=A) 0 (raise e).
Proof. intros w. cbn. lia. Qed.

Lemma at_most_sys_exit {A} (c : Z) : at_most (G:=G) (A:=A) 0 (sys_exit c).
Proof. apply at_most_raise. Qed.

Lemma at_most_lift {A} (r : res A) : at_most (G:=G) 0 (lift r).
Proof. intros w. cbn. lia. Qed.

Lemma at_most_print (l : line) : at_most (G:=G) 0 (print l).
Proof. intros w. unfold print, emit. cbn [snd]. rewrite requests_made_extend. cbn. lia. Qed.

Lemma at_most_sleep (s : Z) : at_most (G:=G) 0 (sleep s).
Proof. intros w. unfold sleep, emit. cbn [snd]. rewrite requests_made_extend. cbn. lia. Qed.

Lemma at_most_input stdin (prompt : string) : at_most (G:=G) 0 (input stdin prompt).
Proof. intros w. unfold input. cbn [snd]. rewrite requests_made_extend. cbn. lia. Qed.

Lemma at_most_http net (r : request) : at_most (G:=G) 1 (http net r).
Proof. intros w. unfold http. cbn [snd]. rewrite requests_made_extend. cbn. lia. Qed.

Lemma at_most_write_file (name : string) (chunks : list piece) :
  at_most (G:=G) 0 (write_file name chunks).
Proof. intros w. unfold write_file, requests_made. cbn. lia. Qed.

Lemma at_most_bind {A B} (n k : nat) (m : M G A) (f : A -> M G B) :
  at_most n m -> (forall a, at_most k (f a)) -> at_most (n + k) (bind m f).
Proof.
  intros Hm Hf w. unfold bind. specialize (Hm w).
  destruct (m w) as [[a|e] w1]; cbn [snd] in *; [|lia].
  specialize (Hf a w1). lia.
Qed.

Lemma at_most_then {A B} (k : nat) (m : M G A) (f : A -> M G B) :
  at_most 0 m -> (forall a, at_most k (f a)) -> at_most k (bind m f).
Proof. intros Hm Hf. apply (at_most_bind 0 k); assumption. Qed.

Lemma at_most_try_except {A} (n k : nat) (body : M G A) (handler : exn -> option (M G A)) :
  at_most n body ->
  (forall e h, handler e = Some h -> at_most k h) ->
  at_most (n + k) (try_except body handler).
Proof.
  intros Hbody Hh w. unfold try_except. specialize (Hbody w).
  destruct (body w) as [[a|e] w1]; cbn [snd] in *; [lia|].
  destruct (handler e) as [h|] eqn:He; cbn [snd]; [|lia].
  specialize (Hh e h He w1). lia.
Qed.

(** Only the end of a sequence decides whether its result is [Ok None]. *)
Lemma bind_not_none {A B} (m : M G A) (f : A -> M G (option B)) (w : world G) :
  (forall a w1, fst (f a w1) <> Ok None) -> fst (bind m f w) <> Ok None.
Proof.
  intros Hf. unfold bind. destruct (m w) as [[a|e] w1]; [apply Hf|discriminate].
Qed.

End Facts.
End BoundFacts.

Module MainMore.
Import Py Script ExecuteAndDownload WorldFacts PollFacts AuthTheorems BoundFacts QueryMore.
Implicit Types (net : nat -> http_reply) (stdin : nat -> option string) (self : client).

Lemma at_most_print_header (text : line) : at_most (G:=unit) 0 (print_header text).
Proof.
  unfold print_header. do 2 (apply at_most_then; [apply at_most_print|intros _]).
  apply at_most_print.
Qed.

Ltac zero :=
  first [ apply at_most_print | apply at_most_print_header | apply at_most_ret
        | apply at_most_sys_exit | apply at_most_raise | apply at_most_lift
        | apply at_most_sleep | apply at_most_input | apply at_most_write_file ].

Ltac zeros := repeat (apply at_most_then; [zero|intros ?]); try zero.

Lemma at_most_prompt_stripped stdin (prompt : string) :
  at_most (G:=unit) 0 (prompt_stripped stdin prompt).
Proof.
  unfold prompt_stripped. apply at_most_then; [zero|]. intros [s|]; zeros.
Qed.

Lemma at_most_execute_query net self (query : string) (variables : json) (a : bool) :
  at_most 1 (_execute_query net self query variables a).
Proof.
  unfold _execute_query. apply at_most_then.
  - destruct a; [destruct (truthy (access_token self))|]; zero.
  - intros bearer. apply (at_most_bind 1 0); [apply at_most_http|]. intros reply. zero.
Qed.

Lemma at_most_authenticate net self : at_most 1 (authenticate net self).
Proof.
  unfold authenticate. apply (at_most_bind 1 0); [apply at_most_execute_query|].
  intros response. zeros.
Qed.

Lemma at_most_login net (api_key : string) : at_most 1 (login net api_key).
Proof.
  unfold login. apply (at_most_try_except 1 0); [apply at_most_authenticate|].
  intros e h He. destruct e; try discriminate He; injection He as <-; zeros.
Qed.

Lemma at_most_get_report_info net self (report_id : string) :
  at_most 1 (get_report_info net self report_id).
Proof.
  unfold get_report_info. apply (at_most_bind 1 0); [apply at_most_execute_query|].
  intros response. zero.
Qed.

Lemma at_most_execute_report net self (report_id : string) :
  at_most 1 (execute_report net self report_id).
Proof.
  unfold execute_report. apply (at_most_bind 1 0); [apply at_most_execute_query|].
  intros _. zero.
Qed.

Lemma at_most_download_report net (url : json) (filename : string) :
  at_most 1 (download_report net url filename).
Proof.
  unfold download_report. apply (at_most_bind 1 0); [apply at_most_http|].
  intros [why|status reason body content]; [zero|].
  destruct ((400 <=? status) && (status <? 600)); zeros.
Qed.

Lemma at_most_download_step net self (report_name report_info : json) :
  at_most 1 (download_step net self report_name report_info).
Proof.
  unfold download_step. do 2 (apply at_most_then; [zero|intros _]).
  apply at_most_then.
  { apply (at_most_try_except 0 0); [zero|].
    intros e h He. destruct e; try discriminate He; injection He as <-; zeros. }
  intros download_url. apply at_most_then; [destruct report_name; zero|].
  intros download_name. do 4 (apply at_most_then; [zero|intros _]).
  apply (at_most_bind 1 0); [|intros file_size; zeros].
  apply (at_most_try_except 1 0); [apply at_most_download_report|].
  intros e h He. destruct e; try discriminate He; injection He as <-; zeros.
Qed.

Lemma poll_outcome net self (report_id : string) (fuel : nat) (w : world unit) :
  (5 <= fuel)%nat ->
  exists r w', poll net fuel self report_id w = (r, w') /\ r <> Ok None
               /\ (requests_made w' <= requests_made w + 5)%nat.
Proof.
  intros Hfuel. unfold poll, bind at 1, sleep at 1, emit at 1. cbn beta iota.
  destruct (poll_loop_terminates net self report_id 4 fuel 1 10 (extend w [Slept 15]))
    as (r & w' & Hrun & Hr & Hreq); [unfold max_retries; lia | lia |].
  exists r, w'. split; [exact Hrun|]. split; [exact Hr|].
  rewrite requests_made_extend in Hreq. cbn in Hreq. lia.
Qed.

Lemma poll_and_download_outcome net self (report_id : string) (report_name : json)
    (fuel : nat) (w : world unit) :
  (5 <= fuel)%nat ->
  let run := poll_and_download net fuel self report_id report_name w in
  fst run <> Ok None /\ (requests_made (snd run) <= requests_made w + 6)%nat.
Proof.
  intros Hfuel. cbn zeta. unfold poll_and_download, bind at 1 3.
  destruct (poll_outcome net self report_id fuel w Hfuel) as (r & w' & -> & Hr & Hreq).
  destruct r as [[info|]|e]; [| done |by split; [|cbn; lia]].
  split.
  - apply bind_not_none. intros. discriminate.
  - pose proof (at_most_bind 1 0 _ (fun _ : unit => ret (G:=unit) (Some tt))
                  (at_most_download_step net self report_name info)
                  (fun _ => at_most_ret _) w') as H.
    lia.
Qed.

(** A run of [main] ends, and issues at most nine requests: the login,
    the report information, the trigger, five status checks and the
    download. *)
Theorem main_terminates_within_nine_requests net stdin (fuel : nat) (w : world unit) :
  (5 <= fuel)%nat ->
  fst (main net stdin fuel w) <> Ok None
  /\ (requests_made (snd (main net stdin fuel w)) <= requests_made w + 9)%nat.
Proof.
  intros Hfuel.
  assert (forall self report_id report_name,
            at_most 6 (poll_and_download net fuel self report_id report_name)) as Htail.
  { intros self report_id report_name w0.
    exact (proj2 (poll_and_download_outcome net self report_id report_name fuel w0 Hfuel)). }
  split.
  - unfold main.
    do 19 (apply bind_not_none; intros).
    exact (proj1 (poll_and_download_outcome net _ _ _ fuel _ Hfuel)).
  - revert w. change (at_most 9 (main net stdin fuel)). unfold main.
    do 2 (apply at_most_then; [zero|intros _]).
    apply at_most_then; [apply at_most_prompt_stripped|intros api_key].
    apply at_most_then; [destruct (String.eqb api_key ""); zeros|intros _].
    do 2 (apply at_most_then; [zero|intros _]).
    apply (at_most_bind 1 8); [apply at_most_login|intros client].
    do 2 (apply at_most_then; [zero|intros _]).
    apply at_most_then; [apply at_most_prompt_stripped|intros report_id].
    apply at_most_then; [destruct (String.eqb report_id ""); zeros|intros _].
    apply at_most_then; [zero|intros _].
    apply (at_most_bind 1 7).
    { apply (at_most_try_except 1 0).
      - apply (at_most_bind 1 0); [apply at_most_get_report_info|]. intros info.
        apply at_most_then; [zero|]. intros name. destruct (negb (truthy name)); zero.
      - intros e h He. destruct e; try discriminate He; injection He as <-; zeros. }
    intros report_name. do 2 (apply at_most_then; [zero|intros _]).
    apply (at_most_bind 1 6).
    { apply (at_most_try_except 1 0); [apply at_most_execute_report|].
      intros e h He. destruct e; try discriminate He; injection He as <-; zeros. }
    intros _. do 3 (apply at_most_then; [zero|intros _]).
    apply Htail.
Qed.

Lemma main_terminates_within_nine_requests_witness :
  fst (main session typed 5 fresh) <> Ok None
  /\ (requests_made (snd (main session typed 5 fresh)) <= requests_made fresh + 9)%nat.
Proof. apply (main_terminates_within_nine_requests session typed 5 fresh). lia. Defined.

(** When no API key is typed (end of input or a blank line), [main]
    exits with status 1 without sending a request or writing a file. *)
Theorem main_without_key_sends_nothing net stdin (fuel : nat) (w : world unit) :
  nothing_typed stdin (prompts_made w) = true ->
  exists w',
    main net stdin fuel w = (Raise (SystemExit 1), w')
    /\ sent (trace w') = sent (trace w)
    /\ fs w' = fs w.
Proof.
  unfold nothing_typed. intros Hnothing.
  unfold main. unfold bind at 1 2. run_effects.
  unfold prompt_stripped at 1, input. run_effects.
  rewrite prompts_made_extend. cbn [List.filter is_prompted length].
  rewrite Nat.add_0_r.
  destruct (stdin (prompts_made w)) as [typed|]; run_effects.
  - rewrite Hnothing. run_effects.
    eexists. split; [reflexivity|]. split; [|reflexivity].
    rewrite !trace_extend, !sent_app. cbn. by rewrite app_nil_r.
  - eexists. split; [reflexivity|]. split; [|reflexivity].
    rewrite !trace_extend, !sent_app. cbn. by rewrite app_nil_r.
Qed.

Lemma main_without_key_sends_nothing_witness :
  exists w',
    main all_running (fun _ => Some "   ") 5 fresh = (Raise (SystemExit 1), w')
    /\ sent (trace w') = sent (trace fresh)
    /\ fs w' = fs fresh.
Proof.
  apply (main_without_key_sends_nothing all_running (fun _ => Some "   ") 5 fresh).
  reflexivity.
Defined.

(** When the login succeeds and no report ID is typed, [main] exits with
    status 1 after the login request alone. *)
Theorem main_without_report_id_stops_after_login net stdin (fuel : nat) (w : world unit)
    (typed : string) (token : json) :
  stdin (prompts_made w) = Some typed ->
  strip typed <> "" ->
  auth_outcome (net (requests_made w)) = Ok token ->
  nothing_typed stdin (S (prompts_made w)) = true ->
  exists w',
    main net stdin fuel w = (Raise (SystemExit 1), w')
    /\ sent (trace w') = sent (trace w) ++ [login_request (strip typed)]
    /\ fs w' = fs w.
Proof.
  intros Htyped Hkey Hout Hnothing. unfold nothing_typed in Hnothing.
  unfold main. unfold bind at 1 2. run_effects.
  unfold prompt_stripped at 1, input. run_effects.
  rewrite prompts_made_extend. cbn [List.filter is_prompted length].
  rewrite Nat.add_0_r, Htyped.
  apply String.eqb_neq in Hkey. rewrite Hkey.
  rewrite !extend_extend. cbn [app].
  rewrite login_run. cbn zeta.
  rewrite requests_made_extend. cbn [List.filter is_sent length].
  rewrite Nat.add_0_r, Hout. rewrite !extend_extend. cbn [app].
  unfold prompt_stripped at 1, input. run_effects.
  rewrite prompts_made_extend. cbn [List.filter is_prompted length].
  replace (prompts_made w + 1)%nat with (S (prompts_made w)) by lia.
  destruct (stdin (S (prompts_made w))) as [typed2|]; run_effects.
  - rewrite Hnothing. run_effects.
    eexists. split; [reflexivity|]. split; [|reflexivity].
    rewrite !trace_extend, !sent_app. cbn. rewrite ?app_nil_r. reflexivity.
  - eexists. split; [reflexivity|]. split; [|reflexivity].
    rewrite !trace_extend, !sent_app. cbn. rewrite ?app_nil_r. reflexivity.
Qed.

Lemma main_without_report_id_stops_after_login_witness :
  exists w',
    main session (fun n => match n with 0%nat => Some "api-key" | _ => None end) 5 fresh
    = (Raise (SystemExit 1), w')
    /\ sent (trace w') = sent (trace fresh) ++ [login_request (strip "api-key")]
    /\ fs w' = fs fresh.
Proof.
  apply (main_without_report_id_stops_after_login session
           (fun n => match n with 0%nat => Some "api-key" | _ => None end) 5 fresh
           "api-key" (JStr "token")).
  - reflexivity.
  - discriminate.
  - reflexivity.
  - reflexivity.
Defined.

Lemma auth_outcome_truthy (r : http_reply) (token : json) :
  auth_outcome r = Ok token -> truthy token = true.
Proof.
  unfold auth_outcome. destruct (check_reply r) as [response|]; [|discriminate].
  intros H. by destruct (token_of_response_valid response token H).
Qed.

(** When the trigger of the execution fails, [main] reports it and exits
    with status 1: it neither sleeps nor checks the status. *)
Theorem main_trigger_failure_never_polls net stdin (fuel : nat) (w : world unit)
    (typed typed_id msg : string) (token report_info report_name : json) :
  stdin (prompts_made w) = Some typed ->
  strip typed <> "" ->
  auth_outcome (net (requests_made w)) = Ok token ->
  stdin (S (prompts_made w)) = Some typed_id ->
  strip typed_id <> "" ->
  bindR (check_reply (net (S (requests_made w)))) node_of_response = Ok report_info ->
  get report_info "name" JNull = Ok report_name ->
  truthy report_name = true ->
  check_reply (net (S (S (requests_made w)))) = Raise (RuntimeError msg) ->
  let self := mkClient (strip typed) token in
  exists w',
    main net stdin fuel w = (Raise (SystemExit 1), w')
    /\ sent (trace w')
       = sent (trace w)
         ++ [login_request (strip typed); report_request self (strip typed_id);
             trigger_request self (strip typed_id)]
    /\ sleeps (trace w') = sleeps (trace w)
    /\ last (printed (trace w'))
       = Some [Lit "ERROR: Failed to execute report - "; Err (RuntimeError msg)].
Proof.
  intros Htyped Hkey Hout Htyped2 Hid Hinfo Hname Htruthy Htrigger. cbn zeta.
  pose proof (auth_outcome_truthy _ _ Hout) as Hauth.
  unfold main. unfold bind at 1 2. run_effects.
  unfold prompt_stripped at 1, input. run_effects.
  rewrite prompts_made_extend. cbn [List.filter is_prompted length].
  rewrite Nat.add_0_r, Htyped.
  apply String.eqb_neq in Hkey. rewrite Hkey.
  rewrite !extend_extend. cbn [app].
  rewrite login_run. cbn zeta.
  rewrite requests_made_extend. cbn [List.filter is_sent length].
  rewrite Nat.add_0_r, Hout. rewrite !extend_extend. cbn [app].
  unfold prompt_stripped at 1, input. run_effects.
  rewrite prompts_made_extend. cbn [List.filter is_prompted length].
  replace (prompts_made w + 1)%nat with (S (prompts_made w)) by lia.
  rewrite Htyped2. apply String.eqb_neq in Hid. rewrite Hid.
  rewrite !extend_extend. cbn [app].
  unfold try_except at 1.
  rewrite (get_report_info_run net (mkClient (strip typed) token) (strip typed_id))
    by exact Hauth.
  rewrite requests_made_extend. cbn [List.filter is_sent length].
  replace (requests_made w + 1)%nat with (S (requests_made w)) by lia.
  rewrite Hinfo. unfold lift. rewrite Hname, Htruthy. cbn [negb].
  rewrite !extend_extend. cbn [app].
  unfold try_except at 1, execute_report, _execute_query, bind, http, lift, ret.
  cbn [access_token]. rewrite Hauth. rewrite !requests_made_extend.
  cbn [List.filter is_sent length].
  replace (requests_made w + 2)%nat with (S (S (requests_made w))) by lia.
  rewrite Htrigger. cbn beta iota. run_effects.
  eexists. split; [reflexivity|].
  rewrite !trace_extend, !sent_app, !sleeps_app, !printed_app.
  split; [|split].
  - cbn. rewrite ?app_nil_r. reflexivity.
  - cbn. rewrite ?app_nil_r. reflexivity.
  - cbn. rewrite last_app. reflexivity.
Qed.

Lemma main_trigger_failure_never_polls_witness :
  exists w',
    main trigger_refused typed 5 fresh = (Raise (SystemExit 1), w')
    /\ sent (trace w')
       = sent (trace fresh)
         ++ [login_request (strip " api-key ");
             report_request (mkClient (strip " api-key ") (JStr "token"))
               (strip "crn:1:flexreport/7");
             trigger_request (mkClient (strip " api-key ") (JStr "token"))
               (strip "crn:1:flexreport/7")]
    /\ sleeps (trace w') = sleeps (trace fresh)
    /\ last (printed (trace w'))
       = Some [Lit "ERROR: Failed to execute report - ";
               Err (RuntimeError "Network request failed: connection reset")].
Proof.
  apply (main_trigger_failure_never_polls trigger_refused typed 5 fresh
           " api-key " "crn:1:flexreport/7" "Network request failed: connection reset"
           (JStr "token")
           (sample_node "RUNNING" [descriptor "https://files.test/a.csv";
                                   descriptor "https://files.test/b.csv"])
           (JStr "My Report (Q1)!")).
  - reflexivity.
  - vm_compute. discriminate.
  - reflexivity.
  - reflexivity.
  - vm_compute. discriminate.
  - reflexivity.
  - reflexivity.
  - reflexivity.
  - reflexivity.
Defined.

End MainMore.

(** ** Further properties of create-flexreports.py *)

Module CreateMore.
Import Py Script CreateFlexReports WorldFacts CreateFacts BoundFacts.
Implicit Types (net : nat -> http_reply) (rng : nat -> nat)
  (int_of_str : string -> option Z) (repr : json -> string)
  (stdin : nat -> option string).

Lemma get_mod_length (population : string) (n : nat) :
  population <> "" ->
  exists c, String.get (n mod String.length population)%nat population = Some c.
Proof.
  intros Hne.
  assert (String.length population <> 0%nat) as Hlen by (by destruct population).
  assert (forall s i, (i < String.length s)%nat -> exists c, String.get i s = Some c) as H.
  { induction s as [|c s IH]; intros i Hi; [cbn in Hi; lia|].
    destruct i as [|i]; [by exists c|]. cbn in *. apply IH. lia. }
  apply H. by apply Nat.mod_upper_bound.
Qed.

Lemma picks_shape rng (population : string) (k : nat) : forall first,
  population <> "" ->
  String.length (picks rng population k first) = k
  /\ drawn_from population (picks rng population k first).
Proof.
  induction k as [|k IH]; intros first Hne; [done|].
  cbn [picks String.length drawn_from].
  destruct (IH (S first) Hne) as [Hlen Hfrom].
  destruct (get_mod_length population (rng first) Hne) as [c Hc].
  rewrite Hc. cbn [default from_option id]. split; [by rewrite Hlen|].
  split; [|exact Hfrom]. by eexists.
Qed.

Lemma suffix_alphabet_get (j : nat) (c : ascii) :
  String.get j suffix_alphabet = Some c -> upper_or_digit c = true.
Proof.
  unfold suffix_alphabet.
  do 36 (destruct j as [|j]; [intros [= <-]; reflexivity|]). discriminate.
Qed.

Lemma drawn_from_alphabet (s : string) :
  drawn_from suffix_alphabet s -> all_upper_or_digit s = true.
Proof.
  induction s as [|c s IH]; [done|]. cbn. intros [[j Hj] Hs].
  by rewrite (suffix_alphabet_get j c Hj), IH.
Qed.

(** For a well-formed manifest entry whose name is a string, the loop
    body draws a suffix of six characters with [random.choices], each an
    upper-case letter or a digit; the one request it sends carries the
    name of the entry, a space and that suffix, and this is the name it
    records when the report is created. *)
Theorem suffixed_name_shape net rng int_of_str repr (token name : string)
    (report_definition : json) (w : world lists) :
  getitem report_definition "name" = Ok (JStr name) ->
  entry_ok int_of_str report_definition = true ->
  let run := create_one net rng int_of_str repr (JStr token) report_definition w in
  exists suffix fields,
    fst (random_choices rng suffix_alphabet 6 w) = Ok suffix
    /\ String.length suffix = 6%nat
    /\ all_upper_or_digit suffix = true
    /\ sent (trace (snd run))
       = sent (trace w)
         ++ [creation_request (JStr token)
               (JDict (("name", JStr (name +:+ " " +:+ suffix)) :: fields))]
    /\ (forall id,
          created_id (net (requests_made w)) = Some id ->
          successful_reports (globals (snd run))
          = successful_reports (globals w) ++ [name +:+ " " +:+ suffix]).
Proof.
  intros Hname Hok. cbn zeta.
  destruct (create_one_ok net rng int_of_str repr token _ w Hok) as [fields ->].
  assert (suffix_alphabet <> "") as Hne by discriminate.
  destruct (picks_shape rng suffix_alphabet 6 (draws_made w) Hne) as [Hlen Hfrom].
  exists (picks rng suffix_alphabet 6 (draws_made w)), fields.
  rewrite random_choices_run. cbn [fst].
  split; [reflexivity|]. split; [exact Hlen|]. split; [by apply drawn_from_alphabet|].
  assert (suffixed_name rng repr report_definition (draws_made w)
          = name +:+ " " +:+ picks rng suffix_alphabet 6 (draws_made w)) as Hsuffixed
    by (unfold suffixed_name; by rewrite Hname).
  assert (sent (trace (at_response rng repr (JStr token) report_definition w fields))
          = sent (trace w)
            ++ [creation_request (JStr token)
                  (JDict (("name",
                           JStr (name +:+ " " +:+ picks rng suffix_alphabet 6 (draws_made w)))
                          :: fields))]) as Hsent.
  { rewrite trace_at_response, !sent_app, Hsuffixed.
    destruct (draw_events_no_request rng suffix_alphabet 6 (draws_made w)) as [-> _].
    reflexivity. }
  destruct (created_id (net (requests_made w))) as [id|] eqn:Hid.
  - rewrite (handle_response_created _ _ _ id Hid). cbn [snd].
    unfold record_creation. cbn [trace globals successful_reports].
    rewrite sent_app, Hsent. split.
    + change (sent (success_events ?n ?i)) with (@nil request). by rewrite app_nil_r.
    + intros id' _. by rewrite Hsuffixed.
  - match goal with
    | |- context [handle_response ?n ?r ?w0] =>
        destruct (handle_response_skipped n r w0 Hid) as (r0 & evs & -> & Hevs)
    end.
    cbn [snd]. rewrite trace_extend, sent_app, Hevs, app_nil_r. split; [exact Hsent|].
    discriminate.
Qed.

Lemma suffixed_name_shape_witness :
  let run := create_one (fun _ => created "id-1") counter_rng sample_int_of_str sample_repr
               (JStr "token") (entry "Cost by service") start in
  exists suffix fields,
    fst (random_choices counter_rng suffix_alphabet 6 start) = Ok suffix
    /\ String.length suffix = 6%nat
    /\ all_upper_or_digit suffix = true
    /\ sent (trace (snd run))
       = sent (trace start)
         ++ [creation_request (JStr "token")
               (JDict (("name", JStr ("Cost by service" +:+ " " +:+ suffix)) :: fields))]
    /\ (forall id,
          created_id (created "id-1") = Some id ->
          successful_reports (globals (snd run))
          = successful_reports (globals start) ++ ["Cost by service" +:+ " " +:+ suffix]).
Proof.
  apply (suffixed_name_shape (fun _ => created "id-1") counter_rng sample_int_of_str
           sample_repr "token" "Cost by service" (entry "Cost by service") start).
  - reflexivity.
  - reflexivity.
Defined.

Section Loop.

Variable net : nat -> http_reply.
Variable rng : nat -> nat.
Variable int_of_str : string -> option Z.
Variable repr : json -> string.

(** What one iteration adds: at most one request, which is a creation
    request carrying the token, and at most one ID, only with a request. *)
Lemma create_one_counts (access_token report_definition : json) (w : world lists) :
  let w' := snd (create_one net rng int_of_str repr access_token report_definition w) in
  exists requests,
    sent (trace w') = sent (trace w) ++ requests
    /\ (length requests <= 1)%nat
    /\ Forall (fun r => exists variables, r = creation_request access_token variables)
         requests
    /\ (length (flex_report_ids (globals w))
        <= length (flex_report_ids (globals w')))%nat
    /\ (length (flex_report_ids (globals w'))
        <= length (flex_report_ids (globals w)) + length requests)%nat.
Proof.
  cbn zeta. rewrite create_one_run.
  assert (sent (draw_events rng suffix_alphabet 6 (draws_made w)) = []) as Hdraws
    by apply draw_events_no_request.
  destruct (getitem report_definition "name") as [report_name|e];
    [|exists []; cbn [snd]; rewrite app_nil_r; repeat split; first [done | lia | by constructor | cbn; lia]].
  cbn zeta.
  destruct (variables_of _ _ _) as [variables|e];
    [|exists []; cbn [snd]; rewrite trace_extend, sent_app, Hdraws, !app_nil_r;
      repeat split; first [done | lia | by constructor | cbn; lia]].
  destruct access_token as [| | |token| |];
    try (exists []; cbn [snd]; rewrite trace_extend, sent_app, Hdraws, !app_nil_r;
         repeat split; first [done | lia | by constructor | cbn; lia]).
  exists [creation_request (JStr token) variables].
  assert (Forall (fun r => exists variables0, r = creation_request (JStr token) variables0)
            [creation_request (JStr token) variables]) as Hall
    by (constructor; [by eexists|constructor]).
  destruct (created_id (net (requests_made w))) as [id|] eqn:Hid.
  - rewrite (handle_response_created _ _ _ id Hid). cbn [snd].
    unfold record_creation. cbn [trace globals flex_report_ids].
    rewrite !trace_extend, !sent_app, Hdraws, length_app. cbn [app length].
    change (globals (extend (extend w ?a) ?b)) with (globals w).
    split; [|split; [lia|split; [exact Hall|split; lia]]].
    rewrite app_nil_r. change (sent (success_events ?n ?i)) with (@nil request).
    by rewrite app_nil_r.
  - match goal with
    | |- context [handle_response ?n ?r ?w0] =>
        destruct (handle_response_skipped n r w0 Hid) as (r0 & evs & -> & Hevs)
    end.
    cbn [snd]. rewrite !trace_extend, !sent_app, Hdraws, Hevs. cbn [app length].
    change (globals (extend (extend (extend w ?a) ?b) ?c)) with (globals w).
    split; [|split; [lia|split; [exact Hall|split; lia]]].
    by rewrite !app_nil_r.
Qed.

Lemma for_each_counts (access_token : json) (items : list json) :
  forall w : world lists,
    let w' := snd (for_each (create_one net rng int_of_str repr access_token) items w) in
    exists requests,
      sent (trace w') = sent (trace w) ++ requests
      /\ (length requests <= length items)%nat
      /\ Forall (fun r => exists variables, r = creation_request access_token variables)
           requests
      /\ (length (flex_report_ids (globals w'))
          <= length (flex_report_ids (globals w)) + length requests)%nat.
Proof.
  induction items as [|item items IH]; intros w; cbn zeta.
  - exists []. cbn. rewrite app_nil_r. repeat split; first [done | lia | by constructor | cbn; lia].
  - cbn [for_each]. unfold bind.
    destruct (create_one_counts access_token item w)
      as (reqs1 & Hsent1 & Hlen1 & Hall1 & _ & Hids1). cbn zeta in *.
    destruct (create_one net rng int_of_str repr access_token item w) as [[[]|e] w1];
      cbn [snd] in *.
    + destruct (IH w1) as (reqs2 & Hsent2 & Hlen2 & Hall2 & Hids2). cbn zeta in *.
      exists (reqs1 ++ reqs2). rewrite Hsent2, Hsent1, length_app.
      split; [by rewrite app_assoc|]. split; [cbn; lia|].
      split; [by apply Forall_app|lia].
    + exists reqs1. split; [exact Hsent1|]. split; [cbn; lia|]. split; [exact Hall1|lia].
Qed.

End Loop.

(** The loop over the items of the manifest, from the two empty lists. *)
Lemma create_all_items net rng int_of_str repr
    (access_token report_definitions : json) (items : list json) (w : world lists) :
  iter_items report_definitions = Ok items ->
  create_all net rng int_of_str repr access_token report_definitions w
  = for_each (create_one net rng int_of_str repr access_token) items
      (mkWorld (trace w) (fs w) (mkLists [] [])).
Proof.
  intros Hitems. unfold create_all, bind, set_globals, lift. by rewrite Hitems.
Qed.

(** The loop sends at most one request per manifest entry, every one a
    creation request carrying the access token, and records at most one
    ID per request sent. *)
Theorem loop_requests_and_ids net rng int_of_str repr
    (access_token report_definitions : json) (items : list json) (w : world lists) :
  iter_items report_definitions = Ok items ->
  let w' := snd (create_all net rng int_of_str repr access_token report_definitions w) in
  exists requests,
    sent (trace w') = sent (trace w) ++ requests
    /\ (length requests <= length items)%nat
    /\ Forall (fun r => exists variables, r = creation_request access_token variables)
         requests
    /\ (length (flex_report_ids (globals w')) <= length requests)%nat.
Proof.
  intros Hitems. cbn zeta.
  rewrite (create_all_items net rng int_of_str repr access_token _ items w Hitems).
  destruct (for_each_counts net rng int_of_str repr access_token items
              (mkWorld (trace w) (fs w) (mkLists [] [])))
    as (requests & Hsent & Hlen & Hall & Hids). cbn zeta in *.
  exists requests. cbn [trace globals flex_report_ids length] in *.
  split; [exact Hsent|]. split; [exact Hlen|]. split; [exact Hall|]. lia.
Qed.

Lemma loop_requests_and_ids_witness :
  let w' := snd (create_all creations_second_omits_id counter_rng sample_int_of_str
                   sample_repr (JStr "token") three_entries start) in
  exists requests,
    sent (trace w') = sent (trace start) ++ requests
    /\ (length requests <= length [entry "A"; entry "B"; entry "C"])%nat
    /\ Forall (fun r => exists variables, r = creation_request (JStr "token") variables)
         requests
    /\ (length (flex_report_ids (globals w')) <= length requests)%nat.
Proof.
  apply (loop_requests_and_ids creations_second_omits_id counter_rng sample_int_of_str
           sample_repr (JStr "token") three_entries [entry "A"; entry "B"; entry "C"] start).
  reflexivity.
Defined.

End CreateMore.

Module CreateScriptMore.
Import Py Script CreateFlexReports WorldFacts CreateFacts.
Local Open Scope script_scope.
Implicit Types (net : nat -> http_reply) (rng : nat -> nat)
  (int_of_str : string -> option Z) (repr : json -> string)
  (stdin : nat -> option string) (argv : list string)
  (load : string -> load_result).

(** The file name is asked for at most once, and no request is made for
    it. *)
Lemma get_filename_run stdin argv (w : world lists) :
  exists r evs,
    get_filename stdin argv w = (r, extend w evs)
    /\ sent evs = [] /\ (length (List.filter is_prompted evs) <= 1)%nat.
Proof.
  unfold get_filename.
  destruct argv as [|prog [|a rest]].
  - unfold bind, input. destruct (stdin (prompts_made w)); eexists _, _; by split.
  - unfold bind, input. destruct (stdin (prompts_made w)); eexists _, _; by split.
  - exists (Ok a), []. rewrite extend_nil. split; [done|]. split; [done|]. cbn. lia.
Qed.

Ltac token_done :=
  eexists _, _; split; [reflexivity|]; cbn [trace fs globals extend];
  rewrite !sent_app; cbn; rewrite ?app_nil_r; by repeat split.



(** When the manifest cannot be opened or parsed, the script prints one
    line and exits with status 1: the API key is not asked for, nothing
    is sent and no file is written. *)
Theorem script_stops_when_manifest_unreadable net stdin rng argv load int_of_str repr
    (json_filename : string) (w w0 : world lists) :
  get_filename stdin argv w = (Ok json_filename, w0) ->
  (forall report_definitions, load json_filename <> Loaded report_definitions) ->
  exists w',
    script net stdin rng argv load int_of_str repr w = (Raise (SystemExit 1), w')
    /\ sent (trace w') = sent (trace w)
    /\ fs w' = fs w
    /\ prompts_made w' = prompts_made w0
    /\ exists l, printed (trace w') = printed (trace w0) ++ [l].
Proof.
  intros Hname Hload.
  destruct (get_filename_run stdin argv w) as (r & evs & Hrun & Hsent & _).
  rewrite Hname in Hrun. injection Hrun as _ ->.
  unfold script. unfold bind at 1. rewrite Hname.
  destruct (load json_filename) as [|why|report_definitions] eqn:Hl;
    [| |by destruct (Hload report_definitions)].
  - run_effects. eexists. split; [reflexivity|]. cbn [trace fs extend].
    rewrite !sent_app, Hsent. cbn. rewrite !app_nil_r.
    split; [done|]. split; [done|]. split.
    + unfold prompts_made. cbn [trace]. rewrite !List.filter_app. cbn.
      by rewrite !app_nil_r.
    + eexists. rewrite !printed_app, <- !app_assoc. reflexivity.
  - run_effects. eexists. split; [reflexivity|]. cbn [trace fs extend].
    rewrite !sent_app, Hsent. cbn. rewrite !app_nil_r.
    split; [done|]. split; [done|]. split.
    + unfold prompts_made. cbn [trace]. rewrite !List.filter_app. cbn.
      by rewrite !app_nil_r.
    + eexists. rewrite !printed_app, <- !app_assoc. reflexivity.
Qed.

Lemma script_stops_when_manifest_unreadable_witness :
  exists w',
    script all_created typed_key counter_rng command_line nothing_loads
      sample_int_of_str sample_repr start = (Raise (SystemExit 1), w')
    /\ sent (trace w') = sent (trace start)
    /\ fs w' = fs start
    /\ prompts_made w' = prompts_made start
    /\ exists l, printed (trace w') = printed (trace start) ++ [l].
Proof.
  apply (script_stops_when_manifest_unreadable all_created typed_key counter_rng
           command_line nothing_loads sample_int_of_str sample_repr "reports.json"
           start start).
  - reflexivity.
  - intros report_definitions. discriminate.
Defined.

(** When the token request gets no reply or an error status, the script
    prints [Failed to retrieve access token:] and exits with status 1;
    the token request is the only one sent and no file is written. *)
Theorem script_exits_when_token_refused net stdin rng argv load int_of_str repr
    (json_filename api_key : string) (report_definitions : json) (w w0 : world lists) :
  get_filename stdin argv w = (Ok json_filename, w0) ->
  load json_filename = Loaded report_definitions ->
  stdin (prompts_made w0) = Some api_key ->
  refused (net (requests_made w0)) = true ->
  exists w',
    script net stdin rng argv load int_of_str repr w = (Raise (SystemExit 1), w')
    /\ sent (trace w') = sent (trace w) ++ [token_request api_key]
    /\ fs w' = fs w
    /\ exists e,
         last (printed (trace w'))
         = Some [Lit "Failed to retrieve access token:"; Lit " "; Err e].
Proof.
  intros Hname Hload Hkey Hrefused.
  destruct (get_filename_run stdin argv w) as (r & evs & Hrun & Hsent & _).
  rewrite Hname in Hrun. injection Hrun as _ ->.
  unfold script. unfold bind at 1. rewrite Hname, Hload.
  unfold bind at 1, ret at 1. unfold bind at 1, input at 1. rewrite Hkey.
  unfold bind at 1, ret at 1. unfold bind at 1.
  assert (requests_made (extend (extend w evs) [Prompted "Enter your CloudHealth API key: "])
          = requests_made (extend w evs)) as Hreq.
  { rewrite requests_made_extend. cbn. lia. }
  unfold get_access_token, try_except, bind at 1, http at 1. rewrite Hreq.
  fold (token_request api_key).
  unfold refused in Hrefused.
  destruct (net (requests_made (extend w evs))) as [why|status reason body text].
  - run_effects. eexists. split; [reflexivity|]. cbn [trace fs extend].
    rewrite !sent_app, Hsent. cbn. rewrite ?app_nil_r.
    split; [done|]. split; [done|]. eexists. rewrite !printed_app.
    rewrite !last_app. reflexivity.
  - rewrite Hrefused.
    run_effects. eexists. split; [reflexivity|]. cbn [trace fs extend].
    rewrite !sent_app, Hsent. cbn. rewrite ?app_nil_r.
    split; [done|]. split; [done|]. eexists. rewrite !printed_app.
    rewrite !last_app. reflexivity.
Qed.

Lemma script_exits_when_token_refused_witness :
  exists w',
    script token_refused typed_key counter_rng command_line
      (fun _ => Loaded three_entries) sample_int_of_str sample_repr start
    = (Raise (SystemExit 1), w')
    /\ sent (trace w') = sent (trace start) ++ [token_request "api-key"]
    /\ fs w' = fs start
    /\ exists e,
         last (printed (trace w'))
         = Some [Lit "Failed to retrieve access token:"; Lit " "; Err e].
Proof.
  apply (script_exits_when_token_refused token_refused typed_key counter_rng command_line
           (fun _ => Loaded three_entries) sample_int_of_str sample_repr
           "reports.json" "api-key" three_entries start start); reflexivity.
Defined.

(** When the loop is ended by an exception, the script ends with it and
    neither output file is written, whatever was created before. *)
Theorem loop_failure_writes_no_file net rng int_of_str repr
    (access_token report_definitions : json) (e : exn) (w : world lists) :
  fst (create_all net rng int_of_str repr access_token report_definitions w) = Raise e ->
  create_and_save net rng int_of_str repr access_token report_definitions w
  = create_all net rng int_of_str repr access_token report_definitions w
  /\ fs (snd (create_and_save net rng int_of_str repr access_token report_definitions w))
     = fs w.
Proof.
  intros Hloop.
  destruct (create_all_paired net rng int_of_str repr access_token report_definitions w)
    as [_ Hfs]. cbn zeta in Hfs.
  unfold create_and_save, bind.
  destruct (create_all net rng int_of_str repr access_token report_definitions w)
    as [[[]|e0] w1]; cbn [fst snd] in *; [discriminate|]. by split.
Qed.

Lemma loop_failure_writes_no_file_witness :
  create_and_save all_created counter_rng sample_int_of_str sample_repr (JStr "token")
    second_unnamed start
  = create_all all_created counter_rng sample_int_of_str sample_repr (JStr "token")
      second_unnamed start
  /\ fs (snd (create_and_save all_created counter_rng sample_int_of_str sample_repr
                (JStr "token") second_unnamed start))
     = fs start.
Proof.
  apply (loop_failure_writes_no_file all_created counter_rng sample_int_of_str sample_repr
           (JStr "token") second_unnamed (KeyError "name") start).
  vm_compute. reflexivity.
Defined.

(** A manifest without entries sends and prints nothing, and still
    replaces [previous-run.list] by an empty file. *)
Theorem empty_manifest_overwrites_ids_file net rng int_of_str repr
    (access_token report_definitions : json) (w : world lists) :
  iter_items report_definitions = Ok [] ->
  exists w',
    create_and_save net rng int_of_str repr access_token report_definitions w = (Ok tt, w')
    /\ trace w' = trace w
    /\ fs w' = <["previous-run.list" := []]> (fs w).
Proof.
  intros Hitems. unfold create_and_save, bind at 1.
  rewrite (CreateMore.create_all_items net rng int_of_str repr access_token _ [] w Hitems).
  cbn [for_each]. unfold ret at 1. unfold write_lists. run_effects.
  cbn [globals flex_report_ids successful_reports id_lines flat_map].
  unfold write_file. cbn [trace fs globals]. eexists. by split.
Qed.

Lemma empty_manifest_overwrites_ids_file_witness :
  exists w',
    create_and_save all_created counter_rng sample_int_of_str sample_repr (JStr "token")
      (JList []) start = (Ok tt, w')
    /\ trace w' = trace start
    /\ fs w' = <["previous-run.list" := []]> (fs start).
Proof.
  apply (empty_manifest_overwrites_ids_file all_created counter_rng sample_int_of_str
           sample_repr (JStr "token") (JList []) start).
  reflexivity.
Defined.

(** The unwrapping of a response yields truthy IDs only. *)
Lemma created_id_truthy (reply : http_reply) (id : json) :
  created_id reply = Some id -> truthy id = true.
Proof.
  unfold created_id. intros Hid.
  destruct reply as [why|status reason [[| | | | |result]|] text]; try discriminate Hid.
  destruct (status =? 200); [|discriminate Hid].
  destruct (default (JDict []) (assoc "data" result)) as [| | | | |[|b data]];
    try discriminate Hid.
  destruct (default (JDict []) (assoc "createFlexReport" (b :: data)))
    as [| | | | |[|c created]]; try discriminate Hid.
  lazy zeta in Hid.
  destruct (truthy (default JNull (assoc "id" (c :: created)))) eqn:Htruthy;
    [|discriminate Hid].
  by injection Hid as <-.
Qed.

Section Loop.

Variable net : nat -> http_reply.
Variable rng : nat -> nat.
Variable int_of_str : string -> option Z.
Variable repr : json -> string.

(** With a token that is not a string an iteration stops before its
    request. *)
Lemma create_one_without_token (access_token report_definition : json) (w : world lists) :
  (forall s, access_token <> JStr s) ->
  exists e evs,
    create_one net rng int_of_str repr access_token report_definition w
    = (Raise e, extend w evs) /\ sent evs = [].
Proof.
  intros Htoken. rewrite create_one_run.
  assert (sent (draw_events rng suffix_alphabet 6 (draws_made w)) = []) as Hdraws
    by apply draw_events_no_request.
  destruct (getitem report_definition "name") as [report_name|e];
    [|exists e, []; by rewrite extend_nil].
  cbn zeta.
  destruct (variables_of _ _ _) as [variables|e]; [|by eexists _, _].
  destruct access_token as [| | |token| |]; try by eexists _, _.
  by destruct (Htoken token).
Qed.

(** Every ID the loop records is a truthy value. *)
Lemma for_each_ids_truthy (access_token : json) (items : list json) :
  forall w : world lists,
    Forall (fun id => truthy id = true) (flex_report_ids (globals w)) ->
    Forall (fun id => truthy id = true)
      (flex_report_ids
         (globals (snd (for_each (create_one net rng int_of_str repr access_token)
                          items w)))).
Proof.
  induction items as [|item items IH]; intros w Hall; [done|].
  cbn [for_each]. unfold bind.
  destruct (create_one_step net rng int_of_str repr access_token item w) as [_ Hstep].
  cbn zeta in Hstep.
  destruct (create_one net rng int_of_str repr access_token item w) as [r w1];
    cbn [fst snd] in *.
  assert (Forall (fun id => truthy id = true) (flex_report_ids (globals w1))) as Hall1.
  { destruct Hstep as [->|(id & Hid & _ & -> & _)]; [done|].
    apply Forall_app. split; [done|]. constructor; [|constructor].
    by apply (created_id_truthy (net (requests_made w))). }
  destruct r as [[]|e]; cbn [snd]; [by apply IH|done].
Qed.

End Loop.

(** With an access token that is not a string (a null [accessToken],
    say) no creation request is ever sent and nothing is recorded. *)
Theorem non_string_token_creates_nothing net rng int_of_str repr
    (access_token report_definitions : json) (w : world lists) :
  (forall s, access_token <> JStr s) ->
  let w' := snd (create_all net rng int_of_str repr access_token report_definitions w) in
  sent (trace w') = sent (trace w) /\ globals w' = mkLists [] [].
Proof.
  intros Htoken. cbn zeta. unfold create_all. run_effects.
  destruct (iter_items report_definitions) as [[|item items]|e]; try done.
  cbn [for_each]. unfold bind.
  destruct (create_one_without_token net rng int_of_str repr access_token item
              (mkWorld (trace w) (fs w) (mkLists [] [])) Htoken)
    as (e & evs & -> & Hsent).
  cbn [snd trace globals extend]. rewrite sent_app, Hsent. by rewrite app_nil_r.
Qed.

Lemma non_string_token_creates_nothing_witness :
  let w' := snd (create_all all_created counter_rng sample_int_of_str sample_repr JNull
                   three_entries start) in
  sent (trace w') = sent (trace start) /\ globals w' = mkLists [] [].
Proof.
  apply (non_string_token_creates_nothing all_created counter_rng sample_int_of_str
           sample_repr JNull three_entries start).
  intros s. discriminate.
Defined.

(** Every ID the loop records is truthy: a response whose ID is null,
    empty or zero is not counted as a creation. *)
Theorem recorded_ids_are_truthy net rng int_of_str repr
    (access_token report_definitions : json) (w : world lists) :
  Forall (fun id => truthy id = true)
    (flex_report_ids
       (globals (snd (create_all net rng int_of_str repr access_token report_definitions
                        w)))).
Proof.
  unfold create_all. run_effects.
  destruct (iter_items report_definitions) as [items|e]; [|constructor].
  apply for_each_ids_truthy. constructor.
Qed.

(** An entry whose response has a status other than 200 is reported in
    two lines, the status code and the text of the response; the loop
    goes on and the lists and the files stay as they are. *)
Theorem rejected_entry_is_logged_and_skipped net rng int_of_str repr
    (token reason text : string) (status : Z) (body : option json)
    (report_definition : json) (w : world lists) :
  entry_ok int_of_str report_definition = true ->
  net (requests_made w) = Reply status reason body text ->
  status <> 200 ->
  exists w',
    create_one net rng int_of_str repr (JStr token) report_definition w = (Ok tt, w')
    /\ globals w' = globals w
    /\ fs w' = fs w
    /\ printed (trace w')
       = printed (trace w)
         ++ [[Lit "Failed to create FlexReport '";
              Lit (suffixed_name rng repr report_definition (draws_made w));
              Lit "'. Status code:"; Lit " "; Int status];
             [Lit "Response:"; Lit " "; Lit text]].
Proof.
  intros Hok Hreply Hstatus. destruct (create_one_ok net rng int_of_str repr token _ w Hok) as [fields ->].
  rewrite Hreply. unfold handle_response.
  assert ((status =? 200) = false) as -> by lia.
  run_effects. eexists. split; [reflexivity|].
  unfold at_response. cbn [globals fs trace extend].
  split; [done|]. split; [done|].
  rewrite <- !app_assoc, !printed_app.
  assert (printed (draw_events rng suffix_alphabet 6 (draws_made w)) = []) as ->.
  { generalize (draws_made w). generalize 6%nat.
    intros k. induction k as [|k IH]; intros first; [done|]. cbn. apply IH. }
  reflexivity.
Qed.

Lemma rejected_entry_is_logged_and_skipped_witness :
  exists w',
    create_one (fun _ => Reply 500 "500 Server Error" None "busy") counter_rng
      sample_int_of_str sample_repr (JStr "token") (entry "A") start = (Ok tt, w')
    /\ globals w' = globals start
    /\ fs w' = fs start
    /\ printed (trace w')
       = printed (trace start)
         ++ [[Lit "Failed to create FlexReport '";
              Lit (suffixed_name counter_rng sample_repr (entry "A") (draws_made start));
              Lit "'. Status code:"; Lit " "; Int 500];
             [Lit "Response:"; Lit " "; Lit "busy"]].
Proof.
  apply (rejected_entry_is_logged_and_skipped (fun _ => Reply 500 "500 Server Error" None "busy")
           counter_rng sample_int_of_str sample_repr "token" "500 Server Error" "busy" 500
           None (entry "A") start).
  - reflexivity.
  - reflexivity.
  - lia.
Defined.

End CreateScriptMore.
